(** * Billing and installment ledger of backend/server.py

    A shallow embedding of the accounting part of [backend/server.py]:
    the serial-number allocator, order creation, invoice creation from
    an approved order, installment scheduling, the two payment handlers
    and the clinic credit score, followed by the properties of the
    ledger specification that were checked against it.

    Modelling conventions.
    - A MongoDB collection is the list of its documents in insertion
      order; [find_one] returns the first match and [update_one] rewrites
      the first match.
    - A handler is a function from the database to the database reached
      when it stops and either its return value or the exception it
      raised: writes made before an exception stay in the database,
      exactly as the sequential [await db....] calls leave them.
    - Monetary amounts are Python [float]s in the source.  The handlers
      of the ledger are given twice.  In the first version the amounts
      are exact rationals ([Qc]) and always numbers; the properties
      proved on it are stated with the operations the code performs on
      numbers (a sum, a difference, a quotient, [min], [max], a
      comparison).  The second version, [Binary64], has the amounts as
      IEEE 754 binary64 numbers with the arithmetic of the machine:
      what the specification says of the installment amounts is settled
      on it, and it is evaluated at concrete inputs to show what
      rounding does to the sums.
    - [uuid.uuid4()] is drawn from a counter kept next to the database.
    - Timestamps that no handler reads ([created_at], [updated_at],
      [paid_date], [payment_date]) and the display-name snapshots are
      left out of the records.  [paid_date], which the specification of
      the credit score needs and the scorer does not read, is paired
      with the installment in [Spec.history_entry]. *)

From Stdlib Require Import ZArith QArith Qcanon List String Bool Lia Lqa.
From Stdlib Require Import DecimalString.
From Stdlib Require Floats.
Import ListNotations.

(** A decimal literal of type [float] denotes the nearest binary64
    number, as it does in Python. *)
Set Warnings "-inexact-float,-notation-overridden".

Local Open Scope string_scope.
Local Open Scope Z_scope.

(** ** Python built-ins used by the handlers *)

Module Py.

Definition ltb (a b : Qc) : bool := negb (Qle_bool b a).
Definition leb (a b : Qc) : bool := Qle_bool a b.
Definition gtb (a b : Qc) : bool := ltb b a.

(** [min(a, b)]: the first argument unless the second is smaller. *)
Definition min (a b : Qc) : Qc := if ltb b a then b else a.

(** [max(a, b)]: the first argument unless the second is larger. *)
Definition max (a b : Qc) : Qc := if gtb b a then b else a.

(** Truth value of an optional string: [None] and [''] are false. *)
Definition truthy (s : option string) : bool :=
  match s with
  | Some (String _ _) => true
  | _ => false
  end.

(** [range(n)] for an [int] n. *)
Definition range (n : Z) : list Z := map Z.of_nat (seq 0 (Z.to_nat n)).

(** [str(n)] for a natural number. *)
Definition str (n : nat) : string := NilEmpty.string_of_uint (Nat.to_uint n).

Definition of_Z (z : Z) : Qc := Q2Qc (inject_Z z).

End Py.

(** ** Exceptions and the handler monad *)

Inductive exn : Type :=
| HTTPException (status_code : Z) (detail : string)
| AttributeError (name : string)
| ValidationError (field : string)
| ZeroDivisionError
| ValueError (msg : string)
| OverflowError (msg : string)
| TypeError.

Inductive result (A : Type) : Type :=
| Ok (a : A)
| Raised (e : exn).
Arguments Ok {A} a.
Arguments Raised {A} e.

(** ** datetime *)

Module Datetime.

(** A [datetime]: proleptic Gregorian date, time of day in microseconds
    and, for an aware value, the UTC offset in microseconds. *)
Record t : Type := mk {
  year : Z;
  month : Z;
  day : Z;
  micro_of_day : Z;
  utcoffset : option Z
}.

Definition MINYEAR : Z := 1.
Definition MAXYEAR : Z := 9999.

Definition is_leap (y : Z) : bool :=
  (y mod 4 =? 0) && (negb (y mod 100 =? 0) || (y mod 400 =? 0)).

Definition days_in_month (y m : Z) : Z :=
  if m =? 2 then (if is_leap y then 29 else 28)
  else if (m =? 4) || (m =? 6) || (m =? 9) || (m =? 11) then 30
  else 31.

Definition days_before_year (y : Z) : Z :=
  let y' := y - 1 in y' * 365 + y' / 4 - y' / 100 + y' / 400.

Fixpoint days_before_month_aux (y : Z) (m : nat) : Z :=
  match m with
  | O => 0
  | S m' => days_before_month_aux y m' + days_in_month y (Z.of_nat m)
  end.

(** Days of year [y] that precede the first day of month [m]. *)
Definition days_before_month (y m : Z) : Z :=
  days_before_month_aux y (Z.to_nat (m - 1)).

(** The fields denote a date the [datetime] constructor accepts. *)
Definition valid_date (y m d : Z) : bool :=
  (MINYEAR <=? y) && (y <=? MAXYEAR) && (1 <=? m) && (m <=? 12)
  && (1 <=? d) && (d <=? days_in_month y m).

Definition toordinal (x : t) : Z :=
  days_before_year (year x) + days_before_month (year x) (month x) + day x.

Definition MAXORDINAL : Z := 3652059.

(** Month and day of the [n]-th day (from 0) of year [y], searching the
    months in order; [fuel] counts the months left to try. *)
Fixpoint month_day_of (y : Z) (m : Z) (n : Z) (fuel : nat) : Z * Z :=
  match fuel with
  | O => (m, n + 1)
  | S fuel' =>
      let dim := days_in_month y m in
      if n <? dim then (m, n + 1) else month_day_of y (m + 1) (n - dim) fuel'
  end.

(** [date.fromordinal]: the 400/100/4/1-year cycle decomposition. *)
Definition fromordinal_ymd (ord : Z) : Z * Z * Z :=
  let n := ord - 1 in
  let n400 := n / 146097 in
  let n := n mod 146097 in
  let n100 := n / 36524 in
  let n := n mod 36524 in
  let n4 := n / 1461 in
  let n := n mod 1461 in
  let n1 := n / 365 in
  let n := n mod 365 in
  let y := n400 * 400 + 1 + n100 * 100 + n4 * 4 + n1 in
  if (n1 =? 4) || (n100 =? 4) then (y - 1, 12, 31)
  else let '(m, d) := month_day_of y 1 n 11 in (y, m, d).

(** [x.replace(year=y, month=m, day=d)] *)
Definition replace (x : t) (y m d : Z) : result t :=
  if valid_date y m d
  then Ok (mk y m d (micro_of_day x) (utcoffset x))
  else if negb ((MINYEAR <=? y) && (y <=? MAXYEAR))
  then Raised (ValueError "year is out of range")
  else if negb ((1 <=? m) && (m <=? 12))
  then Raised (ValueError "month must be in 1..12")
  else Raised (ValueError "day is out of range for month").

(** [x + timedelta(days=n)] *)
Definition add_days (x : t) (n : Z) : result t :=
  if (Z.abs n >? 999999999) then
    Raised (OverflowError "days out of range for timedelta")
  else
    let ord := toordinal x + n in
    if (1 <=? ord) && (ord <=? MAXORDINAL) then
      let '(y, m, d) := fromordinal_ymd ord in
      Ok (mk y m d (micro_of_day x) (utcoffset x))
    else Raised (OverflowError "date value out of range").

Definition DAY_US : Z := 86400000000.

(** Microseconds since the epoch of day 0, in UTC, of an aware value. *)
Definition utc_micros (x : t) (off : Z) : Z :=
  toordinal x * DAY_US + micro_of_day x - off.

(** [(a - b).days] for two aware values; [None] stands for the
    [TypeError] of mixing an aware and a naive value. *)
Definition sub_days (a b : t) : option Z :=
  match utcoffset a, utcoffset b with
  | Some oa, Some ob => Some ((utc_micros a oa - utc_micros b ob) / DAY_US)
  | _, _ => None
  end.

End Datetime.

(** ** Enumerations *)

(** [class AuditLogType(str, Enum)] *)
Inductive AuditLogType : Type :=
| INVOICE_CREATED
| PAYMENT_RECORDED
| EXPENSE_APPROVED
| EXPENSE_REJECTED
| INVOICE_CANCELLED.

(** The expression [AuditLogType.NAME]: attribute lookup on the class,
    which raises [AttributeError] for a name that is not a member. *)
Definition AuditLogType_getattr (name : string) : result AuditLogType :=
  if String.eqb name "INVOICE_CREATED" then Ok INVOICE_CREATED
  else if String.eqb name "PAYMENT_RECORDED" then Ok PAYMENT_RECORDED
  else if String.eqb name "EXPENSE_APPROVED" then Ok EXPENSE_APPROVED
  else if String.eqb name "EXPENSE_REJECTED" then Ok EXPENSE_REJECTED
  else if String.eqb name "INVOICE_CANCELLED" then Ok INVOICE_CANCELLED
  else Raised (AttributeError name).

(** [class PaymentMethod(str, Enum)] *)
Inductive PaymentMethod : Type :=
| CASH | BANK_TRANSFER | CHECK | CREDIT | E_WALLET | INSTAPAY | ELECTRONIC.

Definition PaymentMethod_value (m : PaymentMethod) : string :=
  match m with
  | CASH => "cash"
  | BANK_TRANSFER => "bank"
  | CHECK => "check"
  | CREDIT => "credit"
  | E_WALLET => "e_wallet"
  | INSTAPAY => "instapay"
  | ELECTRONIC => "electronic"
  end.

(** Validation of a [str] against the [PaymentMethod] field of a model. *)
Definition PaymentMethod_validate (s : string) : result PaymentMethod :=
  if String.eqb s "cash" then Ok CASH
  else if String.eqb s "bank" then Ok BANK_TRANSFER
  else if String.eqb s "check" then Ok CHECK
  else if String.eqb s "credit" then Ok CREDIT
  else if String.eqb s "e_wallet" then Ok E_WALLET
  else if String.eqb s "instapay" then Ok INSTAPAY
  else if String.eqb s "electronic" then Ok ELECTRONIC
  else Raised (ValidationError "payment_method").

(** [class InvoiceStatus(str, Enum)] *)
Inductive InvoiceStatus : Type :=
| APPROVED | PARTIALLY_PAID | FULLY_PAID | CANCELLED.

Definition InvoiceStatus_value (s : InvoiceStatus) : string :=
  match s with
  | APPROVED => "approved"
  | PARTIALLY_PAID => "partially_paid"
  | FULLY_PAID => "fully_paid"
  | CANCELLED => "cancelled"
  end.

(** ** Documents *)

(** A date kept as a string in a document or a request: either the
    [isoformat()] of a [datetime], which [datetime.fromisoformat] reads
    back, or text it rejects. *)
Inductive iso_string : Type :=
| Iso (d : Datetime.t)
| Malformed (raw : string).

(** The fields of an order document as the invoice factory reads them,
    with the defaults of its [order.get(key, default)] applied.
    [serial_number] is [Optional[int]] in [class Order]: it is [None] in
    the orders that [duplicate_order] and [reorder] store, which hold a
    null under the key; a document that lacks the key reads as 0. *)
Module Order.
Record t : Type := mk {
  id : string;
  serial_number : option Z;
  clinic_id : string;
  medical_rep_id : string;
  total_amount : Qc;
  payment_status : string;
  payment_method : option string;
  amount_paid : option Qc;
  schedule_type : string;
  installments_count : Z;
  interval_days : Z;
  grace_period_days : Z;
  first_due_date : option iso_string
}.
End Order.

(** The user dictionary of the acting user. *)
Module User.
Record t : Type := mk {
  id : string;
  role : string
}.
End User.

(** An entry of the [payments] list embedded in an invoice. *)
Module PaymentSummary.
Record t : Type := mk {
  id : string;
  payment_number : Z;
  amount : Qc;
  method : string
}.
End PaymentSummary.

Module Invoice.
Record t : Type := mk {
  id : string;
  invoice_number : Z;
  order_id : string;
  order_serial : Z;
  clinic_id : string;
  created_by : string;
  approved_by : string;
  total_amount : Qc;
  paid_amount : Qc;
  remaining_amount : Qc;
  status : string;
  payment_method : option string;
  payments : list PaymentSummary.t
}.
End Invoice.

Module Payment.
Record t : Type := mk {
  id : string;
  payment_number : Z;
  invoice_id : string;
  invoice_number : Z;
  clinic_id : string;
  amount : Qc;
  payment_method : PaymentMethod;
  collected_by : string
}.
End Payment.

(** The body of [POST /accounting/payments]. *)
Module PaymentCreate.
Record t : Type := mk {
  invoice_id : string;
  amount : Qc;
  payment_method : PaymentMethod
}.
End PaymentCreate.

(** The body of [POST /installments/{installment_id}/pay]. *)
Module InstallmentPaymentCreate.
Record t : Type := mk {
  amount : Qc;
  payment_method : string
}.
End InstallmentPaymentCreate.

Module AuditLog.
Record t : Type := mk {
  id : string;
  log_type : AuditLogType;
  entity_type : string;
  entity_id : string;
  entity_serial : Z;
  user_id : string;
  user_role : string;
  amount : option Qc;
  new_values : list (string * Qc)
}.
End AuditLog.

Module InstallmentSchedule.
Record t : Type := mk {
  id : string;
  invoice_id : string;
  invoice_number : Z;
  clinic_id : string;
  schedule_type : string;
  interval_days : option Z;
  total_amount : Qc;
  installments_count : Z;
  grace_period_days : Z;
  first_due_date : Datetime.t
}.
End InstallmentSchedule.

Module Installment.
Record t : Type := mk {
  id : string;
  schedule_id : string;
  invoice_id : string;
  invoice_number : Z;
  clinic_id : string;
  installment_number : Z;
  amount : Qc;
  paid_amount : Qc;
  remaining_amount : Qc;
  due_date : option iso_string;
  status : string;
  payment_ids : list string;
  rescheduled_from : option string
}.
End Installment.

Module ClinicCreditScore.
Record t : Type := mk {
  clinic_id : string;
  credit_score : Z;
  rating : string;
  total_installments : Z;
  paid_on_time : Z;
  paid_late : Z;
  current_overdue : Z
}.
End ClinicCreditScore.

(** ** The database *)

(** The collections the ledger touches.  [serials name] lists the
    [serial_number] field ([None] when absent or null) of the documents
    of any other collection [name] ([orders], [visits], [expenses]).
    [next_uuid] numbers the draws of [uuid.uuid4()]. *)
Record DB : Type := mkDB {
  invoices : list Invoice.t;
  payments : list Payment.t;
  installment_schedules : list InstallmentSchedule.t;
  installments : list Installment.t;
  audit_logs : list AuditLog.t;
  clinic_credit_scores : list ClinicCreditScore.t;
  counters : list (string * Z);
  serials : string -> list (option Z);
  next_uuid : nat
}.

Definition empty_db : DB :=
  mkDB [] [] [] [] [] [] [] (fun _ => []) 0.

(** A handler: database in, database out, value or exception. *)
Definition M (A : Type) : Type := DB -> DB * result A.

Definition ret {A} (a : A) : M A := fun db => (db, Ok a).

Definition raise {A} (e : exn) : M A := fun db => (db, Raised e).

Definition bind {A B} (c : M A) (k : A -> M B) : M B :=
  fun db =>
    match c db with
    | (db', Ok a) => k a db'
    | (db', Raised e) => (db', Raised e)
    end.

(** A computation that cannot touch the database. *)
Definition lift {A} (r : result A) : M A := fun db => (db, r).

Definition get : M DB := fun db => (db, Ok db).

Definition modify (f : DB -> DB) : M unit := fun db => (f db, Ok tt).

Notation "x <- c ;; k" := (bind c (fun x => k))
  (at level 61, c at next level, right associativity).
Notation "c ;;; k" := (bind c (fun _ => k))
  (at level 61, right associativity).

Definition exec {A} (c : M A) (db : DB) : DB := fst (c db).
Definition outcome {A} (c : M A) (db : DB) : result A := snd (c db).

(** [for x in xs: body(x)] *)
Fixpoint for_each {A} (xs : list A) (body : A -> M unit) : M unit :=
  match xs with
  | [] => ret tt
  | x :: xs' => body x ;;; for_each xs' body
  end.

(** [str(uuid.uuid4())] *)
Definition uuid4 : M string :=
  fun db =>
    (mkDB (invoices db) (payments db) (installment_schedules db)
          (installments db) (audit_logs db) (clinic_credit_scores db)
          (counters db) (serials db) (S (next_uuid db)),
     Ok ("uuid-" ++ Py.str (next_uuid db))%string).

(** ** Collection operations *)

Definition set_invoices (l : list Invoice.t) (db : DB) : DB :=
  mkDB l (payments db) (installment_schedules db) (installments db)
       (audit_logs db) (clinic_credit_scores db) (counters db) (serials db)
       (next_uuid db).

Definition set_payments (l : list Payment.t) (db : DB) : DB :=
  mkDB (invoices db) l (installment_schedules db) (installments db)
       (audit_logs db) (clinic_credit_scores db) (counters db) (serials db)
       (next_uuid db).

Definition set_installment_schedules (l : list InstallmentSchedule.t) (db : DB) : DB :=
  mkDB (invoices db) (payments db) l (installments db)
       (audit_logs db) (clinic_credit_scores db) (counters db) (serials db)
       (next_uuid db).

Definition set_installments (l : list Installment.t) (db : DB) : DB :=
  mkDB (invoices db) (payments db) (installment_schedules db) l
       (audit_logs db) (clinic_credit_scores db) (counters db) (serials db)
       (next_uuid db).

Definition set_audit_logs (l : list AuditLog.t) (db : DB) : DB :=
  mkDB (invoices db) (payments db) (installment_schedules db) (installments db)
       l (clinic_credit_scores db) (counters db) (serials db)
       (next_uuid db).

Definition set_clinic_credit_scores (l : list ClinicCreditScore.t) (db : DB) : DB :=
  mkDB (invoices db) (payments db) (installment_schedules db) (installments db)
       (audit_logs db) l (counters db) (serials db)
       (next_uuid db).

Definition set_counters (l : list (string * Z)) (db : DB) : DB :=
  mkDB (invoices db) (payments db) (installment_schedules db) (installments db)
       (audit_logs db) (clinic_credit_scores db) l (serials db)
       (next_uuid db).

(** [collection.insert_one(doc)]: the document goes last. *)
Definition insert_one {A} (doc : A) (l : list A) : list A := l ++ [doc].

(** [collection.find_one({key: v})]: the first document that matches. *)
Definition find_one {A} (p : A -> bool) (l : list A) : option A := find p l.

(** [collection.update_one({key: v}, {"$set": ...})]: the first document
    that matches is rewritten, the others are left alone. *)
Fixpoint update_one {A} (p : A -> bool) (f : A -> A) (l : list A) : list A :=
  match l with
  | [] => []
  | x :: l' => if p x then f x :: l' else x :: update_one p f l'
  end.

(** [update_one(..., upsert=True)] *)
Definition upsert_one {A} (p : A -> bool) (f : A -> A) (fresh : A) (l : list A) : list A :=
  if existsb p l then update_one p f l else l ++ [fresh].

(** ** Sequence allocator *)

(** The [serial_number] field of the documents of [db[collection_name]].
    The documents of [invoices] and [payments] are the [model_dump()] of
    [Invoice] and [Payment], whose number fields are [invoice_number] and
    [payment_number]: they carry no [serial_number] key. *)
Definition serial_numbers (db : DB) (collection_name : string) : list (option Z) :=
  if String.eqb collection_name "invoices" then map (fun _ => None) (invoices db)
  else if String.eqb collection_name "payments" then map (fun _ => None) (payments db)
  else serials db collection_name.

(** The largest [serial_number] among the documents that have one:
    [find_one({"serial_number": {"$exists": True, "$ne": None}},
    sort=[("serial_number", -1)])]. *)
Fixpoint highest_serial (l : list (option Z)) : option Z :=
  match l with
  | [] => None
  | None :: l' => highest_serial l'
  | Some n :: l' =>
      match highest_serial l' with
      | None => Some n
      | Some m => Some (Z.max n m)
      end
  end.

(** [get_next_serial_number(collection_name, default_start)], the
    definition at the end of the helpers, which is the one bound to the
    name when the handlers run. *)
Definition get_next_serial_number (collection_name : string) (default_start : Z) : M Z :=
  db <- get ;;
  match highest_serial (serial_numbers db collection_name) with
  | Some n => if n =? 0 then ret default_start else ret (n + 1)
  | None => ret default_start
  end.

(** The earlier definition of the same name, built on the [counters]
    collection.  The later [def] rebinds the name, so no handler reaches
    this one. *)
Module Shadowed.

(** The filter [{"_id": entity_type}]. *)
Definition key (entity_type : string) (c : string * Z) : bool :=
  String.eqb (fst c) entity_type.

Definition lookup_counter (entity_type : string) (l : list (string * Z)) : option Z :=
  option_map snd (find_one (key entity_type) l).

(** [find_one_and_update({"_id": k}, {"$inc": {"seq": 1}}, upsert=True,
    return_document=True)] *)
Definition find_one_and_update_inc (entity_type : string) : M Z :=
  db <- get ;;
  let seq := match lookup_counter entity_type (counters db) with
             | Some n => n + 1
             | None => 1
             end in
  modify (set_counters
            (upsert_one (key entity_type) (fun c => (fst c, seq)) (entity_type, seq)
                        (counters db))) ;;;
  ret seq.

(** [update_one({"_id": k}, {"$set": {"seq": v}})] *)
Definition set_seq (entity_type : string) (v : Z) : M unit :=
  db <- get ;;
  modify (set_counters
            (update_one (key entity_type) (fun c => (fst c, v)) (counters db))).

Definition get_next_serial_number (entity_type : string) (start_from : Z) : M Z :=
  result <- find_one_and_update_inc entity_type ;;
  if result =? 1 then
    set_seq entity_type start_from ;;; ret start_from
  else
    let seq := result in
    if seq <? start_from then
      set_seq entity_type start_from ;;; ret start_from
    else ret seq.

End Shadowed.

(** ** Audit recorder *)

Definition create_audit_log (log_type : AuditLogType) (entity_type entity_id : string)
    (entity_serial : Z) (user : User.t) (amount : option Qc)
    (new_values : list (string * Qc)) : M AuditLog.t :=
  id <- uuid4 ;;
  let audit := AuditLog.mk id log_type entity_type entity_id entity_serial
                 (User.id user) (User.role user) amount new_values in
  db <- get ;;
  modify (set_audit_logs (insert_one audit (audit_logs db))) ;;;
  ret audit.

(** ** Invoice factory and installment scheduler *)

(** [datetime.fromisoformat(s)] *)
Definition fromisoformat (s : iso_string) : result Datetime.t :=
  match s with
  | Iso d => Ok d
  | Malformed _ => Raised (ValueError "Invalid isoformat string")
  end.

(** Truth value of a date string taken from a document. *)
Definition iso_truthy (s : option iso_string) : bool :=
  match s with
  | Some (Iso _) => true
  | Some (Malformed raw) => Py.truthy (Some raw)
  | None => false
  end.

(** [a / n] for a float [a] and an int [n]. *)
Definition truediv (a : Qc) (n : Z) : result Qc :=
  if n =? 0 then Raised ZeroDivisionError else Ok (a / Py.of_Z n)%Qc.

(** The month-length table written in the scheduling loop, with its own
    test of the leap year. *)
Definition month_lengths (year : Z) : list Z :=
  [31; if year mod 4 =? 0 then 29 else 28; 31; 30; 31; 30; 31; 31; 30; 31; 30; 31].

(** Due date of the installment of index [i]: the body of the loop up to
    the construction of the [Installment]. *)
Definition installment_due_date (schedule_type : string) (first_due_date : Datetime.t)
    (interval_days : Z) (i : Z) : result Datetime.t :=
  let due_date := first_due_date in
  if String.eqb schedule_type "monthly" then
    let month := Datetime.month due_date + i in
    let year := Datetime.year due_date + (month - 1) / 12 in
    let month := ((month - 1) mod 12) + 1 in
    let day := Z.min (Datetime.day due_date)
                     (nth (Z.to_nat (month - 1)) (month_lengths year) 0) in
    Datetime.replace due_date year month day
  else if String.eqb schedule_type "weekly" then
    Datetime.add_days first_due_date (i * 7)
  else
    Datetime.add_days first_due_date (i * interval_days).

(** The block of [create_invoice_from_order] that records the payment
    made with the order ("Create automatic Payment record if there's an
    upfront payment"). *)
Definition record_upfront_payment (order : Order.t) (approver : User.t)
    (invoice_id : string) (invoice_number : Z) (paid_amount : Qc)
    (payment_method : option string) : M unit :=
  if Py.gtb paid_amount 0%Qc && Py.truthy payment_method then
    payment_number <- get_next_serial_number "payments" 20001 ;;
    payment_id <- uuid4 ;;
    method <- lift (PaymentMethod_validate
                      (match payment_method with Some s => s | None => "" end)) ;;
    let payment :=
      Payment.mk payment_id payment_number invoice_id invoice_number
        (Order.clinic_id order) paid_amount method (Order.medical_rep_id order) in
    db <- get ;;
    modify (set_payments (insert_one payment (payments db))) ;;;
    log_type <- lift (AuditLogType_getattr "PAYMENT_RECEIVED") ;;
    create_audit_log log_type "payment" payment_id payment_number approver
      (Some paid_amount) [] ;;;
    ret tt
  else ret tt.

(** One turn of [for i in range(installments_count)]. *)
Definition create_installment (order : Order.t) (schedule_id invoice_id : string)
    (invoice_number : Z) (schedule_type : string) (first_due_date : Datetime.t)
    (interval_days : Z) (amount_per_installment : Qc) (i : Z) : M unit :=
  due_date <- lift (installment_due_date schedule_type first_due_date interval_days i) ;;
  installment_id <- uuid4 ;;
  let installment :=
    Installment.mk installment_id schedule_id invoice_id invoice_number
      (Order.clinic_id order) (i + 1) amount_per_installment 0%Qc
      amount_per_installment (Some (Iso due_date)) "upcoming" [] None in
  db <- get ;;
  modify (set_installments (insert_one installment (installments db))).

(** The block of [create_invoice_from_order] that builds the schedule
    ("Create installment schedule if order has scheduling data"). *)
Definition generate_schedule (order : Order.t) (invoice_id : string)
    (invoice_number : Z) (remaining_amount : Qc) : M unit :=
  if iso_truthy (Order.first_due_date order) && Py.gtb remaining_amount 0%Qc then
    let schedule_type := Order.schedule_type order in
    let installments_count := Order.installments_count order in
    let interval_days := Order.interval_days order in
    let grace_period := Order.grace_period_days order in
    first_due_date <- lift (fromisoformat
                              (match Order.first_due_date order with
                               | Some s => s
                               | None => Malformed ""
                               end)) ;;
    schedule_id <- uuid4 ;;
    let schedule :=
      InstallmentSchedule.mk schedule_id invoice_id invoice_number
        (Order.clinic_id order) schedule_type
        (if String.eqb schedule_type "regular" then Some interval_days else None)
        remaining_amount installments_count grace_period first_due_date in
    db <- get ;;
    modify (set_installment_schedules (insert_one schedule (installment_schedules db))) ;;;
    amount_per_installment <- lift (truediv remaining_amount installments_count) ;;
    for_each (Py.range installments_count)
      (create_installment order schedule_id invoice_id invoice_number schedule_type
         first_due_date interval_days amount_per_installment)
  else ret tt.

(** Paid amount, remaining amount and status of a new invoice, from the
    payment status the order declares. *)
Definition initial_balances (order : Order.t) : Qc * Qc * string :=
  let total_amount := Order.total_amount order in
  let payment_status := Order.payment_status order in
  let order_amount_paid :=
    match Order.amount_paid order with Some a => a | None => 0%Qc end in
  if String.eqb payment_status "full" then
    (total_amount, 0%Qc, "paid")
  else if String.eqb payment_status "partial" then
    let paid_amount := Py.min order_amount_paid total_amount in
    (paid_amount, (total_amount - paid_amount)%Qc, "partial")
  else
    (0%Qc, total_amount, "pending").

(** Validation of a model field declared [int]: a null value is
    refused. *)
Definition required_int (field : string) (v : option Z) : result Z :=
  match v with
  | Some n => Ok n
  | None => Raised (ValidationError field)
  end.

(** [create_invoice_from_order(order, approver)].  The look-ups of the
    clinic, representative, manager, area and line only fill display
    names and are left out.  [Invoice(...)] draws the id of the invoice
    and refuses an order without a serial number ([order_serial: int]),
    before anything is written. *)
Definition create_invoice_from_order (order : Order.t) (approver : User.t) : M Invoice.t :=
  invoice_number <- get_next_serial_number "invoices" 10001 ;;
  let total_amount := Order.total_amount order in
  let payment_method := Order.payment_method order in
  let '(paid_amount, remaining_amount, invoice_status) := initial_balances order in
  invoice_id <- uuid4 ;;
  order_serial <- lift (required_int "order_serial" (Order.serial_number order)) ;;
  let invoice :=
    Invoice.mk invoice_id invoice_number (Order.id order) order_serial
      (Order.clinic_id order) (Order.medical_rep_id order) (User.id approver)
      total_amount paid_amount remaining_amount invoice_status payment_method [] in
  db <- get ;;
  modify (set_invoices (insert_one invoice (invoices db))) ;;;
  record_upfront_payment order approver invoice_id invoice_number paid_amount
    payment_method ;;;
  generate_schedule order invoice_id invoice_number remaining_amount ;;;
  log_type <- lift (AuditLogType_getattr "INVOICE_CREATED") ;;
  create_audit_log log_type "invoice" invoice_id invoice_number approver
    (Some total_amount) [] ;;;
  ret invoice.

(** ** Orders *)

(** [class OrderType(str, Enum)] *)
Inductive OrderType : Type := REGULAR | DEMO.

(** [class DiscountType(str, Enum)] *)
Inductive DiscountType : Type := PERCENTAGE | FIXED.

(** A value found under [quantity] or [price] in an entry of
    [products], which is a free-form [dict]: a number, or anything else
    a JSON body can hold there (null, a string, a list, an object). *)
Inductive json_value : Type :=
| Number (x : Qc)
| NotNumber.

(** An entry of [products]; a field is [None] when the key is absent. *)
Module OrderProduct.
Record t : Type := mk {
  quantity : option json_value;
  price : option json_value
}.
End OrderProduct.

(** [class OrderCreate(BaseModel)], without the free text and the
    location. *)
Module OrderCreate.
Record t : Type := mk {
  clinic_id : string;
  order_type : OrderType;
  products : list OrderProduct.t;
  discount_type : option DiscountType;
  discount_value : option Qc;
  payment_status : option string;
  payment_method : option string;
  amount_paid : option Qc;
  schedule_type : option string;
  installments_count : option Z;
  interval_days : option Z;
  first_due_date : option iso_string;
  grace_period_days : option Z
}.
End OrderCreate.

(** [item.get(key, 0)] *)
Definition get_or_0 (v : option json_value) : json_value :=
  match v with
  | Some x => x
  | None => Number 0%Qc
  end.

(** [sum(item.get("quantity", 0) * item.get("price", 0) for item in
    products)], from the partial sum [acc].  With a value that is not a
    number the product raises [TypeError], or is a sequence, which the
    sum then cannot add to a number: [TypeError] again. *)
Fixpoint sum_products (products : list OrderProduct.t) (acc : Qc) : result Qc :=
  match products with
  | [] => Ok acc
  | item :: rest =>
      match get_or_0 (OrderProduct.quantity item), get_or_0 (OrderProduct.price item) with
      | Number quantity, Number price => sum_products rest (acc + quantity * price)%Qc
      | _, _ => Raised TypeError
      end
  end.

(** [db[name]] with its serial numbers replaced by [l]. *)
Definition set_serials (name : string) (l : list (option Z)) (db : DB) : DB :=
  mkDB (invoices db) (payments db) (installment_schedules db) (installments db)
       (audit_logs db) (clinic_credit_scores db) (counters db)
       (fun c => if String.eqb c name then l else serials db c)
       (next_uuid db).

(** [POST /orders].  The value returned is the [Order] built from the
    request, which is the document stored, seen through the fields the
    invoice factory reads: [Order] ignores the keys it does not declare,
    so the scheduling fields of the request are not stored and read as
    their defaults; a null [payment_status] takes the branch of
    [unpaid].  The activity log and the notifications are written to
    other collections inside [try] blocks and are left out. *)
Definition create_order (order_data : OrderCreate.t) (current_user : User.t) : M Order.t :=
  serial_number <- get_next_serial_number "orders" 1001 ;;
  let products := OrderCreate.products order_data in
  subtotal <- lift (sum_products products 0%Qc) ;;
  let discount_amount :=
    match OrderCreate.discount_type order_data, OrderCreate.discount_value order_data with
    | Some discount_type, Some discount_value =>
        if Qc_eq_dec discount_value 0%Qc then 0%Qc
        else
          match discount_type with
          | PERCENTAGE => (subtotal * (discount_value / Py.of_Z 100))%Qc
          | FIXED => discount_value
          end
    | _, _ => 0%Qc
    end in
  let total_amount := (subtotal - discount_amount)%Qc in
  total_amount <-
    match OrderCreate.order_type order_data with
    | DEMO =>
        let product_count := Z.of_nat (List.length products) in
        if product_count >? 6 then
          raise (HTTPException 400 "Demo orders cannot have more than 6 products")
        else
          for_each products
            (fun product =>
               match get_or_0 (OrderProduct.quantity product) with
               | Number quantity =>
                   if Py.gtb quantity 1%Qc then
                     raise (HTTPException 400
                              "Demo orders can only have 1 quantity per product")
                   else ret tt
               | NotNumber => raise TypeError
               end) ;;;
          ret 0%Qc
    | REGULAR => ret (Py.max 0%Qc total_amount)
    end ;;
  id <- uuid4 ;;
  let order_obj :=
    Order.mk id (Some serial_number) (OrderCreate.clinic_id order_data)
      (User.id current_user)
      total_amount
      (match OrderCreate.payment_status order_data with
       | Some s => s
       | None => "unpaid"
       end)
      (OrderCreate.payment_method order_data) (OrderCreate.amount_paid order_data)
      "monthly" 3 30 3 None in
  db <- get ;;
  modify (set_serials "orders" (insert_one (Some serial_number) (serials db "orders"))) ;;;
  ret order_obj.

(** ** Migration of the serial numbers *)

(** The loop [for order in orders: update_one({"_id": order["_id"]},
    {"$set": {"serial_number": next_serial}}); next_serial += 1] over the
    documents without a serial number, on the serial numbers of the
    collection listed by [created_at], the order in which the query
    returns them; [updated] is the count reported. *)
Fixpoint assign_serials (l : list (option Z)) (next_serial updated : Z)
    : list (option Z) * Z :=
  match l with
  | [] => ([], updated)
  | Some n :: l' =>
      let (l'', updated') := assign_serials l' next_serial updated in
      (Some n :: l'', updated')
  | None :: l' =>
      let (l'', updated') := assign_serials l' (next_serial + 1) (updated + 1) in
      (Some next_serial :: l'', updated')
  end.

(** [POST /admin/migrate-serial-numbers]; the value returned is the pair
    of [orders_updated] and [visits_updated]. *)
Definition migrate_serial_numbers : M (Z * Z) :=
  db <- get ;;
  let orders := serials db "orders" in
  let highest_order := highest_serial orders in
  let next_serial := match highest_order with Some n => n | None => 1000 end + 1 in
  let (orders', orders_updated) := assign_serials orders next_serial 0 in
  modify (set_serials "orders" orders') ;;;
  db <- get ;;
  let visits := serials db "visits" in
  let highest_visit := highest_serial visits in
  let next_visit_serial := match highest_visit with Some n => n | None => 5004 end + 1 in
  let (visits', visits_updated) := assign_serials visits next_visit_serial 0 in
  modify (set_serials "visits" visits') ;;;
  ret (orders_updated, visits_updated).

(** ** Approval of an order *)

(** [try: c  except Exception as e: handler(e)] *)
Definition try_except {A} (c : M A) (handler : exn -> M A) : M A :=
  fun db =>
    let (db', r) := c db in
    match r with
    | Ok v => (db', Ok v)
    | Raised e => handler e db'
    end.

(** The block of [approve_order] that creates the invoice of the order
    just approved ("AUTO-CREATE INVOICE IN ACCOUNTING SYSTEM"): both
    branches only write to the application log. *)
Definition auto_create_invoice (updated_order : Order.t) (current_user : User.t) : M unit :=
  try_except
    (create_invoice_from_order updated_order current_user ;;; ret tt)
    (fun e => ret tt).

(** ** Payment ledger *)

(** [POST /installments/{installment_id}/pay]; the value returned is the
    pair of [payment_id] and [new_status].  The role check of the route
    is outside the handler body. *)
Definition pay_installment (installment_id : string)
    (payment_data : InstallmentPaymentCreate.t) (current_user : User.t)
    : M (string * string) :=
  db <- get ;;
  match find_one (fun x => String.eqb (Installment.id x) installment_id) (installments db) with
  | None => raise (HTTPException 404 "Installment not found")
  | Some installment =>
    if String.eqb (Installment.status installment) "paid" then
      raise (HTTPException 400 "Installment already paid")
    else
      let amount := Py.min (InstallmentPaymentCreate.amount payment_data)
                           (Installment.remaining_amount installment) in
      match find_one (fun x => String.eqb (Invoice.id x) (Installment.invoice_id installment))
                     (invoices db) with
      | None => raise (HTTPException 404 "Invoice not found")
      | Some invoice =>
        payment_number <- get_next_serial_number "payments" 20001 ;;
        payment_id <- uuid4 ;;
        method <- lift (PaymentMethod_validate
                          (InstallmentPaymentCreate.payment_method payment_data)) ;;
        let payment :=
          Payment.mk payment_id payment_number (Installment.invoice_id installment)
            (Installment.invoice_number installment) (Installment.clinic_id installment)
            amount method (User.id current_user) in
        db <- get ;;
        modify (set_payments (insert_one payment (payments db))) ;;;
        let new_paid := (Installment.paid_amount installment + amount)%Qc in
        let new_remaining := (Installment.remaining_amount installment - amount)%Qc in
        let new_status := if Py.leb new_remaining 0%Qc then "paid" else "partial" in
        db <- get ;;
        modify (set_installments
          (update_one (fun x => String.eqb (Installment.id x) installment_id)
             (fun x =>
                Installment.mk (Installment.id x) (Installment.schedule_id x)
                  (Installment.invoice_id x) (Installment.invoice_number x)
                  (Installment.clinic_id x) (Installment.installment_number x)
                  (Installment.amount x) new_paid (Py.max 0%Qc new_remaining)
                  (Installment.due_date x) new_status
                  (Installment.payment_ids x ++ [payment_id])
                  (Installment.rescheduled_from x))
             (installments db))) ;;;
        let invoice_new_paid := (Invoice.paid_amount invoice + amount)%Qc in
        let invoice_new_remaining := (Invoice.remaining_amount invoice - amount)%Qc in
        let invoice_status := if Py.leb invoice_new_remaining 0%Qc then "paid" else "partial" in
        db <- get ;;
        modify (set_invoices
          (update_one (fun x => String.eqb (Invoice.id x) (Installment.invoice_id installment))
             (fun x =>
                Invoice.mk (Invoice.id x) (Invoice.invoice_number x) (Invoice.order_id x)
                  (Invoice.order_serial x) (Invoice.clinic_id x) (Invoice.created_by x)
                  (Invoice.approved_by x) (Invoice.total_amount x) invoice_new_paid
                  (Py.max 0%Qc invoice_new_remaining) invoice_status
                  (Invoice.payment_method x) (Invoice.payments x))
             (invoices db))) ;;;
        log_type <- lift (AuditLogType_getattr "PAYMENT_RECEIVED") ;;
        create_audit_log log_type "installment" installment_id
          (Installment.installment_number installment) current_user (Some amount) [] ;;;
        ret (payment_id, new_status)
      end
  end.

(** [POST /accounting/payments]; the value returned is the pair of
    [invoice_status] and [remaining_amount]. *)
Definition create_payment (payment : PaymentCreate.t) (current_user : User.t)
    : M (string * Qc) :=
  db <- get ;;
  match find_one (fun x => String.eqb (Invoice.id x) (PaymentCreate.invoice_id payment))
                 (invoices db) with
  | None => raise (HTTPException 404 "Invoice not found")
  | Some invoice =>
    let remaining := Invoice.remaining_amount invoice in
    if Py.gtb (PaymentCreate.amount payment) remaining then
      raise (HTTPException 400 "Payment amount exceeds remaining amount")
    else if Py.leb (PaymentCreate.amount payment) 0%Qc then
      raise (HTTPException 400 "Payment amount must be greater than 0")
    else
      payment_number <- get_next_serial_number "payments" 20001 ;;
      payment_id <- uuid4 ;;
      let new_payment :=
        Payment.mk payment_id payment_number (PaymentCreate.invoice_id payment)
          (Invoice.invoice_number invoice) (Invoice.clinic_id invoice)
          (PaymentCreate.amount payment) (PaymentCreate.payment_method payment)
          (User.id current_user) in
      db <- get ;;
      modify (set_payments (insert_one new_payment (payments db))) ;;;
      let new_paid := (Invoice.paid_amount invoice + PaymentCreate.amount payment)%Qc in
      let new_remaining := (Invoice.total_amount invoice - new_paid)%Qc in
      let new_status := if Py.leb new_remaining 0%Qc then FULLY_PAID else PARTIALLY_PAID in
      let payment_summary :=
        PaymentSummary.mk payment_id payment_number (PaymentCreate.amount payment)
          (PaymentMethod_value (PaymentCreate.payment_method payment)) in
      db <- get ;;
      modify (set_invoices
        (update_one (fun x => String.eqb (Invoice.id x) (PaymentCreate.invoice_id payment))
           (fun x =>
              Invoice.mk (Invoice.id x) (Invoice.invoice_number x) (Invoice.order_id x)
                (Invoice.order_serial x) (Invoice.clinic_id x) (Invoice.created_by x)
                (Invoice.approved_by x) (Invoice.total_amount x) new_paid
                (Py.max 0%Qc new_remaining) (InvoiceStatus_value new_status)
                (Invoice.payment_method x) (Invoice.payments x ++ [payment_summary]))
           (invoices db))) ;;;
      log_type <- lift (AuditLogType_getattr "PAYMENT_RECORDED") ;;
      create_audit_log log_type "payment" payment_id payment_number current_user
        (Some (PaymentCreate.amount payment))
        [("paid_amount", new_paid); ("remaining_amount", Py.max 0%Qc new_remaining)] ;;;
      ret (InvoiceStatus_value new_status, Py.max 0%Qc new_remaining)
  end.

(** ** Credit scorer *)

(** The four accumulators of the scoring loop. *)
Record tally : Type := mkTally {
  paid_on_time : Z;
  paid_late : Z;
  overdue : Z;
  total_overdue_days : Z
}.

(** One turn of [for inst in installments], with the clock read as [now]. *)
Definition tally_step (now : Datetime.t) (acc : tally) (inst : Installment.t) : tally :=
  let status := Installment.status inst in
  if String.eqb status "paid" then
    if negb (Py.truthy (Installment.rescheduled_from inst)) then
      mkTally (paid_on_time acc + 1) (paid_late acc) (overdue acc) (total_overdue_days acc)
    else
      mkTally (paid_on_time acc) (paid_late acc + 1) (overdue acc) (total_overdue_days acc)
  else if String.eqb status "overdue" then
    let overdue' := overdue acc + 1 in
    match Installment.due_date inst with
    | Some (Iso due_dt) =>
        match Datetime.sub_days now due_dt with
        | Some days_late =>
            mkTally (paid_on_time acc) (paid_late acc) overdue'
                    (total_overdue_days acc + Z.max 0 days_late)
        | None => mkTally (paid_on_time acc) (paid_late acc) overdue' (total_overdue_days acc)
        end
    | _ => mkTally (paid_on_time acc) (paid_late acc) overdue' (total_overdue_days acc)
    end
  else acc.

Definition rating_of (score : Z) : string :=
  if score >=? 90 then "A"
  else if score >=? 75 then "B"
  else if score >=? 60 then "C"
  else if score >=? 40 then "D"
  else "F".

(** The dictionary returned by the credit-score route. *)
Record CreditScoreResponse : Type := mkResponse {
  resp_clinic_id : string;
  resp_credit_score : Z;
  resp_rating : string;
  resp_details : option tally
}.

(** [GET /clinics/{clinic_id}/credit-score], with the clock read as
    [now] (an aware UTC value). *)
Definition get_clinic_credit_score (clinic_id : string) (current_user : User.t)
    (now : Datetime.t) : M CreditScoreResponse :=
  if negb (existsb (String.eqb (User.role current_user)) ["super_admin"; "accountant"; "admin"])
  then raise (HTTPException 403 "forbidden")
  else
    db <- get ;;
    let installments :=
      firstn 1000 (filter (fun x => String.eqb (Installment.clinic_id x) clinic_id)
                          (installments db)) in
    match installments with
    | [] => ret (mkResponse clinic_id 100 "A" None)
    | _ =>
      let total_installments := Z.of_nat (List.length installments) in
      let t := fold_left (tally_step now) installments (mkTally 0 0 0 0) in
      let score := 100 in
      let score := score - overdue t * 5 in
      let score := score - (total_overdue_days t / 7) in
      let score := score - paid_late t * 2 in
      let score := score + Z.min (paid_on_time t * 2) 20 in
      let score := Z.max 0 (Z.min 100 score) in
      let rating := rating_of score in
      db <- get ;;
      modify (set_clinic_credit_scores
        (upsert_one (fun x => String.eqb (ClinicCreditScore.clinic_id x) clinic_id)
           (fun _ => ClinicCreditScore.mk clinic_id score rating total_installments
                       (paid_on_time t) (paid_late t) (overdue t))
           (ClinicCreditScore.mk clinic_id score rating total_installments
              (paid_on_time t) (paid_late t) (overdue t))
           (clinic_credit_scores db))) ;;;
      ret (mkResponse clinic_id score rating (Some t))
    end.

(** ** Statements of the ledger specification *)

(** [paid_amount + remaining_amount == total_amount] *)
Definition invoice_balanced (x : Invoice.t) : Prop :=
  (Invoice.paid_amount x + Invoice.remaining_amount x = Invoice.total_amount x)%Qc.

Module Spec.

(** [d] plus [i] calendar months, the day clamped to the last valid
    day of the target month. *)
Definition add_months (d : Datetime.t) (i : Z) : Datetime.t :=
  let m0 := Datetime.month d - 1 + i in
  let y := Datetime.year d + m0 / 12 in
  let m := m0 mod 12 + 1 in
  Datetime.mk y m (Z.min (Datetime.day d) (Datetime.days_in_month y m))
              (Datetime.micro_of_day d) (Datetime.utcoffset d).

(** The invoice status as a function of the remaining amount: 0 gives
    paid, strictly between 0 and the total gives partial, the total
    gives pending. *)
Definition status_of_remaining (remaining total : Qc) : option string :=
  if Qc_eq_dec remaining 0%Qc then Some "paid"
  else if Qc_eq_dec remaining total then Some "pending"
  else if Py.ltb 0%Qc remaining && Py.ltb remaining total then Some "partial"
  else None.

Definition clamp (lo hi x : Z) : Z := Z.max lo (Z.min hi x).

(** An installment of a clinic's history together with the time it was
    paid in full, which [pay_installment] stores under [paid_date] and
    the scorer does not read. *)
Record history_entry : Type := mkEntry {
  doc : Installment.t;
  paid_date : option Datetime.t
}.

Definition is_overdue (e : history_entry) : bool :=
  String.eqb (Installment.status (doc e)) "overdue".

Definition is_paid (e : history_entry) : bool :=
  String.eqb (Installment.status (doc e)) "paid".

(** Whole days from the due date of [x] to [t]; 0 when [t] is not later
    or the two cannot be compared. *)
Definition days_past_due (x : Installment.t) (t : Datetime.t) : Z :=
  match Installment.due_date x with
  | Some (Iso due) =>
      match Datetime.sub_days t due with
      | Some d => Z.max 0 d
      | None => 0
      end
  | _ => 0
  end.

(** Days by which a paid installment was paid after its due date. *)
Definition days_paid_late (e : history_entry) : Z :=
  match paid_date e with
  | Some t => days_past_due (doc e) t
  | None => 0
  end.

(** Late but eventually paid: paid, a day or more after the due date. *)
Definition is_paid_late (e : history_entry) : bool :=
  is_paid e && (0 <? days_paid_late e).

(** Paid on time: paid, and not late. *)
Definition is_paid_on_time (e : history_entry) : bool :=
  is_paid e && negb (0 <? days_paid_late e).

(** Days overdue of one installment of the history: up to its payment
    when it is paid, up to [now] while it is overdue. *)
Definition days_overdue (now : Datetime.t) (e : history_entry) : Z :=
  if is_paid e then days_paid_late e
  else if is_overdue e then days_past_due (doc e) now
  else 0.

Definition count (p : history_entry -> bool) (history : list history_entry) : Z :=
  Z.of_nat (List.length (filter p history)).

(** Cumulative days overdue, summed across the history. *)
Fixpoint cumulative_days_overdue (now : Datetime.t) (history : list history_entry) : Z :=
  match history with
  | [] => 0
  | e :: history' => days_overdue now e + cumulative_days_overdue now history'
  end.

(** Base 100, minus 5 per currently overdue installment, minus 1 per 7
    cumulative days overdue summed across the history, minus 2 per late
    but eventually paid installment, plus 2 per on-time paid installment
    up to 20, clamped to [0, 100]. *)
Definition score (now : Datetime.t) (history : list history_entry) : Z :=
  clamp 0 100
    (100 - 5 * count is_overdue history
         - cumulative_days_overdue now history / 7
         - 2 * count is_paid_late history
         + Z.min (2 * count is_paid_on_time history) 20).

End Spec.

(** ** What the credit scorer counts *)

(** The scorer reads neither [paid_date] nor the due date of a paid
    installment: it takes a reschedule as the sign of a late payment and
    counts days only for the installments that are overdue now. *)
Module Counted.

(** The installments the scorer reads for a clinic: the query returns
    those of the clinic, at most 1000 of them. *)
Definition clinic_installments (db : DB) (clinic_id : string) : list Installment.t :=
  firstn 1000 (filter (fun x => String.eqb (Installment.clinic_id x) clinic_id)
                      (installments db)).

Definition is_overdue (x : Installment.t) : bool :=
  String.eqb (Installment.status x) "overdue".

(** Paid and never rescheduled: counted as on time. *)
Definition is_paid_on_time (x : Installment.t) : bool :=
  String.eqb (Installment.status x) "paid"
  && negb (Py.truthy (Installment.rescheduled_from x)).

(** Paid after a reschedule: counted as late. *)
Definition is_paid_late (x : Installment.t) : bool :=
  String.eqb (Installment.status x) "paid"
  && Py.truthy (Installment.rescheduled_from x).

Definition count (p : Installment.t -> bool) (l : list Installment.t) : Z :=
  Z.of_nat (List.length (filter p l)).

(** Whole days by which an installment that is overdue now is past its
    due date at [now]; 0 when the due date cannot be compared with the
    clock. *)
Definition days_overdue (now : Datetime.t) (x : Installment.t) : Z :=
  if is_overdue x then
    match Installment.due_date x with
    | Some (Iso due) =>
        match Datetime.sub_days now due with
        | Some d => Z.max 0 d
        | None => 0
        end
    | _ => 0
    end
  else 0.

Fixpoint cumulative_days_overdue (now : Datetime.t) (l : list Installment.t) : Z :=
  match l with
  | [] => 0
  | x :: l' => days_overdue now x + cumulative_days_overdue now l'
  end.

(** Base 100, minus 5 per overdue installment, minus 1 per 7 days
    counted, minus 2 per payment counted late, plus 2 per payment
    counted on time up to 20, clamped to [0, 100]. *)
Definition score (now : Datetime.t) (l : list Installment.t) : Z :=
  Spec.clamp 0 100
    (100 - 5 * count is_overdue l
         - cumulative_days_overdue now l / 7
         - 2 * count is_paid_late l
         + Z.min (2 * count is_paid_on_time l) 20).

End Counted.

(** ** The handlers over binary64 *)

(** The comparisons, [min], [max] and the conversion of an [int] on
    Python [float]s, which are IEEE 754 binary64 numbers. *)
Module PyFloat.
Import PrimFloat FloatOps SpecFloat.

Definition ltb (a b : float) : bool := PrimFloat.ltb a b.
Definition leb (a b : float) : bool := PrimFloat.leb a b.
Definition gtb (a b : float) : bool := ltb b a.

Definition min (a b : float) : float := if ltb b a then b else a.

Definition max (a b : float) : float := if gtb b a then b else a.

(** [float(z)], rounded to the nearest, ties to even.  (Python raises
    [OverflowError] for an [int] beyond the range of [float]; the counts
    converted here are far below it.) *)
Definition of_Z (z : Z) : float := SF2Prim (binary_normalize prec emax z 0 false).

End PyFloat.

(** The documents, the database and the handlers of the ledger once
    more, with the amounts as binary64 numbers and the arithmetic of the
    machine: each definition is the one of the same name above with
    [float] in the place of [Qc] and the operations of [PyFloat] in the
    place of those of [Py]. *)
Module Binary64.
Import PrimFloat.

Module Order.
Record t : Type := mk {
  id : string;
  serial_number : option Z;
  clinic_id : string;
  medical_rep_id : string;
  total_amount : float;
  payment_status : string;
  payment_method : option string;
  amount_paid : option float;
  schedule_type : string;
  installments_count : Z;
  interval_days : Z;
  grace_period_days : Z;
  first_due_date : option iso_string
}.
End Order.

Module PaymentSummary.
Record t : Type := mk {
  id : string;
  payment_number : Z;
  amount : float;
  method : string
}.
End PaymentSummary.

Module Invoice.
Record t : Type := mk {
  id : string;
  invoice_number : Z;
  order_id : string;
  order_serial : Z;
  clinic_id : string;
  created_by : string;
  approved_by : string;
  total_amount : float;
  paid_amount : float;
  remaining_amount : float;
  status : string;
  payment_method : option string;
  payments : list PaymentSummary.t
}.
End Invoice.

Module Payment.
Record t : Type := mk {
  id : string;
  payment_number : Z;
  invoice_id : string;
  invoice_number : Z;
  clinic_id : string;
  amount : float;
  payment_method : PaymentMethod;
  collected_by : string
}.
End Payment.

Module PaymentCreate.
Record t : Type := mk {
  invoice_id : string;
  amount : float;
  payment_method : PaymentMethod
}.
End PaymentCreate.

Module InstallmentPaymentCreate.
Record t : Type := mk {
  amount : float;
  payment_method : string
}.
End InstallmentPaymentCreate.

Module AuditLog.
Record t : Type := mk {
  id : string;
  log_type : AuditLogType;
  entity_type : string;
  entity_id : string;
  entity_serial : Z;
  user_id : string;
  user_role : string;
  amount : option float;
  new_values : list (string * float)
}.
End AuditLog.

Module InstallmentSchedule.
Record t : Type := mk {
  id : string;
  invoice_id : string;
  invoice_number : Z;
  clinic_id : string;
  schedule_type : string;
  interval_days : option Z;
  total_amount : float;
  installments_count : Z;
  grace_period_days : Z;
  first_due_date : Datetime.t
}.
End InstallmentSchedule.

Module Installment.
Record t : Type := mk {
  id : string;
  schedule_id : string;
  invoice_id : string;
  invoice_number : Z;
  clinic_id : string;
  installment_number : Z;
  amount : float;
  paid_amount : float;
  remaining_amount : float;
  due_date : option iso_string;
  status : string;
  payment_ids : list string;
  rescheduled_from : option string
}.
End Installment.

Record DB : Type := mkDB {
  invoices : list Invoice.t;
  payments : list Payment.t;
  installment_schedules : list InstallmentSchedule.t;
  installments : list Installment.t;
  audit_logs : list AuditLog.t;
  clinic_credit_scores : list ClinicCreditScore.t;
  counters : list (string * Z);
  serials : string -> list (option Z);
  next_uuid : nat
}.

Definition empty_db : DB :=
  mkDB [] [] [] [] [] [] [] (fun _ => []) 0.

Definition M (A : Type) : Type := DB -> DB * result A.

Definition ret {A} (a : A) : M A := fun db => (db, Ok a).

Definition raise {A} (e : exn) : M A := fun db => (db, Raised e).

Definition bind {A B} (c : M A) (k : A -> M B) : M B :=
  fun db =>
    match c db with
    | (db', Ok a) => k a db'
    | (db', Raised e) => (db', Raised e)
    end.

Definition lift {A} (r : result A) : M A := fun db => (db, r).

Definition get : M DB := fun db => (db, Ok db).

Definition modify (f : DB -> DB) : M unit := fun db => (f db, Ok tt).

Local Notation "x <- c ;; k" := (bind c (fun x => k))
  (at level 61, c at next level, right associativity).
Local Notation "c ;;; k" := (bind c (fun _ => k))
  (at level 61, right associativity).

Definition exec {A} (c : M A) (db : DB) : DB := fst (c db).

Definition outcome {A} (c : M A) (db : DB) : result A := snd (c db).

Fixpoint for_each {A} (xs : list A) (body : A -> M unit) : M unit :=
  match xs with
  | [] => ret tt
  | x :: xs' => body x ;;; for_each xs' body
  end.

Definition uuid4 : M string :=
  fun db =>
    (mkDB (invoices db) (payments db) (installment_schedules db)
          (installments db) (audit_logs db) (clinic_credit_scores db)
          (counters db) (serials db) (S (next_uuid db)),
     Ok ("uuid-" ++ Py.str (next_uuid db))%string).

Definition set_invoices (l : list Invoice.t) (db : DB) : DB :=
  mkDB l (payments db) (installment_schedules db) (installments db)
       (audit_logs db) (clinic_credit_scores db) (counters db) (serials db)
       (next_uuid db).

Definition set_payments (l : list Payment.t) (db : DB) : DB :=
  mkDB (invoices db) l (installment_schedules db) (installments db)
       (audit_logs db) (clinic_credit_scores db) (counters db) (serials db)
       (next_uuid db).

Definition set_installment_schedules (l : list InstallmentSchedule.t) (db : DB) : DB :=
  mkDB (invoices db) (payments db) l (installments db)
       (audit_logs db) (clinic_credit_scores db) (counters db) (serials db)
       (next_uuid db).

Definition set_installments (l : list Installment.t) (db : DB) : DB :=
  mkDB (invoices db) (payments db) (installment_schedules db) l
       (audit_logs db) (clinic_credit_scores db) (counters db) (serials db)
       (next_uuid db).

Definition set_audit_logs (l : list AuditLog.t) (db : DB) : DB :=
  mkDB (invoices db) (payments db) (installment_schedules db) (installments db)
       l (clinic_credit_scores db) (counters db) (serials db)
       (next_uuid db).

Definition serial_numbers (db : DB) (collection_name : string) : list (option Z) :=
  if String.eqb collection_name "invoices" then map (fun _ => None) (invoices db)
  else if String.eqb collection_name "payments" then map (fun _ => None) (payments db)
  else serials db collection_name.

Definition get_next_serial_number (collection_name : string) (default_start : Z) : M Z :=
  db <- get ;;
  match highest_serial (serial_numbers db collection_name) with
  | Some n => if n =? 0 then ret default_start else ret (n + 1)
  | None => ret default_start
  end.

Definition create_audit_log (log_type : AuditLogType) (entity_type entity_id : string)
    (entity_serial : Z) (user : User.t) (amount : option float)
    (new_values : list (string * float)) : M AuditLog.t :=
  id <- uuid4 ;;
  let audit := AuditLog.mk id log_type entity_type entity_id entity_serial
                 (User.id user) (User.role user) amount new_values in
  db <- get ;;
  modify (set_audit_logs (insert_one audit (audit_logs db))) ;;;
  ret audit.

Definition truediv (a : float) (n : Z) : result float :=
  if n =? 0 then Raised ZeroDivisionError else Ok (a / PyFloat.of_Z n)%float.

Definition record_upfront_payment (order : Order.t) (approver : User.t)
    (invoice_id : string) (invoice_number : Z) (paid_amount : float)
    (payment_method : option string) : M unit :=
  if PyFloat.gtb paid_amount 0%float && Py.truthy payment_method then
    payment_number <- get_next_serial_number "payments" 20001 ;;
    payment_id <- uuid4 ;;
    method <- lift (PaymentMethod_validate
                      (match payment_method with Some s => s | None => "" end)) ;;
    let payment :=
      Payment.mk payment_id payment_number invoice_id invoice_number
        (Order.clinic_id order) paid_amount method (Order.medical_rep_id order) in
    db <- get ;;
    modify (set_payments (insert_one payment (payments db))) ;;;
    log_type <- lift (AuditLogType_getattr "PAYMENT_RECEIVED") ;;
    create_audit_log log_type "payment" payment_id payment_number approver
      (Some paid_amount) [] ;;;
    ret tt
  else ret tt.

Definition create_installment (order : Order.t) (schedule_id invoice_id : string)
    (invoice_number : Z) (schedule_type : string) (first_due_date : Datetime.t)
    (interval_days : Z) (amount_per_installment : float) (i : Z) : M unit :=
  due_date <- lift (installment_due_date schedule_type first_due_date interval_days i) ;;
  installment_id <- uuid4 ;;
  let installment :=
    Installment.mk installment_id schedule_id invoice_id invoice_number
      (Order.clinic_id order) (i + 1) amount_per_installment 0%float
      amount_per_installment (Some (Iso due_date)) "upcoming" [] None in
  db <- get ;;
  modify (set_installments (insert_one installment (installments db))).

Definition generate_schedule (order : Order.t) (invoice_id : string)
    (invoice_number : Z) (remaining_amount : float) : M unit :=
  if iso_truthy (Order.first_due_date order) && PyFloat.gtb remaining_amount 0%float then
    let schedule_type := Order.schedule_type order in
    let installments_count := Order.installments_count order in
    let interval_days := Order.interval_days order in
    let grace_period := Order.grace_period_days order in
    first_due_date <- lift (fromisoformat
                              (match Order.first_due_date order with
                               | Some s => s
                               | None => Malformed ""
                               end)) ;;
    schedule_id <- uuid4 ;;
    let schedule :=
      InstallmentSchedule.mk schedule_id invoice_id invoice_number
        (Order.clinic_id order) schedule_type
        (if String.eqb schedule_type "regular" then Some interval_days else None)
        remaining_amount installments_count grace_period first_due_date in
    db <- get ;;
    modify (set_installment_schedules (insert_one schedule (installment_schedules db))) ;;;
    amount_per_installment <- lift (truediv remaining_amount installments_count) ;;
    for_each (Py.range installments_count)
      (create_installment order schedule_id invoice_id invoice_number schedule_type
         first_due_date interval_days amount_per_installment)
  else ret tt.

Definition initial_balances (order : Order.t) : float * float * string :=
  let total_amount := Order.total_amount order in
  let payment_status := Order.payment_status order in
  let order_amount_paid :=
    match Order.amount_paid order with Some a => a | None => 0%float end in
  if String.eqb payment_status "full" then
    (total_amount, 0%float, "paid")
  else if String.eqb payment_status "partial" then
    let paid_amount := PyFloat.min order_amount_paid total_amount in
    (paid_amount, (total_amount - paid_amount)%float, "partial")
  else
    (0%float, total_amount, "pending").

Definition create_invoice_from_order (order : Order.t) (approver : User.t) : M Invoice.t :=
  invoice_number <- get_next_serial_number "invoices" 10001 ;;
  let total_amount := Order.total_amount order in
  let payment_method := Order.payment_method order in
  let '(paid_amount, remaining_amount, invoice_status) := initial_balances order in
  invoice_id <- uuid4 ;;
  order_serial <- lift (required_int "order_serial" (Order.serial_number order)) ;;
  let invoice :=
    Invoice.mk invoice_id invoice_number (Order.id order) order_serial
      (Order.clinic_id order) (Order.medical_rep_id order) (User.id approver)
      total_amount paid_amount remaining_amount invoice_status payment_method [] in
  db <- get ;;
  modify (set_invoices (insert_one invoice (invoices db))) ;;;
  record_upfront_payment order approver invoice_id invoice_number paid_amount
    payment_method ;;;
  generate_schedule order invoice_id invoice_number remaining_amount ;;;
  log_type <- lift (AuditLogType_getattr "INVOICE_CREATED") ;;
  create_audit_log log_type "invoice" invoice_id invoice_number approver
    (Some total_amount) [] ;;;
  ret invoice.

Definition pay_installment (installment_id : string)
    (payment_data : InstallmentPaymentCreate.t) (current_user : User.t)
    : M (string * string) :=
  db <- get ;;
  match find_one (fun x => String.eqb (Installment.id x) installment_id) (installments db) with
  | None => raise (HTTPException 404 "Installment not found")
  | Some installment =>
    if String.eqb (Installment.status installment) "paid" then
      raise (HTTPException 400 "Installment already paid")
    else
      let amount := PyFloat.min (InstallmentPaymentCreate.amount payment_data)
                           (Installment.remaining_amount installment) in
      match find_one (fun x => String.eqb (Invoice.id x) (Installment.invoice_id installment))
                     (invoices db) with
      | None => raise (HTTPException 404 "Invoice not found")
      | Some invoice =>
        payment_number <- get_next_serial_number "payments" 20001 ;;
        payment_id <- uuid4 ;;
        method <- lift (PaymentMethod_validate
                          (InstallmentPaymentCreate.payment_method payment_data)) ;;
        let payment :=
          Payment.mk payment_id payment_number (Installment.invoice_id installment)
            (Installment.invoice_number installment) (Installment.clinic_id installment)
            amount method (User.id current_user) in
        db <- get ;;
        modify (set_payments (insert_one payment (payments db))) ;;;
        let new_paid := (Installment.paid_amount installment + amount)%float in
        let new_remaining := (Installment.remaining_amount installment - amount)%float in
        let new_status := if PyFloat.leb new_remaining 0%float then "paid" else "partial" in
        db <- get ;;
        modify (set_installments
          (update_one (fun x => String.eqb (Installment.id x) installment_id)
             (fun x =>
                Installment.mk (Installment.id x) (Installment.schedule_id x)
                  (Installment.invoice_id x) (Installment.invoice_number x)
                  (Installment.clinic_id x) (Installment.installment_number x)
                  (Installment.amount x) new_paid (PyFloat.max 0%float new_remaining)
                  (Installment.due_date x) new_status
                  (Installment.payment_ids x ++ [payment_id])
                  (Installment.rescheduled_from x))
             (installments db))) ;;;
        let invoice_new_paid := (Invoice.paid_amount invoice + amount)%float in
        let invoice_new_remaining := (Invoice.remaining_amount invoice - amount)%float in
        let invoice_status := if PyFloat.leb invoice_new_remaining 0%float then "paid" else "partial" in
        db <- get ;;
        modify (set_invoices
          (update_one (fun x => String.eqb (Invoice.id x) (Installment.invoice_id installment))
             (fun x =>
                Invoice.mk (Invoice.id x) (Invoice.invoice_number x) (Invoice.order_id x)
                  (Invoice.order_serial x) (Invoice.clinic_id x) (Invoice.created_by x)
                  (Invoice.approved_by x) (Invoice.total_amount x) invoice_new_paid
                  (PyFloat.max 0%float invoice_new_remaining) invoice_status
                  (Invoice.payment_method x) (Invoice.payments x))
             (invoices db))) ;;;
        log_type <- lift (AuditLogType_getattr "PAYMENT_RECEIVED") ;;
        create_audit_log log_type "installment" installment_id
          (Installment.installment_number installment) current_user (Some amount) [] ;;;
        ret (payment_id, new_status)
      end
  end.

Definition create_payment (payment : PaymentCreate.t) (current_user : User.t)
    : M (string * float) :=
  db <- get ;;
  match find_one (fun x => String.eqb (Invoice.id x) (PaymentCreate.invoice_id payment))
                 (invoices db) with
  | None => raise (HTTPException 404 "Invoice not found")
  | Some invoice =>
    let remaining := Invoice.remaining_amount invoice in
    if PyFloat.gtb (PaymentCreate.amount payment) remaining then
      raise (HTTPException 400 "Payment amount exceeds remaining amount")
    else if PyFloat.leb (PaymentCreate.amount payment) 0%float then
      raise (HTTPException 400 "Payment amount must be greater than 0")
    else
      payment_number <- get_next_serial_number "payments" 20001 ;;
      payment_id <- uuid4 ;;
      let new_payment :=
        Payment.mk payment_id payment_number (PaymentCreate.invoice_id payment)
          (Invoice.invoice_number invoice) (Invoice.clinic_id invoice)
          (PaymentCreate.amount payment) (PaymentCreate.payment_method payment)
          (User.id current_user) in
      db <- get ;;
      modify (set_payments (insert_one new_payment (payments db))) ;;;
      let new_paid := (Invoice.paid_amount invoice + PaymentCreate.amount payment)%float in
      let new_remaining := (Invoice.total_amount invoice - new_paid)%float in
      let new_status := if PyFloat.leb new_remaining 0%float then FULLY_PAID else PARTIALLY_PAID in
      let payment_summary :=
        PaymentSummary.mk payment_id payment_number (PaymentCreate.amount payment)
          (PaymentMethod_value (PaymentCreate.payment_method payment)) in
      db <- get ;;
      modify (set_invoices
        (update_one (fun x => String.eqb (Invoice.id x) (PaymentCreate.invoice_id payment))
           (fun x =>
              Invoice.mk (Invoice.id x) (Invoice.invoice_number x) (Invoice.order_id x)
                (Invoice.order_serial x) (Invoice.clinic_id x) (Invoice.created_by x)
                (Invoice.approved_by x) (Invoice.total_amount x) new_paid
                (PyFloat.max 0%float new_remaining) (InvoiceStatus_value new_status)
                (Invoice.payment_method x) (Invoice.payments x ++ [payment_summary]))
           (invoices db))) ;;;
      log_type <- lift (AuditLogType_getattr "PAYMENT_RECORDED") ;;
      create_audit_log log_type "payment" payment_id payment_number current_user
        (Some (PaymentCreate.amount payment))
        [("paid_amount", new_paid); ("remaining_amount", PyFloat.max 0%float new_remaining)] ;;;
      ret (InvoiceStatus_value new_status, PyFloat.max 0%float new_remaining)
  end.


End Binary64.

(** ** Sample data *)

Module Sample.

Definition manager : User.t := User.mk "manager-1" "manager".
Definition accountant : User.t := User.mk "accountant-1" "accountant".

Definition jan31 (y : Z) : Datetime.t := Datetime.mk y 1 31 0 (Some 0).

(** The scenario order: total 3000, declared partial with 1000 paid,
    two monthly installments from [D]. *)
Definition scenario_order (payment_method : option string) (D : Datetime.t) : Order.t :=
  Order.mk "order-1" (Some 1001) "clinic-1" "rep-1" (Py.of_Z 3000) "partial"
    payment_method (Some (Py.of_Z 1000)) "monthly" 2 30 3 (Some (Iso D)).

(** An unpaid order of [total] with [count] installments. *)
Definition unpaid_order (id : string) (total : Z) (schedule_type : string)
    (count : Z) (D : Datetime.t) : Order.t :=
  Order.mk id (Some 1002) "clinic-1" "rep-1" (Py.of_Z total) "unpaid" None None
    schedule_type count 30 3 (Some (Iso D)).

(** An order declared partial with nothing paid. *)
Definition partial_unpaid_order : Order.t :=
  Order.mk "order-3" (Some 1003) "clinic-1" "rep-1" (Py.of_Z 500) "partial" None None
    "monthly" 3 30 3 None.

(** The ledger after an unpaid order of 3000 was invoiced with two
    monthly installments of 1500: invoice [uuid-0], installments
    [uuid-2] and [uuid-3]. *)
Definition ledger : DB :=
  exec (create_invoice_from_order
          (unpaid_order "order-2" 3000 "monthly" 2 (jan31 2024)) manager) empty_db.

Definition overdue_installment (due : option iso_string) : Installment.t :=
  Installment.mk "i-1" "s-1" "inv-1" 10001 "clinic-1" 1 (Py.of_Z 100) 0%Qc
    (Py.of_Z 100) due "overdue" [] None.

Definition paid_installment (rescheduled_from : option string) : Installment.t :=
  Installment.mk "i-2" "s-1" "inv-1" 10001 "clinic-1" 2 (Py.of_Z 100)
    (Py.of_Z 100) 0%Qc (Some (Iso (jan31 2024))) "paid" ["p-1"] rescheduled_from.

Definition history_db (l : list Installment.t) : DB :=
  set_installments l empty_db.

End Sample.

Module Sample64.
Import PrimFloat.

(** An unpaid order of 1000 in six monthly installments from
    2024-01-31, with binary64 amounts. *)
Definition order_in_six : Binary64.Order.t :=
  Binary64.Order.mk "order-6" (Some 1006) "clinic-1" "rep-1" 1000%float "unpaid" None None
    "monthly" 6 30 3 (Some (Iso (Sample.jan31 2024))).

(** The ledger after that order was invoiced: invoice [uuid-0],
    installments [uuid-2] to [uuid-7]. *)
Definition ledger : Binary64.DB :=
  Binary64.exec (Binary64.create_invoice_from_order order_in_six Sample.manager)
    Binary64.empty_db.

(** An unpaid order of 1000.13 in three monthly installments from
    2024-01-31, and the ledger after it was invoiced: invoice [uuid-0],
    installments [uuid-2] to [uuid-4]. *)
Definition order_in_three : Binary64.Order.t :=
  Binary64.Order.mk "order-7" (Some 1007) "clinic-1" "rep-1" 1000.13%float "unpaid" None None
    "monthly" 3 30 3 (Some (Iso (Sample.jan31 2024))).

Definition ledger_in_three : Binary64.DB :=
  Binary64.exec (Binary64.create_invoice_from_order order_in_three Sample.manager)
    Binary64.empty_db.

End Sample64.

(** ** Auxiliary notions of the proofs *)

(** The number the allocator hands out on [db]. *)
Definition next_serial (db : DB) (collection_name : string) (default_start : Z) : Z :=
  match highest_serial (serial_numbers db collection_name) with
  | Some n => if n =? 0 then default_start else n + 1
  | None => default_start
  end.

(** A new installment of amount [a]: nothing paid, all of [a] remaining,
    status [upcoming]. *)
Definition fresh_installment (a : Qc) (x : Installment.t) : Prop :=
  Installment.amount x = a /\ Installment.paid_amount x = 0%Qc
  /\ Installment.remaining_amount x = a /\ Installment.status x = "upcoming".

(** A product entry whose quantity or price is not a number. *)
Definition not_numeric (p : OrderProduct.t) : Prop :=
  get_or_0 (OrderProduct.quantity p) = NotNumber
  \/ get_or_0 (OrderProduct.price p) = NotNumber.

(** A product entry with a quantity above 1. *)
Definition above_one (p : OrderProduct.t) : Prop :=
  exists quantity,
    get_or_0 (OrderProduct.quantity p) = Number quantity /\ (1 < quantity)%Qc.

(** All the collections of the ledger as they were. *)
Definition same_collections (db db' : DB) : Prop :=
  invoices db' = invoices db /\ payments db' = payments db
  /\ installment_schedules db' = installment_schedules db
  /\ installments db' = installments db /\ audit_logs db' = audit_logs db.

(** The collections a step leaves as they were. *)
Definition keeps_ledger (db db' : DB) : Prop :=
  invoices db' = invoices db /\ payments db' = payments db
  /\ audit_logs db' = audit_logs db.

(** * Proofs *)

Local Open Scope list_scope.

(** Runs the steps of a handler that do not depend on the data. *)
Ltac run_handler :=
  cbv [bind get ret raise lift modify uuid4 create_audit_log];
  cbn [fst snd installments invoices payments audit_logs installment_schedules
       set_installments set_invoices set_payments set_audit_logs
       set_installment_schedules].

(** ** Arithmetic of the Python built-ins *)

Lemma leb_le (a b : Qc) : Py.leb a b = true <-> (a <= b)%Qc.
Proof. unfold Py.leb, Qcle. apply Qle_bool_iff. Qed.

Lemma ltb_lt (a b : Qc) : Py.ltb a b = true <-> (a < b)%Qc.
Proof.
  unfold Py.ltb. rewrite negb_true_iff. split; intros H.
  - apply Qcnot_le_lt. intros Hle. apply leb_le in Hle. unfold Py.leb in Hle. congruence.
  - destruct (Qle_bool b a) eqn:E; [|reflexivity].
    apply Qle_bool_iff in E. exfalso. exact (Qclt_not_le _ _ H E).
Qed.

Lemma leb_nle (a b : Qc) : Py.leb a b = false <-> (b < a)%Qc.
Proof.
  rewrite <- ltb_lt. unfold Py.ltb, Py.leb. destruct (Qle_bool a b); simpl; intuition congruence.
Qed.

Lemma ltb_nlt (a b : Qc) : Py.ltb a b = false <-> (b <= a)%Qc.
Proof.
  rewrite <- leb_le. unfold Py.ltb, Py.leb. destruct (Qle_bool b a); simpl; intuition congruence.
Qed.

Lemma min_le_r (a b : Qc) : (Py.min a b <= b)%Qc.
Proof.
  unfold Py.min. destruct (Py.ltb b a) eqn:E.
  - apply Qcle_refl.
  - apply ltb_nlt in E. exact E.
Qed.

Lemma max0_nonneg (x : Qc) : (0 <= x)%Qc -> Py.max 0%Qc x = x.
Proof.
  intros H. unfold Py.max, Py.gtb. destruct (Py.ltb 0%Qc x) eqn:E; [reflexivity|].
  apply ltb_nlt in E. apply Qcle_antisym; assumption.
Qed.

Lemma sub_nonneg (a b : Qc) : (a <= b)%Qc -> (0 <= b - a)%Qc.
Proof. intros H. unfold Qcminus. apply -> Qcle_minus_iff. exact H. Qed.

Lemma sub_eq0 (a b : Qc) : (b - a = 0)%Qc -> a = b.
Proof. intros H. assert (E : (b = (b - a) + a)%Qc) by ring. rewrite H in E. rewrite E. ring. Qed.

(** ** Collections *)

Lemma update_one_split {A} (p : A -> bool) (f : A -> A) (l : list A) (a : A) :
  find_one p l = Some a ->
  exists l1 l2, l = l1 ++ a :: l2 /\ update_one p f l = l1 ++ f a :: l2.
Proof.
  unfold find_one. induction l as [|x l IH]; simpl; [discriminate|].
  destruct (p x) eqn:E.
  - intros [= ->]. exists [], l. split; reflexivity.
  - intros H. destruct (IH H) as (l1 & l2 & -> & ->).
    exists (x :: l1), l2. split; reflexivity.
Qed.

Lemma find_one_update_one {A} (p : A -> bool) (f : A -> A) (l : list A) (a : A) :
  find_one p l = Some a -> p (f a) = true ->
  find_one p (update_one p f l) = Some (f a).
Proof.
  unfold find_one. induction l as [|x l IH]; cbn [find update_one]; [discriminate|].
  destruct (p x) eqn:E.
  - intros [= ->] Hp. cbn [find]. now rewrite Hp.
  - intros H Hp. cbn [find]. rewrite E. now apply IH.
Qed.

(** ** The allocator reads and never writes *)

Lemma get_next_serial_number_run c s db :
  get_next_serial_number c s db = (db, Ok (next_serial db c s)).
Proof.
  unfold get_next_serial_number, next_serial, bind, get, ret.
  destruct (highest_serial _) as [n|]; [destruct (n =? 0)|]; reflexivity.
Qed.

Lemma highest_serial_absent {A} (l : list A) :
  highest_serial (map (fun _ => None) l) = None.
Proof. induction l; simpl; auto. Qed.

Lemma next_invoice_number db s : next_serial db "invoices" s = s.
Proof. unfold next_serial, serial_numbers. simpl. now rewrite highest_serial_absent. Qed.

Lemma next_payment_number db s : next_serial db "payments" s = s.
Proof. unfold next_serial, serial_numbers. simpl. now rewrite highest_serial_absent. Qed.

(** ** Installments *)

Section Scheduling.

Variables (order : Order.t) (schedule_id invoice_id : string) (invoice_number : Z).
Variables (schedule_type : string) (first_due_date : Datetime.t) (interval_days : Z).
Variable a : Qc.

Local Abbreviation turn :=
  (create_installment order schedule_id invoice_id invoice_number
     schedule_type first_due_date interval_days a).

Lemma create_installment_run (i : Z) (db : DB) :
  (exists e, installment_due_date schedule_type first_due_date interval_days i = Raised e
             /\ turn i db = (db, Raised e))
  \/ (exists d x, installment_due_date schedule_type first_due_date interval_days i = Ok d
             /\ outcome (turn i) db = Ok tt
             /\ installments (exec (turn i) db) = installments db ++ [x]
             /\ fresh_installment a x
             /\ keeps_ledger db (exec (turn i) db)).
Proof.
  unfold create_installment, exec, outcome. run_handler.
  destruct (installment_due_date _ _ _ i) as [d|e].
  - right. eexists d, _. cbn. repeat split; reflexivity.
  - left. exists e. split; reflexivity.
Qed.

Lemma schedule_loop (l : list Z) (db : DB) :
  exists news,
    installments (exec (for_each l turn) db) = installments db ++ news
    /\ Forall (fresh_installment a) news
    /\ keeps_ledger db (exec (for_each l turn) db)
    /\ (List.length news <= List.length l)%nat
    /\ (outcome (for_each l turn) db = Ok tt -> List.length news = List.length l)
    /\ (Forall (fun i => exists d,
                  installment_due_date schedule_type first_due_date interval_days i = Ok d) l
        -> outcome (for_each l turn) db = Ok tt).
Proof.
  revert db. induction l as [|i l IH]; intros db.
  - exists []. cbn. rewrite app_nil_r. repeat split; constructor.
  - unfold exec, outcome. cbn [for_each]. unfold bind.
    destruct (create_installment_run i db) as [(e & He & ->)|(d & x & Hd & Ho & Hi & Hx & Hk)].
    + exists []. cbn [fst snd]. rewrite app_nil_r.
      repeat split; try constructor; try discriminate; cbn; try lia.
      intros HF. inversion HF as [|? ? [d Hd] _]. congruence.
    + unfold exec, outcome in *. destruct (turn i db) as [db1 r1]. cbn [fst snd] in *.
      subst r1. destruct (IH db1) as (news & Hn & HF & Hk' & Hle & Hlen & Hok).
      unfold exec, outcome in *. destruct (for_each l turn db1) as [db2 r2]. cbn [fst snd] in *.
      exists (x :: news). rewrite Hn, Hi, <- app_assoc. cbn [app].
      split; [reflexivity|]. split; [now constructor|]. split.
      * destruct Hk as (A & B & C), Hk' as (A' & B' & C'). repeat split; congruence.
      * split; [cbn [List.length]; lia|]. split.
        -- intros E. cbn [List.length]. f_equal. now apply Hlen.
        -- intros HF'. apply Hok. now inversion HF'.
Qed.

End Scheduling.

Lemma range_length (n : Z) : List.length (Py.range n) = Z.to_nat n.
Proof. unfold Py.range. now rewrite length_map, length_seq. Qed.


(** The schedule block appends installments of one amount and leaves
    invoices, payments and the audit log alone. *)
Lemma generate_schedule_run (order : Order.t) (invoice_id : string) (invoice_number : Z)
    (remaining_amount : Qc) (db : DB) :
  let db' := exec (generate_schedule order invoice_id invoice_number remaining_amount) db in
  let n := Order.installments_count order in
  exists news,
    installments db' = installments db ++ news
    /\ keeps_ledger db db'
    /\ (news = [] \/ ((0 < remaining_amount)%Qc /\ 1 <= n))
    /\ Forall (fresh_installment (remaining_amount / Py.of_Z n)%Qc) news
    /\ (outcome (generate_schedule order invoice_id invoice_number remaining_amount) db = Ok tt ->
        iso_truthy (Order.first_due_date order) = true -> (0 < remaining_amount)%Qc ->
        List.length news = Z.to_nat n).
Proof.
  intros db' n. subst db'. unfold exec, outcome, generate_schedule.
  destruct (iso_truthy _ && Py.gtb remaining_amount 0%Qc) eqn:Hc.
  2:{ exists []. cbn. rewrite app_nil_r. repeat split; auto.
      intros _ Ht Hr. apply ltb_lt in Hr. unfold Py.gtb in Hc. rewrite Ht, Hr in Hc. discriminate. }
  apply andb_true_iff in Hc. destruct Hc as [Ht Hr]. apply ltb_lt in Hr.
  run_handler.
  destruct (fromisoformat _) as [first|e].
  2:{ exists []. cbn. rewrite app_nil_r. repeat split; auto. discriminate. }
  unfold truediv. fold n. destruct (n =? 0) eqn:Hn.
  { exists []. cbn. rewrite app_nil_r. repeat split; auto. discriminate. }
  cbn [fst snd].
  match goal with
  | |- context [for_each ?l ?body ?d] =>
      destruct (schedule_loop order
                  ("uuid-" ++ Py.str (next_uuid db))%string invoice_id invoice_number
                  (Order.schedule_type order) first (Order.interval_days order)
                  (remaining_amount / Py.of_Z n)%Qc l d)
        as (news & Hi & HF & Hk & Hle & Hlen & _)
  end.
  unfold exec, outcome in *.
  match goal with
  | |- context [for_each ?l ?body ?d] => destruct (for_each l body d) as [db2 r2]
  end.
  cbn [fst snd] in *. exists news. cbn in Hi. split; [exact Hi|]. split.
  - destruct Hk as (A & B & C). cbn in A, B, C. repeat split; assumption.
  - split; [|split; [exact HF|]].
    + destruct news as [|x news]; [now left|right]. split; [exact Hr|].
      rewrite range_length in Hle. cbn [List.length] in Hle. lia.
    + intros E _ _. rewrite <- range_length. apply Hlen. exact E.
Qed.

(** The upfront-payment block never writes an invoice, an installment or
    an audit entry, and it returns only when it had nothing to record. *)
Lemma record_upfront_payment_run (order : Order.t) (approver : User.t)
    (invoice_id : string) (invoice_number : Z) (paid_amount : Qc)
    (payment_method : option string) (db : DB) :
  let c := record_upfront_payment order approver invoice_id invoice_number
             paid_amount payment_method in
  invoices (exec c db) = invoices db
  /\ installments (exec c db) = installments db
  /\ audit_logs (exec c db) = audit_logs db
  /\ (Py.gtb paid_amount 0%Qc && Py.truthy payment_method = false -> c db = (db, Ok tt))
  /\ (Py.gtb paid_amount 0%Qc && Py.truthy payment_method = true ->
      (exists e, outcome c db = Raised e)
      /\ (payments (exec c db) = payments db
          \/ exists p, payments (exec c db) = payments db ++ [p]
                       /\ Payment.amount p = paid_amount)).
Proof.
  intros c. subst c. unfold exec, outcome, record_upfront_payment.
  destruct (Py.gtb paid_amount 0%Qc && Py.truthy payment_method).
  2:{ cbn. repeat split; auto. discriminate. }
  run_handler. rewrite get_next_serial_number_run. run_handler.
  destruct (PaymentMethod_validate _) as [m|e]; cbn.
  - repeat split; try discriminate; eauto.
    right. eexists. split; reflexivity.
  - repeat split; try discriminate; eauto.
Qed.

(** What invoice creation leaves in the database. *)
Lemma create_invoice_from_order_without_serial (order : Order.t) (approver : User.t)
    (db : DB) :
  Order.serial_number order = None ->
  create_invoice_from_order order approver db
  = (fst (uuid4 db), Raised (ValidationError "order_serial")).
Proof.
  intros Hs. unfold create_invoice_from_order.
  unfold bind at 1. rewrite get_next_serial_number_run.
  destruct (initial_balances order) as [[paid rem] st].
  unfold bind at 1. unfold uuid4 at 1. cbn [fst].
  unfold bind at 1. rewrite Hs. reflexivity.
Qed.

(** An order without a serial number is refused before anything is
    written. *)
Lemma create_invoice_from_order_refused (order : Order.t) (approver : User.t) (db : DB) :
  Order.serial_number order = None ->
  outcome (create_invoice_from_order order approver) db
  = Raised (ValidationError "order_serial")
  /\ same_collections db (exec (create_invoice_from_order order approver) db).
Proof.
  intros Hs. unfold exec, outcome.
  rewrite (create_invoice_from_order_without_serial order approver db Hs).
  repeat split.
Qed.

Lemma create_invoice_from_order_run (order : Order.t) (approver : User.t) (db : DB)
    (serial : Z) :
  Order.serial_number order = Some serial ->
  let c := create_invoice_from_order order approver in
  let paid := fst (fst (initial_balances order)) in
  let rem := snd (fst (initial_balances order)) in
  let n := Order.installments_count order in
  let invoice :=
    Invoice.mk ("uuid-" ++ Py.str (next_uuid db))%string 10001 (Order.id order)
      serial (Order.clinic_id order) (Order.medical_rep_id order)
      (User.id approver) (Order.total_amount order) paid rem
      (snd (initial_balances order)) (Order.payment_method order) [] in
  invoices (exec c db) = invoices db ++ [invoice]
  /\ (exists news,
        installments (exec c db) = installments db ++ news
        /\ (news = [] \/ ((0 < rem)%Qc /\ 1 <= n))
        /\ Forall (fresh_installment (rem / Py.of_Z n)%Qc) news
        /\ (forall v, outcome c db = Ok v ->
            iso_truthy (Order.first_due_date order) = true -> (0 < rem)%Qc ->
            List.length news = Z.to_nat n))
  /\ (forall v, outcome c db = Ok v ->
      v = invoice
      /\ Py.gtb paid 0%Qc && Py.truthy (Order.payment_method order) = false
      /\ payments (exec c db) = payments db
      /\ exists a, audit_logs (exec c db) = audit_logs db ++ [a]
                   /\ AuditLog.log_type a = INVOICE_CREATED)
  /\ (Py.gtb paid 0%Qc && Py.truthy (Order.payment_method order) = true ->
      installments (exec c db) = installments db
      /\ audit_logs (exec c db) = audit_logs db
      /\ exists e, outcome c db = Raised e)
  /\ (Py.gtb paid 0%Qc && Py.truthy (Order.payment_method order) = false ->
      payments (exec c db) = payments db).
Proof.
  intros Hserial c paid rem n invoice. subst c paid rem invoice.
  unfold exec, outcome.
  destruct (create_invoice_from_order order approver db) as [db' r] eqn:E.
  cbn [fst snd]. unfold create_invoice_from_order in E.
  unfold bind at 1 in E. rewrite get_next_serial_number_run, next_invoice_number in E.
  destruct (initial_balances order) as [[paid rem] st]. cbn [fst snd].
  unfold bind at 1 in E. unfold uuid4 at 1 in E. unfold bind at 1 in E.
  rewrite Hserial in E. unfold required_int, lift in E. unfold bind at 1 in E.
  unfold get at 1 in E. unfold bind at 1 in E. unfold modify at 1 in E.
  set (inv := Invoice.mk _ _ _ _ _ _ _ _ _ _ _ _ _) in *.
  set (db1 := set_invoices _ _) in E.
  assert (D1 : invoices db1 = invoices db ++ [inv]) by reflexivity.
  assert (D2 : installments db1 = installments db) by reflexivity.
  assert (D3 : payments db1 = payments db) by reflexivity.
  assert (D4 : audit_logs db1 = audit_logs db) by reflexivity.
  clearbody db1.
  unfold bind at 1 in E.
  pose proof (record_upfront_payment_run order approver
                ("uuid-" ++ Py.str (next_uuid db))%string 10001 paid
                (Order.payment_method order) db1) as (Hi & Hn & Ha & Hskip & Hrec).
  unfold exec, outcome in *.
  destruct (Py.gtb paid 0%Qc && Py.truthy (Order.payment_method order)) eqn:Hc.
  - destruct (Hrec eq_refl) as [[e He] _].
    destruct (record_upfront_payment _ _ _ _ _ _ db1) as [db2 r2]. cbn [fst snd] in *.
    subst r2. injection E as <- <-. split; [congruence|]. split.
    + exists []. rewrite app_nil_r.
      repeat split; auto; try congruence; try constructor; discriminate.
    + split; [discriminate|]. split; [|discriminate].
      intros _. repeat split; try congruence. eauto.
  - rewrite (Hskip eq_refl) in E. unfold bind at 1 in E.
    pose proof (generate_schedule_run order ("uuid-" ++ Py.str (next_uuid db))%string
                  10001 rem db1) as (news & Hins & (Hk1 & Hk2 & Hk3) & Hcase & HF & Hlen).
    unfold exec, outcome in *.
    destruct (generate_schedule _ _ _ _ db1) as [db2 [[]|e]]; cbn [fst snd] in *.
    + revert E. run_handler. cbn. intros [= <- <-]. cbn. split; [congruence|]. split.
      * exists news. repeat split; auto; congruence.
      * split; [|split; [discriminate|intros _; congruence]].
        intros v [= <-]. repeat split; auto; try congruence.
        rewrite Hk3, D4. eexists. split; reflexivity.
    + injection E as <- <-. split; [congruence|]. split.
      * exists news. repeat split; auto; try congruence; discriminate.
      * split; [discriminate|]. split; [discriminate|intros _; congruence].
Qed.

(** ** Sequence numbers *)

(** The allocator looks for a [serial_number] field, which the documents
    of [invoices] and [payments] do not have: on these two collections it
    always answers its default. *)
Lemma allocator_ignores_ledger_collections (db : DB) (default_start : Z) :
  get_next_serial_number "invoices" default_start db = (db, Ok default_start)
  /\ get_next_serial_number "payments" default_start db = (db, Ok default_start).
Proof.
  rewrite !get_next_serial_number_run, next_invoice_number, next_payment_number. now split.
Qed.

(** Claim C1 (sequence allocator: every call returns a number strictly
    greater than all earlier ones for the same entity type, the first
    call returning [start_from]).  The allocator bound to the name does
    return [start_from] on the first call, but it returns it again on
    every later call: two orders invoiced one after the other both get
    invoice number 10001. *)
Theorem invoice_number_reissued :
  let db1 := exec (create_invoice_from_order
                     (Sample.unpaid_order "order-2" 3000 "monthly" 2 (Sample.jan31 2024))
                     Sample.manager) empty_db in
  let db2 := exec (create_invoice_from_order
                     (Sample.unpaid_order "order-4" 800 "weekly" 4 (Sample.jan31 2024))
                     Sample.manager) db1 in
  outcome (get_next_serial_number "invoices" 10001) empty_db = Ok 10001
  /\ outcome (get_next_serial_number "invoices" 10001) db1 = Ok 10001
  /\ map Invoice.invoice_number (invoices db2) = [10001; 10001]
  /\ map Invoice.order_id (invoices db2) = ["order-2"; "order-4"].
Proof. vm_compute. repeat split; reflexivity. Qed.

(** ** Invoice balance *)

(** Claim C2 (for every invoice, paid_amount + remaining_amount =
    total_amount after every ledger operation).  The invoice of 3000 with
    two installments of 1500 is balanced after creation and after a
    direct payment of 2000; paying the first installment in full then
    records 3500 paid and 0 remaining against a total of 3000. *)
Theorem installment_payment_unbalances_invoice :
  let db1 := exec (create_payment (PaymentCreate.mk "uuid-0" (Py.of_Z 2000) CASH)
                     Sample.accountant) Sample.ledger in
  let db2 := exec (pay_installment "uuid-2"
                     (InstallmentPaymentCreate.mk (Py.of_Z 1500) "cash")
                     Sample.accountant) db1 in
  Forall invoice_balanced (invoices Sample.ledger)
  /\ Forall invoice_balanced (invoices db1)
  /\ map (fun x => (Invoice.total_amount x, Invoice.paid_amount x, Invoice.remaining_amount x))
         (invoices db2)
     = [(Py.of_Z 3000, Py.of_Z 3500, Py.of_Z 0)]
  /\ ~ Forall invoice_balanced (invoices db2).
Proof.
  cbv zeta. repeat split.
  - repeat constructor.
  - repeat constructor.
  - intros H. apply Forall_inv in H. apply (f_equal this) in H.
    vm_compute in H. discriminate.
Qed.

(** ** The approved-order scenario *)

(** Claim C4 (scenario: order of 3000 declared partial with 1000 paid and
    a two-installment monthly plan from D gives an invoice 1000/2000
    partial, one payment of 1000 and two installments of 1000).  The
    invoice is as the scenario says, but whatever the declared payment
    method and whatever D, the run never leaves both the payment and the
    installments: without a method no payment is recorded, and with one
    the handler stops before the schedule.  With method [cash] it stops
    on [AttributeError: PAYMENT_RECEIVED]. *)
Theorem scenario_payment_or_installments (payment_method : option string)
    (D : Datetime.t) (db : DB) :
  let c := create_invoice_from_order (Sample.scenario_order payment_method D)
             Sample.manager in
  (exists inv,
      invoices (exec c db) = invoices db ++ [inv]
      /\ Invoice.paid_amount inv = Py.of_Z 1000
      /\ Invoice.remaining_amount inv = Py.of_Z 2000
      /\ Invoice.status inv = "partial")
  /\ (installments (exec c db) = installments db
      \/ payments (exec c db) = payments db)
  /\ outcome (create_invoice_from_order (Sample.scenario_order (Some "cash") D)
                Sample.manager) db
     = Raised (AttributeError "PAYMENT_RECEIVED").
Proof.
  intros c. subst c.
  pose proof (create_invoice_from_order_run (Sample.scenario_order payment_method D)
                Sample.manager db 1001 eq_refl) as (Hinv & _ & _ & Hpaid & Hunpaid).
  assert (Hb : initial_balances (Sample.scenario_order payment_method D)
               = (Py.of_Z 1000, Py.of_Z 2000, "partial")).
  { unfold initial_balances. cbn. repeat f_equal; apply Qc_is_canon; reflexivity. }
  rewrite Hb in *. cbn [fst snd] in *. split; [|split].
  - eexists. split; [exact Hinv|]. repeat split.
  - cbn [Sample.scenario_order Order.payment_method] in *.
    destruct (Py.gtb (Py.of_Z 1000) 0%Qc && Py.truthy payment_method).
    + left. now apply Hpaid.
    + right. now apply Hunpaid.
  - clear. unfold outcome, create_invoice_from_order.
    unfold bind at 1. rewrite get_next_serial_number_run, next_invoice_number.
    assert (Hb : initial_balances (Sample.scenario_order (Some "cash") D)
                 = (Py.of_Z 1000, Py.of_Z 2000, "partial")).
    { unfold initial_balances. cbn. repeat f_equal; apply Qc_is_canon; reflexivity. }
    rewrite Hb. unfold record_upfront_payment.
    replace (Py.gtb (Py.of_Z 1000) 0%Qc) with true by reflexivity.
    cbn [andb Py.truthy Sample.scenario_order Order.payment_method Order.serial_number
         required_int].
    run_handler. rewrite get_next_serial_number_run. reflexivity.
Qed.

Ltac qc_eq := apply Qc_is_canon; vm_compute; reflexivity.

(** Equalities between evaluated documents, amounts compared as rationals. *)
Ltac qc_list :=
  repeat first [ reflexivity | qc_eq | apply (f_equal2 cons) | apply (f_equal2 pair) ].

(** ** Audit trail *)

(** An installment payment never reaches the audit recorder and never
    returns normally. *)
Lemma pay_installment_audit (id : string) (data : InstallmentPaymentCreate.t)
    (user : User.t) (db : DB) :
  audit_logs (exec (pay_installment id data user) db) = audit_logs db
  /\ exists e, outcome (pay_installment id data user) db = Raised e.
Proof.
  unfold exec, outcome, pay_installment. run_handler.
  destruct (find_one _ (installments db)) as [inst|]; [|cbn; eauto].
  destruct (String.eqb (Installment.status inst) "paid"); [cbn; eauto|].
  destruct (find_one _ (invoices db)) as [inv|]; [|cbn; eauto].
  rewrite get_next_serial_number_run. run_handler.
  destruct (PaymentMethod_validate _) as [m|e]; cbn; eauto.
Qed.

(** Claim C5 (every ledger operation that reaches the point of mutating a
    balance appends an audit entry).  No run of [pay_installment] appends
    one.  On the sample ledger a payment of 500 on the first installment
    changes the installment, the invoice and the payments, and stops on
    [AttributeError: PAYMENT_RECEIVED] with the audit log as it was; the
    invoice created with an upfront cash payment of 1000 is persisted
    with its payment and no audit entry at all. *)
Theorem installment_payment_leaves_no_audit :
  (forall (installment_id : string) (payment_data : InstallmentPaymentCreate.t)
          (current_user : User.t) (db : DB),
      audit_logs (exec (pay_installment installment_id payment_data current_user) db)
      = audit_logs db)
  /\ (let c := pay_installment "uuid-2" (InstallmentPaymentCreate.mk (Py.of_Z 500) "cash")
                 Sample.accountant in
      outcome c Sample.ledger = Raised (AttributeError "PAYMENT_RECEIVED")
      /\ map Installment.remaining_amount (installments Sample.ledger)
         = [Py.of_Z 1500; Py.of_Z 1500]
      /\ map Installment.remaining_amount (installments (exec c Sample.ledger))
         = [Py.of_Z 1000; Py.of_Z 1500]
      /\ map Invoice.remaining_amount (invoices (exec c Sample.ledger)) = [Py.of_Z 2500]
      /\ map Payment.amount (payments (exec c Sample.ledger)) = [Py.of_Z 500]
      /\ audit_logs (exec c Sample.ledger) = audit_logs Sample.ledger)
  /\ (let c := create_invoice_from_order
                 (Sample.scenario_order (Some "cash") (Sample.jan31 2024)) Sample.manager in
      outcome c empty_db = Raised (AttributeError "PAYMENT_RECEIVED")
      /\ map Invoice.paid_amount (invoices (exec c empty_db)) = [Py.of_Z 1000]
      /\ map Payment.amount (payments (exec c empty_db)) = [Py.of_Z 1000]
      /\ audit_logs (exec c empty_db) = []).
Proof.
  split; [|split].
  - intros. apply pay_installment_audit.
  - cbv zeta. repeat split; vm_compute; qc_list.
  - cbv zeta. repeat split; vm_compute; qc_list.
Qed.

(** ** Invoice status *)

(** Claim C6 (the stored invoice status is one function of
    remaining_amount whatever operation set it: 0 gives paid, between 0
    and the total gives partial, the total gives pending).  A direct
    payment stores [fully_paid] for a remaining amount of 0 and
    [partially_paid] for 2000 of 3000, where an installment payment
    stores [partial] for the same 2000 of 3000; an order declared
    partial with nothing paid gives an invoice stored [partial] with the
    whole total remaining. *)
Theorem invoice_status_depends_on_operation :
  (let c := create_payment (PaymentCreate.mk "uuid-0" (Py.of_Z 3000) CASH)
              Sample.accountant in
   map (fun x => (Invoice.remaining_amount x, Invoice.status x)) (invoices (exec c Sample.ledger))
   = [(0%Qc, "fully_paid")]
   /\ Spec.status_of_remaining 0%Qc (Py.of_Z 3000) = Some "paid")
  /\ (let c := create_payment (PaymentCreate.mk "uuid-0" (Py.of_Z 1000) CASH)
                 Sample.accountant in
      map (fun x => (Invoice.remaining_amount x, Invoice.status x))
          (invoices (exec c Sample.ledger))
      = [(Py.of_Z 2000, "partially_paid")]
      /\ Spec.status_of_remaining (Py.of_Z 2000) (Py.of_Z 3000) = Some "partial")
  /\ (let c := pay_installment "uuid-2" (InstallmentPaymentCreate.mk (Py.of_Z 1000) "cash")
                 Sample.accountant in
      map (fun x => (Invoice.remaining_amount x, Invoice.status x))
          (invoices (exec c Sample.ledger))
      = [(Py.of_Z 2000, "partial")])
  /\ (let c := create_invoice_from_order Sample.partial_unpaid_order Sample.manager in
      map (fun x => (Invoice.total_amount x, Invoice.remaining_amount x, Invoice.status x))
          (invoices (exec c empty_db))
      = [(Py.of_Z 500, Py.of_Z 500, "partial")]
      /\ Spec.status_of_remaining (Py.of_Z 500) (Py.of_Z 500) = Some "pending").
Proof.
  cbv zeta. repeat split; vm_compute; qc_list.
Qed.

(** ** Monthly due dates *)

Lemma month_lengths_nth (y m : Z) :
  1 <= m <= 12 -> (y mod 4 =? 0) = Datetime.is_leap y ->
  nth (Z.to_nat (m - 1)) (month_lengths y) 0 = Datetime.days_in_month y m.
Proof.
  intros Hm Hleap.
  assert (E : m = 1 \/ m = 2 \/ m = 3 \/ m = 4 \/ m = 5 \/ m = 6 \/ m = 7 \/ m = 8
              \/ m = 9 \/ m = 10 \/ m = 11 \/ m = 12) by lia.
  unfold month_lengths, Datetime.days_in_month. rewrite Hleap.
  repeat (destruct E as [->|E]; [reflexivity|]). subst m. reflexivity.
Qed.

Lemma days_in_month_pos (y m : Z) : 28 <= Datetime.days_in_month y m.
Proof.
  unfold Datetime.days_in_month.
  destruct (m =? 2); [destruct (Datetime.is_leap y); lia|].
  destruct ((m =? 4) || (m =? 6) || (m =? 9) || (m =? 11)); lia.
Qed.

(** Where the test [year % 4 == 0] agrees with the calendar and the
    target year exists, the monthly branch is the clamped month addition. *)
Lemma monthly_due_date_agrees (d : Datetime.t) (interval_days i : Z) :
  let target := Spec.add_months d i in
  1 <= Datetime.day d ->
  Datetime.MINYEAR <= Datetime.year target <= Datetime.MAXYEAR ->
  (Datetime.year target mod 4 =? 0) = Datetime.is_leap (Datetime.year target) ->
  installment_due_date "monthly" d interval_days i = Ok target.
Proof.
  intros target Hday Hyear Hleap. subst target.
  unfold installment_due_date, Spec.add_months in *. cbn [String.eqb Ascii.eqb Bool.eqb].
  cbn [Datetime.year Datetime.month Datetime.day] in *.
  replace (Datetime.month d + i - 1) with (Datetime.month d - 1 + i) in * by lia.
  set (m0 := Datetime.month d - 1 + i) in *.
  set (y := Datetime.year d + m0 / 12) in *.
  assert (Hm : 1 <= m0 mod 12 + 1 <= 12) by (pose proof (Z.mod_pos_bound m0 12); lia).
  rewrite (month_lengths_nth y (m0 mod 12 + 1) Hm Hleap).
  unfold Datetime.replace, Datetime.valid_date.
  pose proof (days_in_month_pos y (m0 mod 12 + 1)).
  replace (Datetime.MINYEAR <=? y) with true by (symmetry; apply Z.leb_le; lia).
  replace (y <=? Datetime.MAXYEAR) with true by (symmetry; apply Z.leb_le; lia).
  replace (1 <=? m0 mod 12 + 1) with true by (symmetry; apply Z.leb_le; lia).
  replace (m0 mod 12 + 1 <=? 12) with true by (symmetry; apply Z.leb_le; lia).
  replace (1 <=? Z.min (Datetime.day d) (Datetime.days_in_month y (m0 mod 12 + 1)))
    with true by (symmetry; apply Z.leb_le; lia).
  replace (Z.min (Datetime.day d) (Datetime.days_in_month y (m0 mod 12 + 1))
           <=? Datetime.days_in_month y (m0 mod 12 + 1))
    with true by (symmetry; apply Z.leb_le; lia).
  reflexivity.
Qed.

(** Claim C9 (monthly schedule: installment i is due i calendar months
    after the first due date, the day clamped to the last day of the
    target month; from Jan 31 the second due date is Feb 28 in a non-leap
    year and Feb 29 in a leap year).  2100 is not a leap year and the
    clamped date is 2100-02-28, but the table of the loop gives February
    29 days in every year divisible by 4: the second due date is built
    as 2100-02-29, [replace] raises [ValueError] and the schedule stops
    after its first installment.  From Jan 31 of 2023 and of 2024 the
    code gives Feb 28 and Feb 29. *)
Theorem jan31_2100_second_due_date :
  Datetime.valid_date 2100 1 31 = true
  /\ Datetime.is_leap 2100 = false
  /\ Spec.add_months (Sample.jan31 2100) 1 = Datetime.mk 2100 2 28 0 (Some 0)
  /\ installment_due_date "monthly" (Sample.jan31 2100) 30 1
     = Raised (ValueError "day is out of range for month")
  /\ (let c := generate_schedule
                 (Sample.unpaid_order "order-5" 3000 "monthly" 2 (Sample.jan31 2100))
                 "inv-1" 10001 (Py.of_Z 3000) in
      outcome c empty_db = Raised (ValueError "day is out of range for month")
      /\ map Installment.due_date (installments (exec c empty_db))
         = [Some (Iso (Sample.jan31 2100))])
  /\ installment_due_date "monthly" (Sample.jan31 2023) 30 1
     = Ok (Datetime.mk 2023 2 28 0 (Some 0))
  /\ installment_due_date "monthly" (Sample.jan31 2024) 30 1
     = Ok (Datetime.mk 2024 2 29 0 (Some 0)).
Proof. repeat split; vm_compute; reflexivity. Qed.

(** ** Payment validation *)

(** Claim C3 (for every payment-recording operation, direct invoice
    payment and installment payment, a request with amount >
    remaining_amount or amount <= 0 is rejected and changes no state).
    On the sample ledger, whose invoice has 3000 remaining and whose
    first installment has 1500 remaining, a direct payment of 5000 and
    one of -100 are both rejected with status 400 and the ledger is left
    as it was.  The same two amounts paid on the installment are
    accepted: for 5000 a payment of 1500 is recorded and the installment
    is stored paid; for -100 a payment of -100 is recorded, the
    installment is stored with -100 paid and 1600 remaining, and its
    invoice with -100 paid and 3100 remaining. *)
Theorem installment_payment_is_not_validated :
  let direct amount := create_payment (PaymentCreate.mk "uuid-0" amount CASH)
                         Sample.accountant in
  let on_installment amount :=
    pay_installment "uuid-2" (InstallmentPaymentCreate.mk amount "cash")
      Sample.accountant in
  let installment_rows db :=
    map (fun x => (Installment.id x, Installment.paid_amount x,
                   Installment.remaining_amount x, Installment.status x))
        (installments db) in
  let invoice_rows db :=
    map (fun x => (Invoice.id x, Invoice.paid_amount x, Invoice.remaining_amount x))
        (invoices db) in
  (invoice_rows Sample.ledger = [("uuid-0", 0%Qc, Py.of_Z 3000)]
   /\ installment_rows Sample.ledger
      = [("uuid-2", 0%Qc, Py.of_Z 1500, "upcoming");
         ("uuid-3", 0%Qc, Py.of_Z 1500, "upcoming")]
   /\ payments Sample.ledger = [])
  /\ (direct (Py.of_Z 5000) Sample.ledger
      = (Sample.ledger,
         Raised (HTTPException 400 "Payment amount exceeds remaining amount"))
      /\ direct (Py.of_Z (-100)) Sample.ledger
         = (Sample.ledger,
            Raised (HTTPException 400 "Payment amount must be greater than 0")))
  /\ (Py.gtb (Py.of_Z 5000) (Py.of_Z 1500) = true
      /\ map Payment.amount (payments (exec (on_installment (Py.of_Z 5000)) Sample.ledger))
         = [Py.of_Z 1500]
      /\ installment_rows (exec (on_installment (Py.of_Z 5000)) Sample.ledger)
         = [("uuid-2", Py.of_Z 1500, 0%Qc, "paid");
            ("uuid-3", 0%Qc, Py.of_Z 1500, "upcoming")]
      /\ invoice_rows (exec (on_installment (Py.of_Z 5000)) Sample.ledger)
         = [("uuid-0", Py.of_Z 1500, Py.of_Z 1500)])
  /\ (Py.leb (Py.of_Z (-100)) 0%Qc = true
      /\ map Payment.amount (payments (exec (on_installment (Py.of_Z (-100))) Sample.ledger))
         = [Py.of_Z (-100)]
      /\ installment_rows (exec (on_installment (Py.of_Z (-100))) Sample.ledger)
         = [("uuid-2", Py.of_Z (-100), Py.of_Z 1600, "partial");
            ("uuid-3", 0%Qc, Py.of_Z 1500, "upcoming")]
      /\ invoice_rows (exec (on_installment (Py.of_Z (-100))) Sample.ledger)
         = [("uuid-0", Py.of_Z (-100), Py.of_Z 3100)]).
Proof.
  cbv zeta. repeat split; try (vm_compute; qc_list).
Qed.

(** ** Credit score *)

Lemma count_cons (p : Installment.t -> bool) (x : Installment.t) (l : list Installment.t) :
  Counted.count p (x :: l) = (if p x then 1 else 0) + Counted.count p l.
Proof.
  unfold Counted.count. cbn [filter]. destruct (p x); cbn [List.length]; lia.
Qed.

Lemma tally_step_counts (now : Datetime.t) (acc : tally) (x : Installment.t) :
  tally_step now acc x =
  mkTally (paid_on_time acc + (if Counted.is_paid_on_time x then 1 else 0))
          (paid_late acc + (if Counted.is_paid_late x then 1 else 0))
          (overdue acc + (if Counted.is_overdue x then 1 else 0))
          (total_overdue_days acc + Counted.days_overdue now x).
Proof.
  unfold tally_step, Counted.days_overdue, Counted.is_paid_on_time, Counted.is_paid_late, Counted.is_overdue.
  destruct (String.eqb (Installment.status x) "paid") eqn:Hp.
  - apply String.eqb_eq in Hp. rewrite Hp. cbn [String.eqb Ascii.eqb Bool.eqb andb].
    destruct (Py.truthy (Installment.rescheduled_from x)); cbn [negb];
      destruct acc; cbn; f_equal; lia.
  - cbn [andb]. destruct (String.eqb (Installment.status x) "overdue").
    + destruct (Installment.due_date x) as [[due|raw]|];
        [destruct (Datetime.sub_days now due)| |]; destruct acc; cbn; f_equal; lia.
    + destruct acc; cbn; f_equal; lia.
Qed.

Lemma tally_fold (now : Datetime.t) (l : list Installment.t) (acc : tally) :
  fold_left (tally_step now) l acc =
  mkTally (paid_on_time acc + Counted.count Counted.is_paid_on_time l)
          (paid_late acc + Counted.count Counted.is_paid_late l)
          (overdue acc + Counted.count Counted.is_overdue l)
          (total_overdue_days acc + Counted.cumulative_days_overdue now l).
Proof.
  revert acc. induction l as [|x l IH]; intros acc.
  - destruct acc; cbn; f_equal; lia.
  - cbn [fold_left]. rewrite IH, tally_step_counts, !count_cons.
    cbn [paid_on_time paid_late overdue total_overdue_days Counted.cumulative_days_overdue].
    f_equal; lia.
Qed.

(** Claim C10 as stated fails on the code.  An installment due on
    2024-01-31 and paid in full on 2024-03-31, sixty days late and never
    rescheduled, is late but eventually paid: the score of the claim, on
    2024-04-30, is 100 - 60/7 - 2 = 90.  The handler counts the payment
    as on time and no day at all, and returns 100. *)
Lemma late_payment_scored_as_on_time :
  let installment := Sample.paid_installment None in
  let history := [Spec.mkEntry installment (Some (Datetime.mk 2024 3 31 0 (Some 0)))] in
  let now := Datetime.mk 2024 4 30 0 (Some 0) in
  Installment.due_date installment = Some (Iso (Sample.jan31 2024))
  /\ Spec.count Spec.is_paid_late history = 1
  /\ Spec.count Spec.is_paid_on_time history = 0
  /\ Spec.cumulative_days_overdue now history = 60
  /\ Spec.score now history = 90
  /\ exists response,
       outcome (get_clinic_credit_score "clinic-1" Sample.accountant now)
               (Sample.history_db (map Spec.doc history)) = Ok response
       /\ option_map paid_on_time (resp_details response) = Some 1
       /\ option_map paid_late (resp_details response) = Some 0
       /\ option_map total_overdue_days (resp_details response) = Some 0
       /\ resp_credit_score response = 100
       /\ resp_credit_score response <> Spec.score now history.
Proof.
  cbv zeta. repeat split; try (vm_compute; reflexivity).
  eexists. split; [vm_compute; reflexivity|].
  repeat split; try reflexivity. vm_compute. discriminate.
Qed.

(** Claim C10 (credit score: 100, minus 5 per currently overdue
    installment, minus 1 per 7 cumulative days overdue, minus 2 per late
    but eventually paid installment, plus 2 per on-time paid installment
    up to 20, clamped to [0, 100]; rating A from 90, B from 75, C from
    60, D from 40, else F), as the handler has it.  For a caller with
    one of the roles the handler accepts, the handler returns the score
    of that formula over the installments it reads for the clinic, where
    a paid installment counts as late when it was rescheduled and as on
    time otherwise, whenever it was paid, and where days overdue are
    counted, up to now, only for the installments whose status is
    [overdue] now; the rating is that of the band of the score. *)
Theorem credit_score_formula (clinic_id : string) (current_user : User.t)
    (now : Datetime.t) (db : DB) :
  In (User.role current_user) ["super_admin"; "accountant"; "admin"] ->
  exists response,
    outcome (get_clinic_credit_score clinic_id current_user now) db = Ok response
    /\ resp_credit_score response = Counted.score now (Counted.clinic_installments db clinic_id)
    /\ 0 <= resp_credit_score response <= 100
    /\ (90 <= resp_credit_score response -> resp_rating response = "A")
    /\ (75 <= resp_credit_score response < 90 -> resp_rating response = "B")
    /\ (60 <= resp_credit_score response < 75 -> resp_rating response = "C")
    /\ (40 <= resp_credit_score response < 60 -> resp_rating response = "D")
    /\ (resp_credit_score response < 40 -> resp_rating response = "F").
Proof.
  intros Hrole.
  assert (Hr : existsb (String.eqb (User.role current_user))
                 ["super_admin"; "accountant"; "admin"] = true).
  { apply existsb_exists. exists (User.role current_user). split; [exact Hrole|].
    apply String.eqb_refl. }
  unfold outcome, get_clinic_credit_score. rewrite Hr. cbn [negb]. run_handler.
  fold (Counted.clinic_installments db clinic_id).
  assert (Hbands : forall s, 0 <= s <= 100 ->
            (90 <= s -> rating_of s = "A") /\ (75 <= s < 90 -> rating_of s = "B")
            /\ (60 <= s < 75 -> rating_of s = "C") /\ (40 <= s < 60 -> rating_of s = "D")
            /\ (s < 40 -> rating_of s = "F")).
  { intros s _. unfold rating_of.
    destruct (s >=? 90) eqn:E1; [|destruct (s >=? 75) eqn:E2;
      [|destruct (s >=? 60) eqn:E3; [|destruct (s >=? 40) eqn:E4]]];
      repeat split; intros; try reflexivity; lia. }
  destruct (Counted.clinic_installments db clinic_id) as [|x l] eqn:El.
  - eexists. split; [reflexivity|]. cbn [resp_credit_score resp_rating].
    split; [reflexivity|]. split; [lia|]. repeat split; intros; try reflexivity; lia.
  - eexists. split; [reflexivity|]. cbn [resp_credit_score resp_rating].
    rewrite tally_fold. cbn [paid_on_time paid_late overdue total_overdue_days].
    set (l' := x :: l).
    assert (Hs : Z.max 0 (Z.min 100
                   (100 - (0 + Counted.count Counted.is_overdue l') * 5
                    - (0 + Counted.cumulative_days_overdue now l') / 7
                    - (0 + Counted.count Counted.is_paid_late l') * 2
                    + Z.min ((0 + Counted.count Counted.is_paid_on_time l') * 2) 20))
                 = Counted.score now l').
    { unfold Counted.score, Spec.clamp. rewrite !Z.add_0_l. f_equal. f_equal. lia. }
    rewrite Hs. split; [reflexivity|].
    assert (Hb : 0 <= Counted.score now l' <= 100) by (unfold Counted.score, Spec.clamp; lia).
    split; [exact Hb|]. apply Hbands. exact Hb.
Qed.

Lemma credit_score_formula_witness :
  exists response,
    outcome (get_clinic_credit_score "clinic-1" Sample.accountant
               (Datetime.mk 2024 3 31 0 (Some 0)))
            (Sample.history_db
               [Sample.overdue_installment (Some (Iso (Sample.jan31 2024)));
                Sample.paid_installment None;
                Sample.paid_installment (Some "2023-12-31T00:00:00+00:00")]) = Ok response
    /\ resp_credit_score response = 87
    /\ resp_rating response = "B".
Proof.
  destruct (credit_score_formula "clinic-1" Sample.accountant
              (Datetime.mk 2024 3 31 0 (Some 0))
              (Sample.history_db
                 [Sample.overdue_installment (Some (Iso (Sample.jan31 2024)));
                  Sample.paid_installment None;
                  Sample.paid_installment (Some "2023-12-31T00:00:00+00:00")]))
    as (response & Hok & Hscore & _ & _ & HB & _).
  - simpl. right. left. reflexivity.
  - exists response. split; [exact Hok|]. split; [exact Hscore|].
    apply HB. rewrite Hscore. vm_compute. split; [discriminate | reflexivity].
Defined.

(** ** The shadowed allocator *)

Section ShadowedAllocator.

Variable entity_type : string.

Local Abbreviation key := (Shadowed.key entity_type).

Lemma lookup_update_one (v : Z) (l : list (string * Z)) (n : Z) :
  Shadowed.lookup_counter entity_type l = Some n ->
  Shadowed.lookup_counter entity_type (update_one key (fun c => (fst c, v)) l) = Some v.
Proof.
  unfold Shadowed.lookup_counter, find_one.
  induction l as [|c l IH]; cbn [find update_one]; [discriminate|].
  destruct (key c) eqn:E.
  - intros _. cbn [find]. unfold Shadowed.key in *. cbn [fst]. rewrite E. reflexivity.
  - intros H. cbn [find]. rewrite E. now apply IH.
Qed.

Lemma lookup_upsert_one (v : Z) (l : list (string * Z)) :
  Shadowed.lookup_counter entity_type
    (upsert_one key (fun c => (fst c, v)) (entity_type, v) l) = Some v.
Proof.
  unfold upsert_one. destruct (existsb key l) eqn:E.
  - destruct (Shadowed.lookup_counter entity_type l) as [n|] eqn:Hl.
    + now apply lookup_update_one with n.
    + exfalso. apply existsb_exists in E. destruct E as (c & Hin & Hc).
      unfold Shadowed.lookup_counter, find_one in Hl.
      destruct (find key l) eqn:Hfind; [discriminate|].
      pose proof (find_none _ _ Hfind c Hin). congruence.
  - unfold Shadowed.lookup_counter, find_one.
    induction l as [|c l IH]; cbn [app find].
    + unfold Shadowed.key. cbn [fst]. now rewrite String.eqb_refl.
    + cbn [existsb] in E. apply orb_false_iff in E. destruct E as [E1 E2].
      rewrite E1. now apply IH.
Qed.

(** What one call of the shadowed allocator returns and leaves in the
    counter. *)
Lemma shadowed_call (start_from : Z) (db : DB) :
  let seq := match Shadowed.lookup_counter entity_type (counters db) with
             | Some n => n + 1
             | None => 1
             end in
  let v := if seq =? 1 then start_from else if seq <? start_from then start_from else seq in
  outcome (Shadowed.get_next_serial_number entity_type start_from) db = Ok v
  /\ Shadowed.lookup_counter entity_type
       (counters (exec (Shadowed.get_next_serial_number entity_type start_from) db))
     = Some v.
Proof.
  intros seq v. subst v.
  unfold exec, outcome, Shadowed.get_next_serial_number, Shadowed.find_one_and_update_inc,
    Shadowed.set_seq.
  run_handler. fold seq.
  destruct (seq =? 1) eqn:E1; [|destruct (seq <? start_from) eqn:E2]; cbn.
  - split; [reflexivity|]. eapply lookup_update_one. apply lookup_upsert_one.
  - split; [reflexivity|]. eapply lookup_update_one. apply lookup_upsert_one.
  - split; [reflexivity|]. apply lookup_upsert_one.
Qed.

(** Called in sequence with starting values of at least 1 on a counter
    that is absent or at least 1, the shadowed allocator returns
    [start_from] first and strictly more on the next call. *)
Lemma shadowed_strictly_increasing (s1 s2 : Z) (db : DB) :
  1 <= s1 ->
  (forall n, Shadowed.lookup_counter entity_type (counters db) = Some n -> 1 <= n) ->
  exists a b,
    outcome (Shadowed.get_next_serial_number entity_type s1) db = Ok a
    /\ outcome (Shadowed.get_next_serial_number entity_type s2)
         (exec (Shadowed.get_next_serial_number entity_type s1) db) = Ok b
    /\ a < b
    /\ (Shadowed.lookup_counter entity_type (counters db) = None -> a = s1).
Proof.
  intros Hs Hc.
  destruct (shadowed_call s1 db) as [Ha Hl].
  destruct (shadowed_call s2 (exec (Shadowed.get_next_serial_number entity_type s1) db))
    as [Hb _].
  rewrite Hl in Hb. eexists _, _. split; [exact Ha|]. split; [exact Hb|].
  destruct (Shadowed.lookup_counter entity_type (counters db)) as [n|] eqn:E.
  - specialize (Hc n eq_refl). split; [|discriminate].
    destruct (n + 1 =? 1) eqn:E1; [apply Z.eqb_eq in E1; lia|].
    destruct (n + 1 <? s1) eqn:E2.
    + destruct (s1 + 1 =? 1) eqn:E3; [apply Z.eqb_eq in E3; lia|].
      destruct (s1 + 1 <? s2) eqn:E4; [apply Z.ltb_lt in E4|]; lia.
    + destruct (n + 1 + 1 =? 1) eqn:E3; [apply Z.eqb_eq in E3; lia|].
      destruct (n + 1 + 1 <? s2) eqn:E4; [apply Z.ltb_lt in E4|]; lia.
  - cbn. split; [|reflexivity].
    destruct (s1 + 1 =? 1) eqn:E3; [apply Z.eqb_eq in E3; lia|].
    destruct (s1 + 1 <? s2) eqn:E4; [apply Z.ltb_lt in E4|]; lia.
Qed.

End ShadowedAllocator.

(** * The installments in binary64 *)


(** ** What rounding does to the sums *)

Section Rounding.

Import PrimFloat.
Local Open Scope float_scope.



End Rounding.

(** ** The amounts as they are stored *)

Section Binary64Ledger.

Import PrimFloat.

(** ** Comparisons with 0 *)



(** ** The allocator on the ledger collections *)



(** ** The scheduling loop *)

Section Scheduling64.

Variables (order : Binary64.Order.t) (schedule_id invoice_id : string) (invoice_number : Z).
Variables (schedule_type : string) (first_due_date : Datetime.t) (interval_days : Z).
Variable a : float.

Local Abbreviation turn :=
  (Binary64.create_installment order schedule_id invoice_id invoice_number
     schedule_type first_due_date interval_days a).

Local Abbreviation fresh :=
  (fun x => Binary64.Installment.amount x = a
            /\ Binary64.Installment.paid_amount x = 0%float
            /\ Binary64.Installment.remaining_amount x = a
            /\ Binary64.Installment.status x = "upcoming").



End Scheduling64.







End Binary64Ledger.

(** ** The two statements on the sample ledger *)

Section Binary64Samples.

Import PrimFloat.
Local Open Scope float_scope.



End Binary64Samples.

(** * Further properties of the handlers *)

(** ** Direct invoice payments *)

(** The shape of every run of [create_payment]. *)
Lemma create_payment_run (payment : PaymentCreate.t) (current_user : User.t) (db : DB) :
  let a := PaymentCreate.amount payment in
  let c := create_payment payment current_user in
  (exists e, c db = (db, Raised e)
             /\ (find_one (fun x => String.eqb (Invoice.id x) (PaymentCreate.invoice_id payment))
                          (invoices db) = None
                 \/ exists inv,
                      find_one (fun x => String.eqb (Invoice.id x)
                                           (PaymentCreate.invoice_id payment))
                               (invoices db) = Some inv
                      /\ ((Invoice.remaining_amount inv < a)%Qc \/ (a <= 0)%Qc)))
  \/ (exists inv l1 l2 p entry,
        find_one (fun x => String.eqb (Invoice.id x) (PaymentCreate.invoice_id payment))
                 (invoices db) = Some inv
        /\ (0 < a)%Qc /\ (a <= Invoice.remaining_amount inv)%Qc
        /\ invoices db = l1 ++ inv :: l2
        /\ outcome c db
           = Ok (InvoiceStatus_value
                   (if Py.leb (Invoice.total_amount inv - (Invoice.paid_amount inv + a)) 0
                    then FULLY_PAID else PARTIALLY_PAID),
                 Py.max 0 (Invoice.total_amount inv - (Invoice.paid_amount inv + a)))%Qc
        /\ invoices (exec c db)
           = l1 ++ Invoice.mk (Invoice.id inv) (Invoice.invoice_number inv)
                     (Invoice.order_id inv) (Invoice.order_serial inv)
                     (Invoice.clinic_id inv) (Invoice.created_by inv)
                     (Invoice.approved_by inv) (Invoice.total_amount inv)
                     (Invoice.paid_amount inv + a)%Qc
                     (Py.max 0 (Invoice.total_amount inv - (Invoice.paid_amount inv + a)))%Qc
                     (InvoiceStatus_value
                        (if Py.leb (Invoice.total_amount inv - (Invoice.paid_amount inv + a))%Qc
                                   0%Qc
                         then FULLY_PAID else PARTIALLY_PAID))
                     (Invoice.payment_method inv)
                     (Invoice.payments inv
                      ++ [PaymentSummary.mk (Payment.id p) (Payment.payment_number p) a
                            (PaymentMethod_value (PaymentCreate.payment_method payment))])
                :: l2
        /\ payments (exec c db) = payments db ++ [p]
        /\ Payment.amount p = a
        /\ Payment.invoice_id p = PaymentCreate.invoice_id payment
        /\ Payment.payment_method p = PaymentCreate.payment_method payment
        /\ Payment.collected_by p = User.id current_user
        /\ audit_logs (exec c db) = audit_logs db ++ [entry]
        /\ AuditLog.log_type entry = PAYMENT_RECORDED
        /\ AuditLog.entity_id entry = Payment.id p
        /\ AuditLog.amount entry = Some a
        /\ AuditLog.user_id entry = User.id current_user
        /\ installments (exec c db) = installments db
        /\ installment_schedules (exec c db) = installment_schedules db).
Proof.
  intros a c. subst a c. unfold exec, outcome, create_payment. run_handler.
  destruct (find_one _ (invoices db)) as [inv|] eqn:Hf.
  2:{ left. eexists. split; [reflexivity|]. now left. }
  destruct (Py.gtb (PaymentCreate.amount payment) (Invoice.remaining_amount inv)) eqn:Hg.
  { left. eexists. split; [reflexivity|]. right. exists inv. split; [reflexivity|].
    left. now apply ltb_lt. }
  destruct (Py.leb (PaymentCreate.amount payment) 0%Qc) eqn:Hl.
  { left. eexists. split; [reflexivity|]. right. exists inv. split; [reflexivity|].
    right. now apply leb_le. }
  right. rewrite get_next_serial_number_run. run_handler. cbn.
  match goal with
  | |- context [update_one ?p ?f (invoices db)] =>
      destruct (update_one_split p f _ _ Hf) as (l1 & l2 & Hl12 & ->)
  end.
  exists inv, l1, l2. eexists. eexists.
  split; [reflexivity|]. split; [now apply leb_nle|]. split; [now apply ltb_nlt|].
  split; [exact Hl12|]. repeat split; reflexivity.
Qed.

(** Property X1.  A call of [create_payment] that raises leaves the
    database exactly as it was, and the exception is an HTTP error with
    status 404 or 400. *)
Theorem create_payment_all_or_nothing (payment : PaymentCreate.t) (current_user : User.t)
    (db : DB) (e : exn) :
  outcome (create_payment payment current_user) db = Raised e ->
  exec (create_payment payment current_user) db = db
  /\ exists detail, e = HTTPException 404 detail \/ e = HTTPException 400 detail.
Proof.
  unfold exec, outcome, create_payment. run_handler.
  destruct (find_one _ (invoices db)) as [inv|].
  2:{ cbn. intros [= <-]. split; [reflexivity|]. eauto. }
  destruct (Py.gtb _ _). { cbn. intros [= <-]. split; [reflexivity|]. eauto. }
  destruct (Py.leb _ _). { cbn. intros [= <-]. split; [reflexivity|]. eauto. }
  rewrite get_next_serial_number_run. run_handler. cbn. discriminate.
Qed.

Lemma create_payment_all_or_nothing_witness :
  exec (create_payment (PaymentCreate.mk "no-such-invoice" (Py.of_Z 10) CASH)
          Sample.accountant) Sample.ledger = Sample.ledger
  /\ exists detail, HTTPException 404 "Invoice not found" = HTTPException 404 detail
                    \/ HTTPException 404 "Invoice not found" = HTTPException 400 detail.
Proof.
  apply (create_payment_all_or_nothing
           (PaymentCreate.mk "no-such-invoice" (Py.of_Z 10) CASH) Sample.accountant
           Sample.ledger (HTTPException 404 "Invoice not found")).
  reflexivity.
Defined.

(** Property X3.  A payment of an amount [a] with 0 < a <=
    remaining_amount is accepted.  With [left] standing for total_amount
    - (paid_amount + a), the balance the handler recomputes from the
    total, the call returns the new status and max(0, left); the stored
    invoice has its paid amount raised by [a], its remaining amount set
    to max(0, left) and its total unchanged; the status is [fully_paid]
    exactly when left <= 0 and [partially_paid] exactly when 0 < left;
    one payment summary is added to the invoice, one Payment of amount
    [a] and one audit entry of type PAYMENT_RECORDED are appended. *)
Theorem create_payment_accepted (payment : PaymentCreate.t) (current_user : User.t)
    (db : DB) (invoice : Invoice.t) :
  let a := PaymentCreate.amount payment in
  let c := create_payment payment current_user in
  let left := (Invoice.total_amount invoice - (Invoice.paid_amount invoice + a))%Qc in
  find_one (fun x => String.eqb (Invoice.id x) (PaymentCreate.invoice_id payment))
           (invoices db) = Some invoice ->
  (0 < a)%Qc -> (a <= Invoice.remaining_amount invoice)%Qc ->
  exists status invoice' p entry,
    outcome c db = Ok (status, Py.max 0%Qc left)
    /\ (status = "fully_paid" <-> (left <= 0)%Qc)
    /\ (status = "partially_paid" <-> (0 < left)%Qc)
    /\ find_one (fun x => String.eqb (Invoice.id x) (PaymentCreate.invoice_id payment))
                (invoices (exec c db)) = Some invoice'
    /\ Invoice.total_amount invoice' = Invoice.total_amount invoice
    /\ Invoice.paid_amount invoice' = (Invoice.paid_amount invoice + a)%Qc
    /\ Invoice.remaining_amount invoice' = Py.max 0%Qc left
    /\ Invoice.status invoice' = status
    /\ List.length (Invoice.payments invoice') = S (List.length (Invoice.payments invoice))
    /\ payments (exec c db) = payments db ++ [p]
    /\ Payment.amount p = a
    /\ audit_logs (exec c db) = audit_logs db ++ [entry]
    /\ AuditLog.log_type entry = PAYMENT_RECORDED
    /\ AuditLog.amount entry = Some a.
Proof.
  intros a c left Hf Hpos Hle. subst c.
  unfold exec, outcome, create_payment. run_handler. rewrite Hf.
  apply ltb_nlt in Hle. unfold Py.gtb. fold a. rewrite Hle. apply ltb_nlt in Hle.
  apply leb_nle in Hpos. rewrite Hpos. apply leb_nle in Hpos.
  rewrite get_next_serial_number_run. run_handler. cbn [fst snd]. fold left.
  eexists _, _, _, _. split; [reflexivity|]. split; [|split].
  - destruct (Py.leb left 0%Qc) eqn:E; cbn.
    + apply leb_le in E. split; [intros _; exact E|reflexivity].
    + apply leb_nle in E. split; [discriminate|]. intros Hl. exfalso.
      exact (Qclt_not_le _ _ E Hl).
  - destruct (Py.leb left 0%Qc) eqn:E; cbn.
    + apply leb_le in E. split; [discriminate|]. intros Hl. exfalso.
      exact (Qclt_not_le _ _ Hl E).
    + apply leb_nle in E. split; [intros _; exact E|reflexivity].
  - split.
    + cbn [invoices set_invoices].
      apply (find_one_update_one _ _ _ _ Hf). cbn [Invoice.id].
      unfold find_one in Hf. apply find_some in Hf. now destruct Hf.
    + cbn. repeat split; try reflexivity. rewrite length_app. cbn. lia.
Qed.

Lemma create_payment_accepted_witness :
  exists status invoice' p entry,
    outcome (create_payment (PaymentCreate.mk "uuid-0" (Py.of_Z 1200) CASH)
               Sample.accountant) Sample.ledger
    = Ok (status, Py.max 0%Qc (Py.of_Z 3000 - (0 + Py.of_Z 1200))%Qc)
    /\ (status = "fully_paid" <-> (Py.of_Z 3000 - (0 + Py.of_Z 1200) <= 0)%Qc)
    /\ (status = "partially_paid" <-> (0 < Py.of_Z 3000 - (0 + Py.of_Z 1200))%Qc)
    /\ find_one (fun x => String.eqb (Invoice.id x) "uuid-0")
                (invoices (exec (create_payment (PaymentCreate.mk "uuid-0" (Py.of_Z 1200) CASH)
                                   Sample.accountant) Sample.ledger)) = Some invoice'
    /\ Invoice.total_amount invoice' = Py.of_Z 3000
    /\ Invoice.paid_amount invoice' = (0 + Py.of_Z 1200)%Qc
    /\ Invoice.remaining_amount invoice'
       = Py.max 0%Qc (Py.of_Z 3000 - (0 + Py.of_Z 1200))%Qc
    /\ Invoice.status invoice' = status
    /\ List.length (Invoice.payments invoice') = 1%nat
    /\ payments (exec (create_payment (PaymentCreate.mk "uuid-0" (Py.of_Z 1200) CASH)
                         Sample.accountant) Sample.ledger) = payments Sample.ledger ++ [p]
    /\ Payment.amount p = Py.of_Z 1200
    /\ audit_logs (exec (create_payment (PaymentCreate.mk "uuid-0" (Py.of_Z 1200) CASH)
                           Sample.accountant) Sample.ledger)
       = audit_logs Sample.ledger ++ [entry]
    /\ AuditLog.log_type entry = PAYMENT_RECORDED
    /\ AuditLog.amount entry = Some (Py.of_Z 1200).
Proof.
  apply (create_payment_accepted (PaymentCreate.mk "uuid-0" (Py.of_Z 1200) CASH)
           Sample.accountant Sample.ledger
           (Invoice.mk "uuid-0" 10001 "order-2" 1002 "clinic-1" "rep-1" "manager-1"
              (Py.of_Z 3000) 0%Qc (Py.of_Z 3000) "pending" None [])).
  - reflexivity.
  - reflexivity.
  - discriminate.
Defined.

(** Property X4.  [create_payment] never writes an installment or a
    schedule: a payment recorded against the invoice directly leaves the
    balances of its installments as they were. *)
Theorem create_payment_leaves_installments (payment : PaymentCreate.t)
    (current_user : User.t) (db : DB) :
  installments (exec (create_payment payment current_user) db) = installments db
  /\ installment_schedules (exec (create_payment payment current_user) db)
     = installment_schedules db.
Proof.
  destruct (create_payment_run payment current_user db)
    as [(e & Hr & _)|(inv & l1 & l2 & p & entry & H)].
  - unfold exec. rewrite Hr. now split.
  - decompose [and] H. now split.
Qed.

(** ** Installment payments *)

Lemma min_cases (a b : Qc) :
  ((b < a)%Qc /\ Py.min a b = b) \/ ((a <= b)%Qc /\ Py.min a b = a).
Proof.
  unfold Py.min. destruct (Py.ltb b a) eqn:E.
  - left. split; [now apply ltb_lt|reflexivity].
  - right. split; [now apply ltb_nlt|reflexivity].
Qed.

(** What a call of [pay_installment] that passes the look-ups and the
    validation of the method leaves behind. *)
Lemma pay_installment_run (installment_id : string)
    (payment_data : InstallmentPaymentCreate.t) (current_user : User.t) (db : DB)
    (inst : Installment.t) (inv : Invoice.t) (method : PaymentMethod) :
  let c := pay_installment installment_id payment_data current_user in
  let applied := Py.min (InstallmentPaymentCreate.amount payment_data)
                        (Installment.remaining_amount inst) in
  find_one (fun x => String.eqb (Installment.id x) installment_id) (installments db)
  = Some inst ->
  Installment.status inst <> "paid" ->
  find_one (fun x => String.eqb (Invoice.id x) (Installment.invoice_id inst)) (invoices db)
  = Some inv ->
  PaymentMethod_validate (InstallmentPaymentCreate.payment_method payment_data)
  = Ok method ->
  exists p,
    outcome c db = Raised (AttributeError "PAYMENT_RECEIVED")
    /\ installments (exec c db)
       = update_one (fun x => String.eqb (Installment.id x) installment_id)
           (fun x =>
              Installment.mk (Installment.id x) (Installment.schedule_id x)
                (Installment.invoice_id x) (Installment.invoice_number x)
                (Installment.clinic_id x) (Installment.installment_number x)
                (Installment.amount x) (Installment.paid_amount inst + applied)%Qc
                (Installment.remaining_amount inst - applied)%Qc
                (Installment.due_date x)
                (if Py.leb (Installment.remaining_amount inst - applied)%Qc 0%Qc
                 then "paid" else "partial")
                (Installment.payment_ids x ++ [Payment.id p])
                (Installment.rescheduled_from x))
           (installments db)
    /\ invoices (exec c db)
       = update_one (fun x => String.eqb (Invoice.id x) (Installment.invoice_id inst))
           (fun x =>
              Invoice.mk (Invoice.id x) (Invoice.invoice_number x)
                (Invoice.order_id x) (Invoice.order_serial x)
                (Invoice.clinic_id x) (Invoice.created_by x)
                (Invoice.approved_by x) (Invoice.total_amount x)
                (Invoice.paid_amount inv + applied)%Qc
                (Py.max 0 (Invoice.remaining_amount inv - applied))%Qc
                (if Py.leb (Invoice.remaining_amount inv - applied)%Qc 0%Qc
                 then "paid" else "partial")
                (Invoice.payment_method x) (Invoice.payments x))
           (invoices db)
    /\ payments (exec c db) = payments db ++ [p]
    /\ Payment.amount p = applied
    /\ Payment.invoice_id p = Installment.invoice_id inst
    /\ Payment.payment_method p = method
    /\ Payment.collected_by p = User.id current_user
    /\ audit_logs (exec c db) = audit_logs db
    /\ installment_schedules (exec c db) = installment_schedules db.
Proof.
  intros c applied Hf Hs Hi Hm. subst c.
  unfold exec, outcome, pay_installment. run_handler. rewrite Hf.
  apply String.eqb_neq in Hs. rewrite Hs, Hi.
  rewrite get_next_serial_number_run. run_handler. rewrite Hm. cbn. fold applied.
  rewrite (max0_nonneg (Installment.remaining_amount inst - applied)%Qc)
    by (apply sub_nonneg, min_le_r).
  eexists. repeat split; reflexivity.
Qed.

(** Property X5.  No call of [pay_installment] returns normally: it
    ends with 404 for an unknown installment, 400 for a paid one, 404 for
    a missing invoice, a validation error for an unknown payment method,
    and otherwise with the AttributeError raised when the audit type
    PAYMENT_RECEIVED is looked up. *)
Theorem pay_installment_always_raises (installment_id : string)
    (payment_data : InstallmentPaymentCreate.t) (current_user : User.t) (db : DB) :
  exists e,
    outcome (pay_installment installment_id payment_data current_user) db = Raised e
    /\ (e = HTTPException 404 "Installment not found"
        \/ e = HTTPException 400 "Installment already paid"
        \/ e = HTTPException 404 "Invoice not found"
        \/ e = ValidationError "payment_method"
        \/ e = AttributeError "PAYMENT_RECEIVED").
Proof.
  unfold outcome, pay_installment. run_handler.
  destruct (find_one _ (installments db)) as [inst|]; [|cbn; eauto].
  destruct (String.eqb (Installment.status inst) "paid"); [cbn; eauto 6|].
  destruct (find_one _ (invoices db)) as [inv|]; [|cbn; eauto 6].
  rewrite get_next_serial_number_run. run_handler.
  destruct (PaymentMethod_validate _) as [m|e] eqn:E; cbn.
  - eauto 8.
  - eexists. split; [reflexivity|]. do 3 right. left.
    unfold PaymentMethod_validate in E.
    repeat match type of E with
           | (if ?b then _ else _) = _ => destruct b; [discriminate|]
           end.
    now injection E as <-.
Qed.

Lemma pay_installment_effect (installment_id : string)
    (payment_data : InstallmentPaymentCreate.t) (current_user : User.t) (db : DB)
    (installment : Installment.t) (invoice : Invoice.t) (method : PaymentMethod) :
  let c := pay_installment installment_id payment_data current_user in
  let requested := InstallmentPaymentCreate.amount payment_data in
  let remaining := Installment.remaining_amount installment in
  find_one (fun x => String.eqb (Installment.id x) installment_id) (installments db)
  = Some installment ->
  Installment.status installment <> "paid" ->
  find_one (fun x => String.eqb (Invoice.id x) (Installment.invoice_id installment))
           (invoices db) = Some invoice ->
  PaymentMethod_validate (InstallmentPaymentCreate.payment_method payment_data)
  = Ok method ->
  exists applied installment' invoice' p,
    ((requested <= remaining)%Qc -> applied = requested)
    /\ ((remaining <= requested)%Qc -> applied = remaining)
    /\ find_one (fun x => String.eqb (Installment.id x) installment_id)
                (installments (exec c db)) = Some installment'
    /\ Installment.amount installment' = Installment.amount installment
    /\ Installment.paid_amount installment'
       = (Installment.paid_amount installment + applied)%Qc
    /\ Installment.remaining_amount installment' = (remaining - applied)%Qc
    /\ (Installment.status installment' = "paid" <-> (remaining <= requested)%Qc)
    /\ (Installment.status installment' = "partial" <-> (requested < remaining)%Qc)
    /\ Installment.payment_ids installment'
       = Installment.payment_ids installment ++ [Payment.id p]
    /\ find_one (fun x => String.eqb (Invoice.id x) (Installment.invoice_id installment))
                (invoices (exec c db)) = Some invoice'
    /\ Invoice.paid_amount invoice' = (Invoice.paid_amount invoice + applied)%Qc
    /\ Invoice.total_amount invoice' = Invoice.total_amount invoice
    /\ payments (exec c db) = payments db ++ [p]
    /\ Payment.amount p = applied.
Proof.
  intros c requested remaining Hf Hs Hi Hm.
  destruct (pay_installment_run installment_id payment_data current_user db
              installment invoice method Hf Hs Hi Hm)
    as (p & _ & Hinst & Hinv & Hp & Hpa & _).
  fold c requested remaining in Hinst, Hinv, Hp, Hpa.
  set (applied := Py.min requested remaining) in *.
  assert (Hle : (applied <= remaining)%Qc) by apply min_le_r.
  assert (Hpaid : Py.leb (remaining - applied) 0%Qc = true <-> (remaining <= requested)%Qc).
  { rewrite leb_le. unfold applied.
    destruct (min_cases requested remaining) as [[H1 ->]|[H1 ->]].
    - replace (remaining - remaining)%Qc with 0%Qc by ring. split.
      + intros _. now apply Qclt_le_weak.
      + intros _. apply Qcle_refl.
    - split.
      + intros H0. assert (E : requested = remaining).
        { apply sub_eq0. apply Qcle_antisym; [exact H0|now apply sub_nonneg]. }
        rewrite E. apply Qcle_refl.
      + intros H2. assert (E : requested = remaining) by now apply Qcle_antisym.
        rewrite E. replace (remaining - remaining)%Qc with 0%Qc by ring. apply Qcle_refl. }
  eexists applied, _, _, p.
  split.
  { intros H. unfold applied. destruct (min_cases requested remaining) as [[H1 _]|[_ ->]].
    - exfalso. exact (Qclt_not_le _ _ H1 H).
    - reflexivity. }
  split.
  { intros H. unfold applied. destruct (min_cases requested remaining) as [[_ ->]|[H1 ->]].
    - reflexivity.
    - now apply Qcle_antisym. }
  split.
  { rewrite Hinst. apply (find_one_update_one _ _ _ _ Hf). cbn [Installment.id].
    unfold find_one in Hf. apply find_some in Hf. now destruct Hf. }
  cbn [Installment.amount Installment.paid_amount Installment.remaining_amount
       Installment.status Installment.payment_ids].
  do 3 (split; [reflexivity|]).
  split.
  { destruct (Py.leb (remaining - applied) 0%Qc) eqn:E.
    - split; [intros _; now apply Hpaid|reflexivity].
    - split; [discriminate|]. intros H. apply Hpaid in H. congruence. }
  split.
  { destruct (Py.leb (remaining - applied) 0%Qc) eqn:E.
    - split; [discriminate|]. intros H. exfalso.
      apply (Qclt_not_le _ _ H). now apply Hpaid.
    - split; [intros _|reflexivity]. apply Qcnot_le_lt. intros H.
      apply Hpaid in H. congruence. }
  split; [reflexivity|].
  split.
  { rewrite Hinv. apply (find_one_update_one _ _ _ _ Hi). cbn [Invoice.id].
    unfold find_one in Hi. apply find_some in Hi. now destruct Hi. }
  cbn [Invoice.paid_amount Invoice.total_amount].
  repeat split; assumption || reflexivity.
Qed.

(** Property X6.  When the installment is found and not paid, its
    invoice is found and the payment method is valid, [pay_installment]
    applies the requested amount capped at the remaining amount of the
    installment: the stored installment has its paid amount raised and
    its remaining amount lowered by the amount applied, its status is
    [paid] exactly when the request covers the remaining amount and
    [partial] otherwise, the id of the new Payment is appended to its
    payment ids, the paid amount of the invoice is raised by the amount
    applied, and one Payment of that amount is appended. *)
Theorem pay_installment_applied (installment_id : string)
    (payment_data : InstallmentPaymentCreate.t) (current_user : User.t) (db : DB)
    (installment : Installment.t) (invoice : Invoice.t) (method : PaymentMethod) :
  let c := pay_installment installment_id payment_data current_user in
  let requested := InstallmentPaymentCreate.amount payment_data in
  let remaining := Installment.remaining_amount installment in
  find_one (fun x => String.eqb (Installment.id x) installment_id) (installments db)
  = Some installment ->
  Installment.status installment <> "paid" ->
  find_one (fun x => String.eqb (Invoice.id x) (Installment.invoice_id installment))
           (invoices db) = Some invoice ->
  PaymentMethod_validate (InstallmentPaymentCreate.payment_method payment_data)
  = Ok method ->
  exists applied installment' invoice' p,
    ((requested <= remaining)%Qc -> applied = requested)
    /\ ((remaining <= requested)%Qc -> applied = remaining)
    /\ find_one (fun x => String.eqb (Installment.id x) installment_id)
                (installments (exec c db)) = Some installment'
    /\ Installment.amount installment' = Installment.amount installment
    /\ Installment.paid_amount installment'
       = (Installment.paid_amount installment + applied)%Qc
    /\ Installment.remaining_amount installment' = (remaining - applied)%Qc
    /\ (Installment.status installment' = "paid" <-> (remaining <= requested)%Qc)
    /\ (Installment.status installment' = "partial" <-> (requested < remaining)%Qc)
    /\ Installment.payment_ids installment'
       = Installment.payment_ids installment ++ [Payment.id p]
    /\ find_one (fun x => String.eqb (Invoice.id x) (Installment.invoice_id installment))
                (invoices (exec c db)) = Some invoice'
    /\ Invoice.paid_amount invoice' = (Invoice.paid_amount invoice + applied)%Qc
    /\ Invoice.total_amount invoice' = Invoice.total_amount invoice
    /\ payments (exec c db) = payments db ++ [p]
    /\ Payment.amount p = applied.
Proof. apply pay_installment_effect. Qed.

Lemma pay_installment_applied_witness :
  exists applied installment' invoice' p,
    ((Py.of_Z 1500 <= Py.of_Z 3000 / Py.of_Z 2)%Qc -> applied = Py.of_Z 1500)
    /\ ((Py.of_Z 3000 / Py.of_Z 2 <= Py.of_Z 1500)%Qc -> applied = (Py.of_Z 3000 / Py.of_Z 2)%Qc)
    /\ find_one (fun x => String.eqb (Installment.id x) "uuid-2")
                (installments
                   (exec (pay_installment "uuid-2"
                            (InstallmentPaymentCreate.mk (Py.of_Z 1500) "cash")
                            Sample.accountant) Sample.ledger)) = Some installment'
    /\ Installment.amount installment' = (Py.of_Z 3000 / Py.of_Z 2)%Qc
    /\ Installment.paid_amount installment' = (0 + applied)%Qc
    /\ Installment.remaining_amount installment' = (Py.of_Z 3000 / Py.of_Z 2 - applied)%Qc
    /\ (Installment.status installment' = "paid"
        <-> (Py.of_Z 3000 / Py.of_Z 2 <= Py.of_Z 1500)%Qc)
    /\ (Installment.status installment' = "partial"
        <-> (Py.of_Z 1500 < Py.of_Z 3000 / Py.of_Z 2)%Qc)
    /\ Installment.payment_ids installment' = [] ++ [Payment.id p]
    /\ find_one (fun x => String.eqb (Invoice.id x) "uuid-0")
                (invoices
                   (exec (pay_installment "uuid-2"
                            (InstallmentPaymentCreate.mk (Py.of_Z 1500) "cash")
                            Sample.accountant) Sample.ledger)) = Some invoice'
    /\ Invoice.paid_amount invoice' = (0 + applied)%Qc
    /\ Invoice.total_amount invoice' = Py.of_Z 3000
    /\ payments (exec (pay_installment "uuid-2"
                         (InstallmentPaymentCreate.mk (Py.of_Z 1500) "cash")
                         Sample.accountant) Sample.ledger)
       = payments Sample.ledger ++ [p]
    /\ Payment.amount p = applied.
Proof.
  apply (pay_installment_applied "uuid-2" (InstallmentPaymentCreate.mk (Py.of_Z 1500) "cash")
           Sample.accountant Sample.ledger
           (Installment.mk "uuid-2" "uuid-1" "uuid-0" 10001 "clinic-1" 1
              (Py.of_Z 3000 / Py.of_Z 2)%Qc 0%Qc (Py.of_Z 3000 / Py.of_Z 2)%Qc
              (Some (Iso (Sample.jan31 2024))) "upcoming" [] None)
           (Invoice.mk "uuid-0" 10001 "order-2" 1002 "clinic-1" "rep-1" "manager-1"
              (Py.of_Z 3000) 0%Qc (Py.of_Z 3000) "pending" None [])
           CASH).
  - reflexivity.
  - discriminate.
  - reflexivity.
  - reflexivity.
Defined.

(** Property X7.  With a payment method that is not a value of
    PaymentMethod, [pay_installment] writes nothing: invoices, payments,
    installments and audit log are unchanged, and when the look-ups
    succeed the call ends with the validation error. *)
Theorem pay_installment_unknown_method (installment_id : string)
    (payment_data : InstallmentPaymentCreate.t) (current_user : User.t) (db : DB)
    (e : exn) :
  let c := pay_installment installment_id payment_data current_user in
  PaymentMethod_validate (InstallmentPaymentCreate.payment_method payment_data)
  = Raised e ->
  invoices (exec c db) = invoices db
  /\ payments (exec c db) = payments db
  /\ installments (exec c db) = installments db
  /\ audit_logs (exec c db) = audit_logs db
  /\ (forall installment invoice,
        find_one (fun x => String.eqb (Installment.id x) installment_id) (installments db)
        = Some installment ->
        Installment.status installment <> "paid" ->
        find_one (fun x => String.eqb (Invoice.id x) (Installment.invoice_id installment))
                 (invoices db) = Some invoice ->
        outcome c db = Raised (ValidationError "payment_method")).
Proof.
  intros c Hm. subst c. unfold exec, outcome, pay_installment. run_handler.
  assert (He : e = ValidationError "payment_method").
  { unfold PaymentMethod_validate in Hm.
    repeat match type of Hm with
           | (if ?b then _ else _) = _ => destruct b; [discriminate|]
           end.
    now injection Hm as <-. }
  subst e.
  destruct (find_one _ (installments db)) as [inst|] eqn:Hf.
  2:{ cbn. repeat split; discriminate. }
  destruct (String.eqb (Installment.status inst) "paid") eqn:Hs.
  { cbn. repeat split. intros ? ? [= <-] Hn. apply String.eqb_eq in Hs. contradiction. }
  destruct (find_one _ (invoices db)) as [inv|] eqn:Hi.
  2:{ cbn. repeat split. intros ? ? [= <-] _ Hi'. congruence. }
  rewrite get_next_serial_number_run. run_handler. rewrite Hm. cbn. repeat split.
Qed.

Lemma pay_installment_unknown_method_witness :
  let c := pay_installment "uuid-2" (InstallmentPaymentCreate.mk (Py.of_Z 500) "bank_transfer")
             Sample.accountant in
  invoices (exec c Sample.ledger) = invoices Sample.ledger
  /\ payments (exec c Sample.ledger) = payments Sample.ledger
  /\ installments (exec c Sample.ledger) = installments Sample.ledger
  /\ audit_logs (exec c Sample.ledger) = audit_logs Sample.ledger
  /\ (forall installment invoice,
        find_one (fun x => String.eqb (Installment.id x) "uuid-2")
                 (installments Sample.ledger) = Some installment ->
        Installment.status installment <> "paid" ->
        find_one (fun x => String.eqb (Invoice.id x) (Installment.invoice_id installment))
                 (invoices Sample.ledger) = Some invoice ->
        outcome c Sample.ledger = Raised (ValidationError "payment_method")).
Proof.
  apply (pay_installment_unknown_method "uuid-2"
           (InstallmentPaymentCreate.mk (Py.of_Z 500) "bank_transfer")
           Sample.accountant Sample.ledger (ValidationError "payment_method")).
  reflexivity.
Defined.

(** Property X9.  [pay_installment] does not reject an amount that is
    zero or negative: on an installment that is not paid, a Payment of
    the requested amount is appended and the remaining amount of the
    installment does not decrease. *)
Theorem pay_installment_accepts_nonpositive (installment_id : string)
    (payment_data : InstallmentPaymentCreate.t) (current_user : User.t) (db : DB)
    (installment : Installment.t) (invoice : Invoice.t) (method : PaymentMethod) :
  let c := pay_installment installment_id payment_data current_user in
  let requested := InstallmentPaymentCreate.amount payment_data in
  find_one (fun x => String.eqb (Installment.id x) installment_id) (installments db)
  = Some installment ->
  Installment.status installment <> "paid" ->
  find_one (fun x => String.eqb (Invoice.id x) (Installment.invoice_id installment))
           (invoices db) = Some invoice ->
  PaymentMethod_validate (InstallmentPaymentCreate.payment_method payment_data)
  = Ok method ->
  (requested <= 0)%Qc ->
  (0 <= Installment.remaining_amount installment)%Qc ->
  exists installment' p,
    payments (exec c db) = payments db ++ [p]
    /\ Payment.amount p = requested
    /\ find_one (fun x => String.eqb (Installment.id x) installment_id)
                (installments (exec c db)) = Some installment'
    /\ (Installment.remaining_amount installment
        <= Installment.remaining_amount installment')%Qc.
Proof.
  intros c requested Hf Hs Hi Hm Hneg Hrem.
  destruct (pay_installment_effect installment_id payment_data current_user db
              installment invoice method Hf Hs Hi Hm)
    as (applied & inst' & inv' & p & Hreq & _ & Hfind & _ & _ & Hr & _ & _ & _ & _ & _ & _
        & Hp & Hpa).
  fold c requested in Hreq, Hfind, Hp.
  assert (Ha : applied = requested) by (apply Hreq; eapply Qcle_trans; eassumption).
  exists inst', p. split; [exact Hp|]. split; [congruence|]. split; [exact Hfind|].
  rewrite Hr, Ha. apply Qcle_minus_iff.
  replace (Installment.remaining_amount installment - requested
           + - Installment.remaining_amount installment)%Qc with (- requested)%Qc by ring.
  apply Qcle_minus_iff in Hneg. now rewrite Qcplus_0_l in Hneg.
Qed.

Lemma pay_installment_accepts_nonpositive_witness :
  exists installment' p,
    payments (exec (pay_installment "uuid-2"
                      (InstallmentPaymentCreate.mk (Py.of_Z (-100)) "cash")
                      Sample.accountant) Sample.ledger) = payments Sample.ledger ++ [p]
    /\ Payment.amount p = Py.of_Z (-100)
    /\ find_one (fun x => String.eqb (Installment.id x) "uuid-2")
                (installments
                   (exec (pay_installment "uuid-2"
                            (InstallmentPaymentCreate.mk (Py.of_Z (-100)) "cash")
                            Sample.accountant) Sample.ledger)) = Some installment'
    /\ (Py.of_Z 3000 / Py.of_Z 2 <= Installment.remaining_amount installment')%Qc.
Proof.
  apply (pay_installment_accepts_nonpositive "uuid-2"
           (InstallmentPaymentCreate.mk (Py.of_Z (-100)) "cash")
           Sample.accountant Sample.ledger
           (Installment.mk "uuid-2" "uuid-1" "uuid-0" 10001 "clinic-1" 1
              (Py.of_Z 3000 / Py.of_Z 2)%Qc 0%Qc (Py.of_Z 3000 / Py.of_Z 2)%Qc
              (Some (Iso (Sample.jan31 2024))) "upcoming" [] None)
           (Invoice.mk "uuid-0" 10001 "order-2" 1002 "clinic-1" "rep-1" "manager-1"
              (Py.of_Z 3000) 0%Qc (Py.of_Z 3000) "pending" None [])
           CASH).
  - reflexivity.
  - discriminate.
  - reflexivity.
  - reflexivity.
  - discriminate.
  - discriminate.
Defined.

(** ** Invoice balance in binary64 *)

Section InvoiceBalance.

Import PrimFloat.
Local Open Scope float_scope.

(** Property X2.  With binary64 amounts [create_payment] does not keep
    paid_amount + remaining_amount equal to total_amount.  On the
    invoice of 1000.13 with nothing paid, a payment of 333.33 is
    accepted; the invoice is stored with 333.33 paid and
    1000.13 - 333.33 = 666.79999999999995 remaining, which add up to
    1000.1299999999999. *)
Theorem create_payment_rounds_the_balance :
  let c := Binary64.create_payment (Binary64.PaymentCreate.mk "uuid-0" 333.33 CASH)
             Sample.accountant in
  let row x := (Binary64.Invoice.total_amount x, Binary64.Invoice.paid_amount x,
                Binary64.Invoice.remaining_amount x) in
  map row (Binary64.invoices Sample64.ledger_in_three) = [(1000.13, 0, 1000.13)]
  /\ Binary64.outcome c Sample64.ledger_in_three
     = Ok ("partially_paid", 666.79999999999995)
  /\ map row (Binary64.invoices (Binary64.exec c Sample64.ledger_in_three))
     = [(1000.13, 333.33, 666.79999999999995)]
  /\ 333.33 + 666.79999999999995 = 1000.1299999999999
  /\ PrimFloat.eqb (333.33 + 666.79999999999995) 1000.13 = false.
Proof. cbv zeta. repeat split; vm_compute; reflexivity. Qed.

(** Property X8.  With binary64 amounts [pay_installment] does not
    keep paid_amount + remaining_amount of the invoice equal to its
    total_amount.  On the invoice of 1000.13 in three installments, a
    payment of 333.33 on the first installment leaves the invoice with
    333.33 paid and 666.79999999999995 remaining, which add up to
    1000.1299999999999, and the installment with 333.33 paid and
    0.046666666666681067 remaining of its 333.37666666666667. *)
Theorem pay_installment_rounds_the_balance :
  let c := Binary64.pay_installment "uuid-2"
             (Binary64.InstallmentPaymentCreate.mk 333.33 "cash") Sample.accountant in
  let row x := (Binary64.Invoice.total_amount x, Binary64.Invoice.paid_amount x,
                Binary64.Invoice.remaining_amount x) in
  let installment_row x :=
    (Binary64.Installment.id x, Binary64.Installment.amount x,
     Binary64.Installment.paid_amount x, Binary64.Installment.remaining_amount x) in
  map row (Binary64.invoices (Binary64.exec c Sample64.ledger_in_three))
  = [(1000.13, 333.33, 666.79999999999995)]
  /\ PrimFloat.eqb (333.33 + 666.79999999999995) 1000.13 = false
  /\ map installment_row (Binary64.installments (Binary64.exec c Sample64.ledger_in_three))
     = [("uuid-2", 333.37666666666667, 333.33, 0.046666666666681067);
        ("uuid-3", 333.37666666666667, 0, 333.37666666666667);
        ("uuid-4", 333.37666666666667, 0, 333.37666666666667)].
Proof. cbv zeta. repeat split; vm_compute; reflexivity. Qed.

End InvoiceBalance.

(** ** Invoice creation *)

Lemma initial_balances_bounds (order : Order.t) :
  let paid := fst (fst (initial_balances order)) in
  let rem := snd (fst (initial_balances order)) in
  (0 <= Order.total_amount order)%Qc ->
  (paid <= Order.total_amount order)%Qc /\ (0 <= rem)%Qc.
Proof.
  unfold initial_balances.
  destruct (String.eqb (Order.payment_status order) "full"); cbn [fst snd].
  { intros H. split; [apply Qcle_refl|apply Qcle_refl]. }
  destruct (String.eqb (Order.payment_status order) "partial"); cbn [fst snd].
  { intros _. split; [apply min_le_r|apply sub_nonneg, min_le_r]. }
  intros H. split; assumption.
Qed.

(** Property X10.  For an order that has a serial number, every call of
    [create_invoice_from_order] appends exactly one invoice, whether it
    returns or raises: the invoice carries the serial number, the total,
    the id and the clinic of the order and the id of the approver, its
    paid amount, remaining amount and status are those the payment
    status of the order gives, and its payment list is empty.  For an
    order without a serial number, as [duplicate_order] and [reorder]
    store them, the call raises the validation error of [order_serial]
    and writes nothing. *)
Theorem create_invoice_persists_one_invoice (order : Order.t) (approver : User.t)
    (db : DB) :
  let c := create_invoice_from_order order approver in
  match Order.serial_number order with
  | Some serial =>
      exists invoice,
        invoices (exec c db) = invoices db ++ [invoice]
        /\ Invoice.order_serial invoice = serial
        /\ Invoice.total_amount invoice = Order.total_amount order
        /\ (Invoice.paid_amount invoice, Invoice.remaining_amount invoice,
            Invoice.status invoice) = initial_balances order
        /\ Invoice.order_id invoice = Order.id order
        /\ Invoice.clinic_id invoice = Order.clinic_id order
        /\ Invoice.approved_by invoice = User.id approver
        /\ Invoice.payments invoice = []
  | None =>
      outcome c db = Raised (ValidationError "order_serial")
      /\ invoices (exec c db) = invoices db
      /\ payments (exec c db) = payments db
      /\ installment_schedules (exec c db) = installment_schedules db
      /\ installments (exec c db) = installments db
      /\ audit_logs (exec c db) = audit_logs db
  end.
Proof.
  intros c. subst c. destruct (Order.serial_number order) as [serial|] eqn:Hs.
  - destruct (create_invoice_from_order_run order approver db serial Hs) as (Hinv & _).
    eexists. split; [exact Hinv|].
    cbn [Invoice.paid_amount Invoice.remaining_amount Invoice.total_amount Invoice.order_id
         Invoice.clinic_id Invoice.approved_by Invoice.payments Invoice.order_serial
         Invoice.status].
    destruct (initial_balances order) as [[paid rem] st]. repeat split.
  - unfold exec, outcome.
    rewrite (create_invoice_from_order_without_serial order approver db Hs).
    repeat split.
Qed.

(** Property X11.  For an order with a serial number whose total is not
    negative, the invoice created has paid_amount <= total_amount and
    remaining_amount >= 0, whatever number the order declares as
    paid. *)
Theorem create_invoice_never_over_collects (order : Order.t) (approver : User.t)
    (db : DB) (serial : Z) :
  Order.serial_number order = Some serial ->
  (0 <= Order.total_amount order)%Qc ->
  exists invoice,
    invoices (exec (create_invoice_from_order order approver) db) = invoices db ++ [invoice]
    /\ (Invoice.paid_amount invoice <= Invoice.total_amount invoice)%Qc
    /\ (0 <= Invoice.remaining_amount invoice)%Qc.
Proof.
  intros Hs Htotal.
  destruct (create_invoice_from_order_run order approver db serial Hs) as (Hinv & _).
  eexists. split; [exact Hinv|].
  cbn [Invoice.paid_amount Invoice.remaining_amount Invoice.total_amount].
  now apply initial_balances_bounds.
Qed.

Lemma create_invoice_never_over_collects_witness :
  exists invoice,
    invoices (exec (create_invoice_from_order
                      (Order.mk "order-9" (Some 1009) "clinic-1" "rep-1" (Py.of_Z 3000)
                         "partial" None (Some (Py.of_Z 5000)) "monthly" 2 30 3 None)
                      Sample.manager) empty_db) = invoices empty_db ++ [invoice]
    /\ (Invoice.paid_amount invoice <= Invoice.total_amount invoice)%Qc
    /\ (0 <= Invoice.remaining_amount invoice)%Qc.
Proof.
  apply (create_invoice_never_over_collects
           (Order.mk "order-9" (Some 1009) "clinic-1" "rep-1" (Py.of_Z 3000)
              "partial" None (Some (Py.of_Z 5000)) "monthly" 2 30 3 None)
           Sample.manager empty_db 1009).
  - reflexivity.
  - discriminate.
Defined.

(** Property X12.  When [create_invoice_from_order] returns, the value
    returned is the invoice it appended, no Payment was recorded, the
    audit log gained exactly one entry, of type INVOICE_CREATED, and the
    order had no upfront payment to record (nothing paid, or no payment
    method). *)
Theorem create_invoice_normal_return (order : Order.t) (approver : User.t) (db : DB)
    (invoice : Invoice.t) :
  let c := create_invoice_from_order order approver in
  outcome c db = Ok invoice ->
  invoices (exec c db) = invoices db ++ [invoice]
  /\ payments (exec c db) = payments db
  /\ (exists entry,
        audit_logs (exec c db) = audit_logs db ++ [entry]
        /\ AuditLog.log_type entry = INVOICE_CREATED)
  /\ ((Invoice.paid_amount invoice <= 0)%Qc
      \/ Py.truthy (Order.payment_method order) = false).
Proof.
  intros c Hok. subst c.
  destruct (Order.serial_number order) as [serial|] eqn:Hs.
  2:{ unfold outcome in Hok.
      rewrite (create_invoice_from_order_without_serial order approver db Hs) in Hok.
      discriminate. }
  destruct (create_invoice_from_order_run order approver db serial Hs)
    as (Hinv & _ & Hret & _).
  destruct (Hret invoice Hok) as (-> & Hcond & Hpay & Haudit).
  split; [exact Hinv|]. split; [exact Hpay|]. split; [exact Haudit|].
  cbn [Invoice.paid_amount]. apply andb_false_iff in Hcond. destruct Hcond as [H|H].
  - left. unfold Py.gtb in H. now apply ltb_nlt.
  - now right.
Qed.

Lemma create_invoice_normal_return_witness :
  let c := create_invoice_from_order
             (Sample.unpaid_order "order-2" 3000 "monthly" 2 (Sample.jan31 2024))
             Sample.manager in
  let invoice := Invoice.mk "uuid-0" 10001 "order-2" 1002 "clinic-1" "rep-1" "manager-1"
                   (Py.of_Z 3000) 0%Qc (Py.of_Z 3000) "pending" None [] in
  invoices (exec c empty_db) = invoices empty_db ++ [invoice]
  /\ payments (exec c empty_db) = payments empty_db
  /\ (exists entry,
        audit_logs (exec c empty_db) = audit_logs empty_db ++ [entry]
        /\ AuditLog.log_type entry = INVOICE_CREATED)
  /\ ((Invoice.paid_amount invoice <= 0)%Qc \/ Py.truthy None = false).
Proof.
  apply (create_invoice_normal_return
           (Sample.unpaid_order "order-2" 3000 "monthly" 2 (Sample.jan31 2024))
           Sample.manager empty_db).
  reflexivity.
Defined.

(** Property X13.  For an order with a serial number, a positive paid
    amount and a payment method, [create_invoice_from_order] raises
    after persisting the invoice: no installment is created and the
    audit log is unchanged. *)
Theorem create_invoice_with_upfront_payment_raises (order : Order.t) (approver : User.t)
    (db : DB) (serial : Z) :
  let c := create_invoice_from_order order approver in
  Order.serial_number order = Some serial ->
  (0 < fst (fst (initial_balances order)))%Qc ->
  Py.truthy (Order.payment_method order) = true ->
  (exists e, outcome c db = Raised e)
  /\ (exists invoice, invoices (exec c db) = invoices db ++ [invoice])
  /\ installments (exec c db) = installments db
  /\ audit_logs (exec c db) = audit_logs db.
Proof.
  intros c Hs Hpaid Hm. subst c.
  destruct (create_invoice_from_order_run order approver db serial Hs)
    as (Hinv & _ & _ & Hup & _).
  apply ltb_lt in Hpaid.
  destruct Hup as (Hi & Ha & He).
  { unfold Py.gtb. now rewrite Hpaid, Hm. }
  split; [exact He|]. split; [eauto|]. now split.
Qed.

Lemma create_invoice_with_upfront_payment_raises_witness :
  let c := create_invoice_from_order
             (Order.mk "order-8" (Some 1008) "clinic-1" "rep-1" (Py.of_Z 900) "full"
                (Some "instapay") None "weekly" 3 30 3 (Some (Iso (Sample.jan31 2024))))
             Sample.manager in
  (exists e, outcome c empty_db = Raised e)
  /\ (exists invoice, invoices (exec c empty_db) = invoices empty_db ++ [invoice])
  /\ installments (exec c empty_db) = installments empty_db
  /\ audit_logs (exec c empty_db) = audit_logs empty_db.
Proof.
  apply (create_invoice_with_upfront_payment_raises
           (Order.mk "order-8" (Some 1008) "clinic-1" "rep-1" (Py.of_Z 900) "full"
              (Some "instapay") None "weekly" 3 30 3 (Some (Iso (Sample.jan31 2024))))
           Sample.manager empty_db 1008).
  - reflexivity.
  - reflexivity.
  - reflexivity.
Defined.

(** ** Invoicing the same order twice *)

(** Property X14.  [create_invoice_from_order] does not look for an
    existing invoice of the order: two calls for the same order, when
    it has a serial number, append two invoices of that order, with the
    same invoice number and total. *)
Theorem create_invoice_twice_duplicates (order : Order.t) (approver : User.t) (db : DB)
    (serial : Z) :
  let c := create_invoice_from_order order approver in
  Order.serial_number order = Some serial ->
  exists first second,
    invoices (exec c (exec c db)) = invoices db ++ [first; second]
    /\ Invoice.order_id first = Order.id order
    /\ Invoice.order_id second = Order.id order
    /\ Invoice.invoice_number first = Invoice.invoice_number second
    /\ Invoice.total_amount first = Invoice.total_amount second.
Proof.
  intros c Hs. subst c.
  destruct (create_invoice_from_order_run order approver db serial Hs) as (H1 & _).
  destruct (create_invoice_from_order_run order approver
              (exec (create_invoice_from_order order approver) db) serial Hs) as (H2 & _).
  rewrite H1, <- app_assoc in H2. cbn [app] in H2.
  eexists _, _. split; [exact H2|]. repeat split.
Qed.

Lemma create_invoice_twice_duplicates_witness :
  let c := create_invoice_from_order
             (Sample.unpaid_order "order-2" 3000 "monthly" 2 (Sample.jan31 2024))
             Sample.manager in
  exists first second,
    invoices (exec c (exec c empty_db)) = invoices empty_db ++ [first; second]
    /\ Invoice.order_id first = "order-2"
    /\ Invoice.order_id second = "order-2"
    /\ Invoice.invoice_number first = Invoice.invoice_number second
    /\ Invoice.total_amount first = Invoice.total_amount second.
Proof.
  apply (create_invoice_twice_duplicates
           (Sample.unpaid_order "order-2" 3000 "monthly" 2 (Sample.jan31 2024))
           Sample.manager empty_db 1002).
  reflexivity.
Defined.

(** ** The schedule block, installment by installment *)

Section ScheduleItems.

Variables (order : Order.t) (schedule_id invoice_id : string) (invoice_number : Z).
Variables (schedule_type : string) (first_due_date : Datetime.t) (interval_days : Z).
Variable a : Qc.

Local Abbreviation turn :=
  (create_installment order schedule_id invoice_id invoice_number
     schedule_type first_due_date interval_days a).

Local Abbreviation item :=
  (fun (i : Z) (x : Installment.t) =>
     exists id d,
       installment_due_date schedule_type first_due_date interval_days i = Ok d
       /\ x = Installment.mk id schedule_id invoice_id invoice_number
                (Order.clinic_id order) (i + 1) a 0%Qc a (Some (Iso d)) "upcoming" [] None).

Lemma create_installment_exact (i : Z) (db : DB) :
  turn i db
  = match installment_due_date schedule_type first_due_date interval_days i with
    | Ok d =>
        (set_installments
           (insert_one
              (Installment.mk ("uuid-" ++ Py.str (next_uuid db))%string schedule_id
                 invoice_id invoice_number (Order.clinic_id order) (i + 1) a 0%Qc a
                 (Some (Iso d)) "upcoming" [] None)
              (installments db))
           (exec uuid4 db), Ok tt)
    | Raised e => (db, Raised e)
    end.
Proof.
  unfold create_installment, exec. run_handler.
  destruct (installment_due_date _ _ _ i); reflexivity.
Qed.

Lemma schedule_loop_items (l : list Z) (db : DB) :
  exists news,
    installments (exec (for_each l turn) db) = installments db ++ news
    /\ installment_schedules (exec (for_each l turn) db) = installment_schedules db
    /\ keeps_ledger db (exec (for_each l turn) db)
    /\ Forall2 item (firstn (List.length news) l) news
    /\ ((outcome (for_each l turn) db = Ok tt /\ List.length news = List.length l)
        \/ exists i e,
             nth_error l (List.length news) = Some i
             /\ installment_due_date schedule_type first_due_date interval_days i = Raised e
             /\ outcome (for_each l turn) db = Raised e).
Proof.
  revert db. induction l as [|i l IH]; intros db.
  - exists []. cbn. rewrite app_nil_r. repeat split; auto.
  - unfold exec, outcome, keeps_ledger. cbn [for_each]. unfold bind.
    rewrite create_installment_exact.
    destruct (installment_due_date schedule_type first_due_date interval_days i)
      as [d|e] eqn:Hd.
    + match goal with
      | |- context [for_each l _ ?d1] =>
          destruct (IH d1) as (news & Hn & Hs & (K1 & K2 & K3) & HF & Hout)
      end.
      unfold exec, outcome in *.
      match goal with
      | |- context [for_each l ?b ?d1] => destruct (for_each l b d1) as [db2 r2]
      end.
      cbn [fst snd] in *. cbn in Hn, Hs, K1, K2, K3. unfold insert_one in Hn.
      eexists (_ :: news). rewrite Hn, <- app_assoc. cbn [app].
      split; [reflexivity|]. split; [exact Hs|].
      split; [repeat split; assumption|]. split.
      * cbn [List.length firstn]. constructor; [|exact HF].
        eexists _, d. split; [exact Hd|reflexivity].
      * cbn [List.length nth_error]. destruct Hout as [[Ho Hl]|(j & e & Hj & He & Ho)].
        -- left. split; [exact Ho|now f_equal].
        -- right. exists j, e. repeat split; assumption.
    + cbn [fst snd]. exists []. rewrite app_nil_r. cbn [List.length firstn nth_error].
      split; [reflexivity|]. split; [reflexivity|].
      split; [repeat split|]. split; [constructor|].
      right. exists i, e. repeat split; assumption.
Qed.

End ScheduleItems.

Lemma range_nth_error (n : Z) (k : nat) :
  (k < Z.to_nat n)%nat -> nth_error (Py.range n) k = Some (Z.of_nat k).
Proof.
  intros H. unfold Py.range. rewrite nth_error_map, nth_error_seq.
  destruct (Nat.ltb_spec k (Z.to_nat n)); [reflexivity|lia].
Qed.

Lemma Forall2_firstn_nth {A B} (R : A -> B -> Prop) (l : list A) (news : list B) :
  Forall2 R (firstn (List.length news) l) news ->
  forall k x, nth_error news k = Some x -> exists i, nth_error l k = Some i /\ R i x.
Proof.
  revert l. induction news as [|y news IH]; intros l HF k x Hk.
  - destruct k; discriminate.
  - destruct l as [|i l]; cbn [List.length firstn] in HF; [inversion HF|].
    inversion HF as [|? ? ? ? Hr HF']; subst. destruct k as [|k]; cbn [nth_error] in *.
    + injection Hk as <-. eauto.
    + now apply IH.
Qed.

(** The handler without an upfront payment to record, after the invoice
    is persisted. *)
Lemma create_invoice_from_order_unpaid (order : Order.t) (approver : User.t) (db : DB)
    (serial : Z) :
  Order.serial_number order = Some serial ->
  let paid := fst (fst (initial_balances order)) in
  let rem := snd (fst (initial_balances order)) in
  let invoice_id := ("uuid-" ++ Py.str (next_uuid db))%string in
  let invoice :=
    Invoice.mk invoice_id 10001 (Order.id order)
      serial (Order.clinic_id order) (Order.medical_rep_id order)
      (User.id approver) (Order.total_amount order) paid rem
      (snd (initial_balances order)) (Order.payment_method order) [] in
  Py.gtb paid 0%Qc && Py.truthy (Order.payment_method order) = false ->
  create_invoice_from_order order approver db
  = (generate_schedule order invoice_id 10001 rem ;;;
     log_type <- lift (AuditLogType_getattr "INVOICE_CREATED") ;;
     create_audit_log log_type "invoice" invoice_id 10001 approver
       (Some (Order.total_amount order)) [] ;;;
     ret invoice)
      (set_invoices (insert_one invoice (invoices db)) (exec uuid4 db)).
Proof.
  intros Hserial paid rem invoice_id invoice. subst paid rem invoice invoice_id.
  unfold create_invoice_from_order.
  unfold bind at 1. rewrite get_next_serial_number_run, next_invoice_number.
  destruct (initial_balances order) as [[paid rem] st]. cbn [fst snd]. intros Hc.
  unfold bind at 1. unfold uuid4 at 1. unfold bind at 1.
  rewrite Hserial. unfold required_int, lift at 1. unfold bind at 1.
  unfold get at 1. unfold bind at 1. unfold modify at 1.
  unfold bind at 1. unfold record_upfront_payment. rewrite Hc. unfold ret at 1.
  reflexivity.
Qed.

(** The schedule block when it runs with a count other than 0. *)
Lemma generate_schedule_loop (order : Order.t) (invoice_id : string) (invoice_number : Z)
    (remaining_amount : Qc) (first : Datetime.t) (db : DB) :
  let n := Order.installments_count order in
  let schedule_id := ("uuid-" ++ Py.str (next_uuid db))%string in
  let schedule :=
    InstallmentSchedule.mk schedule_id invoice_id invoice_number
      (Order.clinic_id order) (Order.schedule_type order)
      (if String.eqb (Order.schedule_type order) "regular"
       then Some (Order.interval_days order) else None)
      remaining_amount n (Order.grace_period_days order) first in
  let db1 := set_installment_schedules (insert_one schedule (installment_schedules db))
               (exec uuid4 db) in
  Order.first_due_date order = Some (Iso first) ->
  (0 < remaining_amount)%Qc ->
  generate_schedule order invoice_id invoice_number remaining_amount db
  = if n =? 0 then (db1, Raised ZeroDivisionError)
    else for_each (Py.range n)
           (create_installment order schedule_id invoice_id invoice_number
              (Order.schedule_type order) first (Order.interval_days order)
              (remaining_amount / Py.of_Z n)%Qc) db1.
Proof.
  intros n schedule_id schedule db1 Hd Hr. subst n schedule_id schedule db1.
  unfold generate_schedule. rewrite Hd. cbn [iso_truthy fromisoformat andb].
  apply ltb_lt in Hr. unfold Py.gtb. rewrite Hr.
  unfold bind at 1, lift at 1. unfold bind at 1, uuid4 at 1. unfold bind at 1, get at 1.
  unfold bind at 1, modify at 1. unfold bind at 1, lift at 1, truediv.
  destruct (Order.installments_count order =? 0); reflexivity.
Qed.

(** The handler on an order that reaches the schedule block with a
    count other than 0: the invoice and the schedule record are
    persisted, then the loop runs to its end or to the first due date
    that cannot be computed. *)
Lemma create_invoice_schedule_run (order : Order.t) (approver : User.t) (first : Datetime.t)
    (db : DB) (serial : Z) :
  Order.serial_number order = Some serial ->
  let c := create_invoice_from_order order approver in
  let paid := fst (fst (initial_balances order)) in
  let rem := snd (fst (initial_balances order)) in
  let n := Order.installments_count order in
  let invoice_id := ("uuid-" ++ Py.str (next_uuid db))%string in
  let schedule_id := ("uuid-" ++ Py.str (S (next_uuid db)))%string in
  let invoice :=
    Invoice.mk invoice_id 10001 (Order.id order)
      serial (Order.clinic_id order) (Order.medical_rep_id order)
      (User.id approver) (Order.total_amount order) paid rem
      (snd (initial_balances order)) (Order.payment_method order) [] in
  let schedule :=
    InstallmentSchedule.mk schedule_id invoice_id 10001
      (Order.clinic_id order) (Order.schedule_type order)
      (if String.eqb (Order.schedule_type order) "regular"
       then Some (Order.interval_days order) else None)
      rem n (Order.grace_period_days order) first in
  Py.gtb paid 0%Qc && Py.truthy (Order.payment_method order) = false ->
  Order.first_due_date order = Some (Iso first) ->
  (0 < rem)%Qc ->
  invoices (exec c db) = invoices db ++ [invoice]
  /\ installment_schedules (exec c db) = installment_schedules db ++ [schedule]
  /\ payments (exec c db) = payments db
  /\ ((n = 0 /\ outcome c db = Raised ZeroDivisionError
       /\ installments (exec c db) = installments db
       /\ audit_logs (exec c db) = audit_logs db)
      \/ (n <> 0 /\ exists news,
            installments (exec c db) = installments db ++ news
            /\ Forall2
                 (fun i x =>
                    exists id d,
                      installment_due_date (Order.schedule_type order) first
                        (Order.interval_days order) i = Ok d
                      /\ x = Installment.mk id schedule_id invoice_id 10001
                               (Order.clinic_id order) (i + 1) (rem / Py.of_Z n)%Qc 0%Qc
                               (rem / Py.of_Z n)%Qc (Some (Iso d)) "upcoming" [] None)
                 (firstn (List.length news) (Py.range n)) news
            /\ ((outcome c db = Ok invoice /\ List.length news = Z.to_nat n
                 /\ exists entry, audit_logs (exec c db) = audit_logs db ++ [entry]
                                   /\ AuditLog.log_type entry = INVOICE_CREATED)
                \/ (exists i e,
                      nth_error (Py.range n) (List.length news) = Some i
                      /\ installment_due_date (Order.schedule_type order) first
                           (Order.interval_days order) i = Raised e
                      /\ outcome c db = Raised e
                      /\ audit_logs (exec c db) = audit_logs db)))).
Proof.
  intros Hserial c paid rem n invoice_id schedule_id invoice schedule Hc Hd Hr.
  subst c. unfold exec, outcome.
  destruct (create_invoice_from_order order approver db) as [db' r] eqn:E.
  rewrite (create_invoice_from_order_unpaid order approver db serial Hserial Hc) in E.
  fold paid rem invoice_id invoice in E. unfold bind at 1 in E.
  rewrite (generate_schedule_loop order invoice_id 10001 rem first _ Hd Hr) in E.
  cbn [next_uuid set_invoices exec uuid4 fst] in E. fold n schedule_id in E.
  fold schedule in E. cbn [fst snd].
  destruct (n =? 0) eqn:Hn.
  - apply Z.eqb_eq in Hn. injection E as <- <-. cbn.
    split; [reflexivity|]. split; [reflexivity|]. split; [reflexivity|].
    left. repeat split; assumption.
  - apply Z.eqb_neq in Hn.
    match type of E with
    | context [for_each ?l ?b ?d1] =>
        destruct (schedule_loop_items order schedule_id invoice_id 10001
                    (Order.schedule_type order) first (Order.interval_days order)
                    (rem / Py.of_Z n)%Qc l d1)
          as (news & Hi & Hs & (K1 & K2 & K3) & HF & Hout);
        unfold exec, outcome in Hi, Hs, K1, K2, K3, Hout;
        destruct (for_each l b d1) as [db2 r2]
    end.
    cbn [fst snd] in *. cbn in Hi, Hs, K1, K2, K3.
    destruct Hout as [[-> Hlen]|(i & e & Hnth & He & ->)].
    + revert E. run_handler. cbn. intros [= <- <-]. cbn. rewrite K1, Hs, K2, K3, Hi.
      split; [reflexivity|]. split; [reflexivity|]. split; [reflexivity|].
      right. split; [exact Hn|].
      exists news. split; [reflexivity|]. split; [exact HF|]. left.
      split; [reflexivity|]. split; [now rewrite Hlen, range_length|].
      eexists. split; reflexivity.
    + injection E as <- <-. rewrite K1, Hs, K2, K3, Hi.
      split; [reflexivity|]. split; [reflexivity|]. split; [reflexivity|].
      right. split; [exact Hn|].
      exists news. split; [reflexivity|]. split; [exact HF|]. right.
      exists i, e. repeat split; assumption.
Qed.

Lemma range_nth_error_inv (n : Z) (k : nat) (i : Z) :
  nth_error (Py.range n) k = Some i -> i = Z.of_nat k /\ (k < Z.to_nat n)%nat.
Proof.
  intros H. assert (Hk : (k < Z.to_nat n)%nat).
  { rewrite <- range_length. apply nth_error_Some. congruence. }
  rewrite (range_nth_error n k Hk) in H. split; [congruence|exact Hk].
Qed.

(** Property X15.  When [create_invoice_from_order] returns for an
    order with a first due date and a positive remaining amount, it has
    appended one schedule, for the invoice, of total the remaining amount
    and with the count and first due date of the order, and exactly
    installments_count installments, in order: the k-th (from 0) has
    number k + 1, points to the schedule and the invoice, has the clinic
    of the invoice, amount remaining / count, and the due date the loop
    computes for index k. *)
Theorem schedule_numbered_and_linked (order : Order.t) (approver : User.t)
    (first : Datetime.t) (db : DB) (invoice : Invoice.t) :
  let c := create_invoice_from_order order approver in
  let n := Order.installments_count order in
  Order.first_due_date order = Some (Iso first) ->
  (0 < Invoice.remaining_amount invoice)%Qc ->
  outcome c db = Ok invoice ->
  exists schedule news,
    installment_schedules (exec c db) = installment_schedules db ++ [schedule]
    /\ InstallmentSchedule.invoice_id schedule = Invoice.id invoice
    /\ InstallmentSchedule.total_amount schedule = Invoice.remaining_amount invoice
    /\ InstallmentSchedule.installments_count schedule = n
    /\ InstallmentSchedule.first_due_date schedule = first
    /\ installments (exec c db) = installments db ++ news
    /\ List.length news = Z.to_nat n
    /\ forall k x, nth_error news k = Some x ->
         Installment.installment_number x = Z.of_nat k + 1
         /\ Installment.schedule_id x = InstallmentSchedule.id schedule
         /\ Installment.invoice_id x = Invoice.id invoice
         /\ Installment.invoice_number x = Invoice.invoice_number invoice
         /\ Installment.clinic_id x = Invoice.clinic_id invoice
         /\ Installment.amount x = (Invoice.remaining_amount invoice / Py.of_Z n)%Qc
         /\ exists d,
              installment_due_date (Order.schedule_type order) first
                (Order.interval_days order) (Z.of_nat k) = Ok d
              /\ Installment.due_date x = Some (Iso d).
Proof.
  intros c n Hd Hr Hok. subst c.
  destruct (Order.serial_number order) as [serial|] eqn:Hserial.
  2:{ rewrite (proj1 (create_invoice_from_order_refused order approver db Hserial)) in Hok.
      discriminate. }
  destruct (create_invoice_from_order_run order approver db serial Hserial)
    as (_ & _ & Hret & _).
  destruct (Hret invoice Hok) as (Hv & Hc & _). subst invoice.
  cbn [Invoice.remaining_amount Invoice.id Invoice.invoice_number Invoice.clinic_id] in *.
  destruct (create_invoice_schedule_run order approver first db serial Hserial Hc Hd Hr)
    as (_ & Hs & _ & [(_ & He & _)|(Hn & news & Hi & HF & Hout)]).
  { rewrite He in Hok. discriminate. }
  destruct Hout as [(_ & Hlen & _)|(i & e & _ & _ & He & _)].
  2:{ rewrite He in Hok. discriminate. }
  eexists _, news. split; [exact Hs|].
  cbn [InstallmentSchedule.invoice_id InstallmentSchedule.total_amount
       InstallmentSchedule.installments_count InstallmentSchedule.first_due_date
       InstallmentSchedule.id].
  repeat (split; [reflexivity|]). split; [exact Hi|]. split; [exact Hlen|].
  intros k x Hk.
  destruct (Forall2_firstn_nth _ _ _ HF k x Hk) as (i & Hnth & id & d & Hdue & ->).
  apply range_nth_error_inv in Hnth. destruct Hnth as [-> _].
  cbn. repeat (split; [reflexivity|]). exists d. split; [exact Hdue|reflexivity].
Qed.

Lemma schedule_numbered_and_linked_witness :
  let order := Sample.unpaid_order "order-2" 3000 "weekly" 3 (Sample.jan31 2024) in
  let c := create_invoice_from_order order Sample.manager in
  let invoice := Invoice.mk "uuid-0" 10001 "order-2" 1002 "clinic-1" "rep-1" "manager-1"
                   (Py.of_Z 3000) 0%Qc (Py.of_Z 3000) "pending" None [] in
  exists schedule news,
    installment_schedules (exec c empty_db) = installment_schedules empty_db ++ [schedule]
    /\ InstallmentSchedule.invoice_id schedule = Invoice.id invoice
    /\ InstallmentSchedule.total_amount schedule = Invoice.remaining_amount invoice
    /\ InstallmentSchedule.installments_count schedule = 3
    /\ InstallmentSchedule.first_due_date schedule = Sample.jan31 2024
    /\ installments (exec c empty_db) = installments empty_db ++ news
    /\ List.length news = Z.to_nat 3
    /\ forall k x, nth_error news k = Some x ->
         Installment.installment_number x = Z.of_nat k + 1
         /\ Installment.schedule_id x = InstallmentSchedule.id schedule
         /\ Installment.invoice_id x = Invoice.id invoice
         /\ Installment.invoice_number x = Invoice.invoice_number invoice
         /\ Installment.clinic_id x = Invoice.clinic_id invoice
         /\ Installment.amount x = (Invoice.remaining_amount invoice / Py.of_Z 3)%Qc
         /\ exists d,
              installment_due_date "weekly" (Sample.jan31 2024) 30 (Z.of_nat k) = Ok d
              /\ Installment.due_date x = Some (Iso d).
Proof.
  apply (schedule_numbered_and_linked
           (Sample.unpaid_order "order-2" 3000 "weekly" 3 (Sample.jan31 2024))
           Sample.manager (Sample.jan31 2024) empty_db).
  - reflexivity.
  - reflexivity.
  - reflexivity.
Defined.

(** Property X16.  With installments_count <= 0 the schedule block
    persists a schedule record and no installment: for a count of 0 the
    handler then raises ZeroDivisionError and writes no audit entry, for
    a negative count it returns the invoice.  An order without a serial
    number does not get that far: it is refused before anything is
    written. *)
Theorem schedule_without_installments (order : Order.t) (approver : User.t)
    (first : Datetime.t) (db : DB) :
  let c := create_invoice_from_order order approver in
  let paid := fst (fst (initial_balances order)) in
  let rem := snd (fst (initial_balances order)) in
  let n := Order.installments_count order in
  Py.gtb paid 0%Qc && Py.truthy (Order.payment_method order) = false ->
  Order.first_due_date order = Some (Iso first) ->
  (0 < rem)%Qc ->
  n <= 0 ->
  match Order.serial_number order with
  | Some _ =>
      (exists invoice, invoices (exec c db) = invoices db ++ [invoice])
      /\ (exists schedule,
            installment_schedules (exec c db) = installment_schedules db ++ [schedule]
            /\ InstallmentSchedule.installments_count schedule = n
            /\ InstallmentSchedule.total_amount schedule = rem)
      /\ installments (exec c db) = installments db
      /\ (n = 0 -> outcome c db = Raised ZeroDivisionError
                   /\ audit_logs (exec c db) = audit_logs db)
      /\ (n < 0 -> exists invoice, outcome c db = Ok invoice)
  | None =>
      outcome c db = Raised (ValidationError "order_serial")
      /\ same_collections db (exec c db)
  end.
Proof.
  intros c paid rem n Hc Hd Hr Hn. subst c.
  destruct (Order.serial_number order) as [serial|] eqn:Hserial;
    [|now apply create_invoice_from_order_refused].
  destruct (create_invoice_schedule_run order approver first db serial Hserial Hc Hd Hr)
    as (Hinv & Hs & _ & [(H0 & He & Hi & Ha)|(Hn0 & news & Hi & HF & Hout)]).
  - split; [eauto|]. split; [eexists; split; [exact Hs|split; reflexivity]|].
    split; [exact Hi|]. split; [now split|]. fold n. lia.
  - fold n in Hn0, HF, Hout. assert (Hrange : Py.range n = []).
    { unfold Py.range. replace (Z.to_nat n) with 0%nat by lia. reflexivity. }
    rewrite Hrange in HF, Hout. rewrite firstn_nil in HF. inversion HF; subst.
    rewrite app_nil_r in Hi.
    split; [eauto|]. split; [eexists; split; [exact Hs|split; reflexivity]|].
    split; [exact Hi|]. split; [lia|]. intros _.
    destruct Hout as [(Ho & _)|(i & e & Hnth & _)]; [eauto|discriminate].
Qed.

Lemma schedule_without_installments_witness :
  let order := Sample.unpaid_order "order-5" 3000 "monthly" 0 (Sample.jan31 2024) in
  let c := create_invoice_from_order order Sample.manager in
  (exists invoice, invoices (exec c empty_db) = invoices empty_db ++ [invoice])
  /\ (exists schedule,
        installment_schedules (exec c empty_db)
        = installment_schedules empty_db ++ [schedule]
        /\ InstallmentSchedule.installments_count schedule = 0
        /\ InstallmentSchedule.total_amount schedule = Py.of_Z 3000)
  /\ installments (exec c empty_db) = installments empty_db
  /\ (0 = 0 -> outcome c empty_db = Raised ZeroDivisionError
               /\ audit_logs (exec c empty_db) = audit_logs empty_db)
  /\ (0 < 0 -> exists invoice, outcome c empty_db = Ok invoice).
Proof.
  apply (schedule_without_installments
           (Sample.unpaid_order "order-5" 3000 "monthly" 0 (Sample.jan31 2024))
           Sample.manager (Sample.jan31 2024) empty_db).
  - reflexivity.
  - reflexivity.
  - reflexivity.
  - cbn. lia.
Defined.

(** Property X17.  The scheduling loop is not atomic: when the due
    date of index k is the first that cannot be computed, the handler
    raises that exception after persisting the invoice, the schedule
    record with the full count, and the k installments before it; no
    audit entry is written.  An order without a serial number does not
    get that far: it is refused before anything is written. *)
Theorem schedule_truncated_at_first_bad_date (order : Order.t) (approver : User.t)
    (first : Datetime.t) (db : DB) (k : Z) (e : exn) :
  let c := create_invoice_from_order order approver in
  let paid := fst (fst (initial_balances order)) in
  let rem := snd (fst (initial_balances order)) in
  let n := Order.installments_count order in
  let due := installment_due_date (Order.schedule_type order) first
               (Order.interval_days order) in
  Py.gtb paid 0%Qc && Py.truthy (Order.payment_method order) = false ->
  Order.first_due_date order = Some (Iso first) ->
  (0 < rem)%Qc ->
  0 <= k < n ->
  (forall j, 0 <= j < k -> exists d, due j = Ok d) ->
  due k = Raised e ->
  match Order.serial_number order with
  | Some _ =>
      outcome c db = Raised e
      /\ (exists invoice, invoices (exec c db) = invoices db ++ [invoice])
      /\ (exists schedule,
            installment_schedules (exec c db) = installment_schedules db ++ [schedule]
            /\ InstallmentSchedule.installments_count schedule = n)
      /\ (exists news,
            installments (exec c db) = installments db ++ news
            /\ List.length news = Z.to_nat k)
      /\ audit_logs (exec c db) = audit_logs db
  | None =>
      outcome c db = Raised (ValidationError "order_serial")
      /\ same_collections db (exec c db)
  end.
Proof.
  intros c paid rem n due Hc Hd Hr Hk Hbefore Hbad. subst c due.
  destruct (Order.serial_number order) as [serial|] eqn:Hserial;
    [|now apply create_invoice_from_order_refused].
  destruct (create_invoice_schedule_run order approver first db serial Hserial Hc Hd Hr)
    as (Hinv & Hs & _ & [(H0 & _)|(Hn0 & news & Hi & HF & Hout)]).
  { fold n in H0. lia. }
  fold n in HF, Hout.
  assert (Hitem : forall j, (j < List.length news)%nat ->
            exists d, installment_due_date (Order.schedule_type order) first
                        (Order.interval_days order) (Z.of_nat j) = Ok d).
  { intros j Hj. destruct (nth_error news j) as [x|] eqn:Hx.
    2:{ apply nth_error_None in Hx. lia. }
    destruct (Forall2_firstn_nth _ _ _ HF j x Hx) as (i & Hnth & id & d & Hdue & _).
    apply range_nth_error_inv in Hnth. destruct Hnth as [-> _]. eauto. }
  destruct Hout as [(_ & Hlen & _)|(i & e' & Hnth & He' & Ho & Ha)].
  - destruct (Hitem (Z.to_nat k)) as [d Hdue]; [lia|].
    rewrite Z2Nat.id in Hdue by lia. congruence.
  - apply range_nth_error_inv in Hnth. destruct Hnth as [-> Hlt].
    assert (Heq : Z.of_nat (List.length news) = k).
    { destruct (Z.lt_trichotomy (Z.of_nat (List.length news)) k) as [H|[H|H]].
      - destruct (Hbefore (Z.of_nat (List.length news))) as [d Hdue]; [lia|]. congruence.
      - exact H.
      - destruct (Hitem (Z.to_nat k)) as [d Hdue]; [lia|].
        rewrite Z2Nat.id in Hdue by lia. congruence. }
    rewrite Heq in He'. split; [congruence|]. split; [eauto|].
    split; [eexists; split; [exact Hs|reflexivity]|].
    split; [exists news; split; [exact Hi|lia]|exact Ha].
Qed.

Lemma schedule_truncated_at_first_bad_date_witness :
  let order := Sample.unpaid_order "order-6" 3000 "monthly" 3 (Sample.jan31 2100) in
  let c := create_invoice_from_order order Sample.manager in
  outcome c empty_db = Raised (ValueError "day is out of range for month")
  /\ (exists invoice, invoices (exec c empty_db) = invoices empty_db ++ [invoice])
  /\ (exists schedule,
        installment_schedules (exec c empty_db)
        = installment_schedules empty_db ++ [schedule]
        /\ InstallmentSchedule.installments_count schedule = 3)
  /\ (exists news,
        installments (exec c empty_db) = installments empty_db ++ news
        /\ List.length news = Z.to_nat 1)
  /\ audit_logs (exec c empty_db) = audit_logs empty_db.
Proof.
  apply (schedule_truncated_at_first_bad_date
           (Sample.unpaid_order "order-6" 3000 "monthly" 3 (Sample.jan31 2100))
           Sample.manager (Sample.jan31 2100) empty_db 1
           (ValueError "day is out of range for month")).
  - reflexivity.
  - reflexivity.
  - reflexivity.
  - cbn. lia.
  - intros j Hj. assert (j = 0) as -> by lia. eexists. reflexivity.
  - reflexivity.
Defined.

(** Property X18.  For target dates in the years 1901 to 2099 the
    monthly branch of the loop computes the first due date plus i
    calendar months, the day clamped to the length of the target
    month. *)
Theorem monthly_due_dates_1901_2099 (d : Datetime.t) (interval_days i : Z) :
  let target := Spec.add_months d i in
  1 <= Datetime.day d ->
  1901 <= Datetime.year target <= 2099 ->
  installment_due_date "monthly" d interval_days i = Ok target.
Proof.
  intros target Hday Hyear. subst target.
  apply monthly_due_date_agrees; [exact Hday| |].
  - unfold Datetime.MINYEAR, Datetime.MAXYEAR. lia.
  - unfold Datetime.is_leap. set (y := Datetime.year _) in *. clearbody y.
    assert (H100 : y mod 100 = 0 -> y = 2000).
    { intros H. pose proof (Z.div_mod y 100). lia. }
    destruct (y mod 4 =? 0) eqn:E4; cbn [andb]; [|reflexivity].
    destruct (y mod 100 =? 0) eqn:E100; cbn [negb orb]; [|reflexivity].
    apply Z.eqb_eq in E100. rewrite (H100 E100). reflexivity.
Qed.

Lemma monthly_due_dates_1901_2099_witness :
  installment_due_date "monthly" (Sample.jan31 2024) 30 1
  = Ok (Spec.add_months (Sample.jan31 2024) 1).
Proof.
  apply (monthly_due_dates_1901_2099 (Sample.jan31 2024) 30 1).
  - cbn. lia.
  - cbn. lia.
Defined.

(** ** The allocator that scans the collection *)

Lemma highest_serial_none (l : list (option Z)) :
  highest_serial l = None -> forall s, ~ In (Some s) l.
Proof.
  induction l as [|[n|] l IH]; cbn [highest_serial In]; intros H s.
  - tauto.
  - destruct (highest_serial l); discriminate.
  - intros [E|Hin]; [discriminate|]. exact (IH H s Hin).
Qed.

Lemma highest_serial_max (l : list (option Z)) (m : Z) :
  highest_serial l = Some m ->
  In (Some m) l /\ forall s, In (Some s) l -> s <= m.
Proof.
  revert m. induction l as [|[n|] l IH]; cbn [highest_serial In]; intros m H.
  - discriminate.
  - destruct (highest_serial l) as [k|] eqn:E.
    + injection H as <-. destruct (IH k eq_refl) as [Hin Hmax]. split.
      * destruct (Z.max_spec n k) as [[_ ->]|[_ ->]]; auto.
      * intros s [[= ->]|Hs]; [lia|]. specialize (Hmax s Hs). lia.
    + injection H as <-. split; [now left|].
      intros s [[= ->]|Hs]; [lia|]. exfalso. exact (highest_serial_none l E s Hs).
  - destruct (IH m H) as [Hin Hmax]. split; [now right|].
    intros s [E|Hs]; [discriminate|]. now apply Hmax.
Qed.

(** Property X19.  With a positive default, the allocator that scans
    the collection leaves the database unchanged and returns a number
    greater than every serial number present; the number is the default
    or the successor of a serial number present, and it is the default
    when no document has a serial number. *)
Theorem next_serial_number_is_unused (collection_name : string) (default_start : Z)
    (db : DB) :
  0 < default_start ->
  exists v,
    get_next_serial_number collection_name default_start db = (db, Ok v)
    /\ (forall s, In (Some s) (serial_numbers db collection_name) -> s < v)
    /\ (v = default_start \/ In (Some (v - 1)) (serial_numbers db collection_name))
    /\ ((forall s, ~ In (Some s) (serial_numbers db collection_name)) -> v = default_start).
Proof.
  intros Hd. rewrite get_next_serial_number_run. eexists. split; [reflexivity|].
  unfold next_serial.
  destruct (highest_serial (serial_numbers db collection_name)) as [m|] eqn:E.
  - destruct (highest_serial_max _ _ E) as [Hin Hmax].
    destruct (m =? 0) eqn:E0.
    + apply Z.eqb_eq in E0. subst m. split; [|split; [now left|reflexivity]].
      intros s Hs. specialize (Hmax s Hs). lia.
    + split; [|split].
      * intros s Hs. specialize (Hmax s Hs). lia.
      * right. now replace (m + 1 - 1) with m by lia.
      * intros Hnone. exfalso. exact (Hnone m Hin).
  - split; [|split; [now left|reflexivity]].
    intros s Hs. exfalso. exact (highest_serial_none _ E s Hs).
Qed.

Lemma next_serial_number_is_unused_witness :
  let db := mkDB [] [] [] [] [] [] [] (fun _ => [Some 5; None; Some 7; Some 6]) 0 in
  exists v,
    get_next_serial_number "orders" 1 db = (db, Ok v)
    /\ (forall s, In (Some s) (serial_numbers db "orders") -> s < v)
    /\ (v = 1 \/ In (Some (v - 1)) (serial_numbers db "orders"))
    /\ ((forall s, ~ In (Some s) (serial_numbers db "orders")) -> v = 1).
Proof.
  apply (next_serial_number_is_unused "orders" 1
           (mkDB [] [] [] [] [] [] [] (fun _ => [Some 5; None; Some 7; Some 6]) 0)).
  lia.
Defined.

(** ** The allocator that keeps a counter *)

Lemma lookup_other_update_one (entity_type other : string) (v : Z)
    (l : list (string * Z)) :
  other <> entity_type ->
  Shadowed.lookup_counter other
    (update_one (Shadowed.key entity_type) (fun c => (fst c, v)) l)
  = Shadowed.lookup_counter other l.
Proof.
  intros Hne. unfold Shadowed.lookup_counter, find_one.
  induction l as [|c l IH]; cbn [update_one find]; [reflexivity|].
  destruct (Shadowed.key entity_type c) eqn:E.
  - cbn [find]. unfold Shadowed.key in *. cbn [fst].
    apply String.eqb_eq in E. rewrite E.
    destruct (String.eqb entity_type other) eqn:E'; [|reflexivity].
    apply String.eqb_eq in E'. congruence.
  - cbn [find]. destruct (Shadowed.key other c); [reflexivity|exact IH].
Qed.

Lemma lookup_other_upsert_one (entity_type other : string) (v : Z)
    (l : list (string * Z)) :
  other <> entity_type ->
  Shadowed.lookup_counter other
    (upsert_one (Shadowed.key entity_type) (fun c => (fst c, v)) (entity_type, v) l)
  = Shadowed.lookup_counter other l.
Proof.
  intros Hne. unfold upsert_one. destruct (existsb _ l).
  - now apply lookup_other_update_one.
  - unfold Shadowed.lookup_counter, find_one.
    induction l as [|c l IH]; cbn [app find].
    + unfold Shadowed.key. cbn [fst].
      destruct (String.eqb entity_type other) eqn:E'; [|reflexivity].
      apply String.eqb_eq in E'. congruence.
    + destruct (Shadowed.key other c); [reflexivity|exact IH].
Qed.

(** Property X20.  A call of the counter-based allocator returns a
    number that is at least start_from and leaves that number in the
    counter of the entity type; the counters of the other entity types,
    the invoices and the payments are unchanged. *)
Theorem counter_allocator_call (entity_type : string) (start_from : Z) (db : DB) :
  let c := Shadowed.get_next_serial_number entity_type start_from in
  exists v,
    outcome c db = Ok v
    /\ start_from <= v
    /\ Shadowed.lookup_counter entity_type (counters (exec c db)) = Some v
    /\ (forall other, other <> entity_type ->
          Shadowed.lookup_counter other (counters (exec c db))
          = Shadowed.lookup_counter other (counters db))
    /\ invoices (exec c db) = invoices db
    /\ payments (exec c db) = payments db.
Proof.
  intros c. subst c.
  destruct (shadowed_call entity_type start_from db) as [Ho Hl].
  eexists. split; [exact Ho|]. split; [|split; [exact Hl|]].
  - destruct (Shadowed.lookup_counter entity_type (counters db)) as [n|].
    + destruct (n + 1 =? 1); [lia|]. destruct (n + 1 <? start_from) eqn:E; [lia|].
      apply Z.ltb_ge in E. lia.
    + cbn. lia.
  - unfold exec, Shadowed.get_next_serial_number, Shadowed.find_one_and_update_inc,
      Shadowed.set_seq.
    run_handler.
    set (seq := match Shadowed.lookup_counter entity_type (counters db) with
                | Some n => n + 1
                | None => 1
                end).
    destruct (seq =? 1); [|destruct (seq <? start_from)]; cbn;
      (split; [|split; reflexivity]); intros other Hne;
      rewrite ?lookup_other_update_one by exact Hne;
      now apply lookup_other_upsert_one.
Qed.

(** Property X21.  Two calls in sequence of the counter-based
    allocator for one entity type, with a first starting value of at
    least 1 and a counter that is absent or at least 1, return strictly
    increasing numbers, the first being the starting value when the
    counter was absent. *)
Theorem counter_allocator_strictly_increasing (entity_type : string) (s1 s2 : Z) (db : DB) :
  1 <= s1 ->
  (forall n, Shadowed.lookup_counter entity_type (counters db) = Some n -> 1 <= n) ->
  exists a b,
    outcome (Shadowed.get_next_serial_number entity_type s1) db = Ok a
    /\ outcome (Shadowed.get_next_serial_number entity_type s2)
         (exec (Shadowed.get_next_serial_number entity_type s1) db) = Ok b
    /\ a < b
    /\ (Shadowed.lookup_counter entity_type (counters db) = None -> a = s1).
Proof. apply shadowed_strictly_increasing. Qed.

Lemma counter_allocator_strictly_increasing_witness :
  let db := set_counters [("orders", 41)] empty_db in
  exists a b,
    outcome (Shadowed.get_next_serial_number "orders" 1) db = Ok a
    /\ outcome (Shadowed.get_next_serial_number "orders" 1)
         (exec (Shadowed.get_next_serial_number "orders" 1) db) = Ok b
    /\ a < b
    /\ (Shadowed.lookup_counter "orders" (counters db) = None -> a = 1).
Proof.
  apply (counter_allocator_strictly_increasing "orders" 1 1
           (set_counters [("orders", 41)] empty_db)).
  - lia.
  - intros n H. cbn in H. injection H as <-. lia.
Defined.

(** ** The stored credit score *)

Section Upsert.

Context {A : Type} (p : A -> bool) (r : A).
Hypothesis p_r : p r = true.

Lemma update_one_const_twice (l : list A) :
  update_one p (fun _ => r) (update_one p (fun _ => r) l) = update_one p (fun _ => r) l.
Proof.
  induction l as [|x l IH]; cbn [update_one]; [reflexivity|].
  destruct (p x) eqn:E; cbn [update_one].
  - now rewrite p_r.
  - now rewrite E, IH.
Qed.

Lemma existsb_update_one_const (l : list A) :
  existsb p (update_one p (fun _ => r) l) = existsb p l.
Proof.
  induction l as [|x l IH]; cbn [update_one existsb]; [reflexivity|].
  destruct (p x) eqn:E; cbn [existsb].
  - now rewrite p_r.
  - now rewrite E, IH.
Qed.

Lemma update_one_fresh (l : list A) :
  existsb p l = false -> update_one p (fun _ => r) (l ++ [r]) = l ++ [r].
Proof.
  induction l as [|x l IH]; cbn [existsb app update_one]; intros H.
  - now rewrite p_r.
  - apply orb_false_iff in H. destruct H as [E H]. now rewrite E, IH.
Qed.

Lemma upsert_one_twice (l : list A) :
  upsert_one p (fun _ => r) r (upsert_one p (fun _ => r) r l)
  = upsert_one p (fun _ => r) r l.
Proof.
  unfold upsert_one. destruct (existsb p l) eqn:E.
  - now rewrite existsb_update_one_const, E, update_one_const_twice.
  - rewrite existsb_app. cbn [existsb]. rewrite p_r, orb_true_r.
    now apply update_one_fresh.
Qed.

Lemma find_upsert_one (l : list A) :
  find_one p (upsert_one p (fun _ => r) r l) = Some r.
Proof.
  unfold upsert_one, find_one. destruct (existsb p l) eqn:E.
  - induction l as [|x l IH]; cbn [update_one find existsb] in *; [discriminate|].
    destruct (p x) eqn:Ex; cbn [find].
    + now rewrite p_r.
    + rewrite Ex. now apply IH.
  - induction l as [|x l IH]; cbn [app find].
    + now rewrite p_r.
    + cbn [existsb] in E. apply orb_false_iff in E. destruct E as [Ex E].
      rewrite Ex. now apply IH.
Qed.

Lemma find_other_upsert_one (q : A -> bool) (l : list A) :
  q r = false -> (forall x, p x = true -> q x = false) ->
  find_one q (upsert_one p (fun _ => r) r l) = find_one q l.
Proof.
  intros Hr Hpq. unfold upsert_one, find_one. destruct (existsb p l).
  - induction l as [|x l IH]; cbn [update_one find]; [reflexivity|].
    destruct (p x) eqn:Ex; cbn [find].
    + now rewrite Hr, (Hpq x Ex).
    + destruct (q x); [reflexivity|exact IH].
  - induction l as [|x l IH]; cbn [app find].
    + now rewrite Hr.
    + destruct (q x); [reflexivity|exact IH].
Qed.

End Upsert.

(** The scorer for a caller whose role it accepts. *)
Lemma get_clinic_credit_score_run (clinic_id : string) (current_user : User.t)
    (now : Datetime.t) (db : DB) :
  In (User.role current_user) ["super_admin"; "accountant"; "admin"] ->
  let l := firstn 1000 (filter (fun x => String.eqb (Installment.clinic_id x) clinic_id)
                               (installments db)) in
  let t := fold_left (tally_step now) l (mkTally 0 0 0 0) in
  let score := Z.max 0 (Z.min 100
                 (100 - overdue t * 5 - total_overdue_days t / 7 - paid_late t * 2
                  + Z.min (paid_on_time t * 2) 20)) in
  let record := ClinicCreditScore.mk clinic_id score (rating_of score)
                  (Z.of_nat (List.length l)) (paid_on_time t) (paid_late t) (overdue t) in
  get_clinic_credit_score clinic_id current_user now db
  = match l with
    | [] => (db, Ok (mkResponse clinic_id 100 "A" None))
    | _ :: _ =>
        (set_clinic_credit_scores
           (upsert_one (fun x => String.eqb (ClinicCreditScore.clinic_id x) clinic_id)
              (fun _ => record) record (clinic_credit_scores db)) db,
         Ok (mkResponse clinic_id score (rating_of score) (Some t)))
    end.
Proof.
  intros Hrole l t score record. subst record score t l.
  assert (Hr : existsb (String.eqb (User.role current_user))
                 ["super_admin"; "accountant"; "admin"] = true).
  { apply existsb_exists. exists (User.role current_user). split; [exact Hrole|].
    apply String.eqb_refl. }
  unfold get_clinic_credit_score. rewrite Hr. cbn [negb]. run_handler.
  destruct (firstn 1000 _); reflexivity.
Qed.

(** Property X22.  [get_clinic_credit_score] leaves the database
    unchanged when the caller has none of the accepted roles (it raises
    403) and when the clinic has no installment (it returns 100 and
    rating A without storing a score). *)
Theorem credit_score_without_history_stores_nothing (clinic_id : string)
    (current_user : User.t) (now : Datetime.t) (db : DB) :
  let c := get_clinic_credit_score clinic_id current_user now in
  ~ In (User.role current_user) ["super_admin"; "accountant"; "admin"]
  \/ (forall x, In x (installments db) -> Installment.clinic_id x <> clinic_id) ->
  exec c db = db
  /\ outcome c db
     = if existsb (String.eqb (User.role current_user)) ["super_admin"; "accountant"; "admin"]
       then Ok (mkResponse clinic_id 100 "A" None)
       else Raised (HTTPException 403 "forbidden").
Proof.
  intros c H. subst c. unfold exec, outcome.
  destruct (existsb (String.eqb (User.role current_user))
              ["super_admin"; "accountant"; "admin"]) eqn:Hr.
  - apply existsb_exists in Hr. destruct Hr as (role & Hin & Heq).
    apply String.eqb_eq in Heq. subst role.
    destruct H as [H|H]; [contradiction|].
    rewrite (get_clinic_credit_score_run clinic_id current_user now db Hin).
    assert (Hnone : filter (fun x => String.eqb (Installment.clinic_id x) clinic_id)
                      (installments db) = []).
    { induction (installments db) as [|x l IH]; [reflexivity|]. cbn [filter].
      destruct (String.eqb (Installment.clinic_id x) clinic_id) eqn:E.
      - apply String.eqb_eq in E. exfalso. exact (H x (or_introl eq_refl) E).
      - apply IH. intros y Hy. apply H. now right. }
    rewrite Hnone. cbn. split; reflexivity.
  - unfold get_clinic_credit_score. rewrite Hr. cbn. split; reflexivity.
Qed.

Lemma credit_score_without_history_stores_nothing_witness :
  let c := get_clinic_credit_score "clinic-2" Sample.accountant
             (Datetime.mk 2024 3 31 0 (Some 0)) in
  exec c Sample.ledger = Sample.ledger
  /\ outcome c Sample.ledger = Ok (mkResponse "clinic-2" 100 "A" None).
Proof.
  apply (credit_score_without_history_stores_nothing "clinic-2" Sample.accountant
           (Datetime.mk 2024 3 31 0 (Some 0)) Sample.ledger).
  right. intros x Hx. cbn in Hx. destruct Hx as [<-|[<-|[]]]; discriminate.
Defined.

(** Property X23.  For an accepted role and a clinic with at least
    one installment, [get_clinic_credit_score] stores what it returns:
    the first record of the clinic in clinic_credit_scores holds the
    returned score, rating and counts, with a total between 1 and 1000;
    the records of other clinics and the ledger collections are
    unchanged; calling again with the same clock returns the same
    response and leaves the database as the first call left it. *)
Theorem credit_score_is_stored_once (clinic_id : string) (current_user : User.t)
    (now : Datetime.t) (db : DB) :
  let c := get_clinic_credit_score clinic_id current_user now in
  let of_clinic := fun k x => String.eqb (ClinicCreditScore.clinic_id x) k in
  In (User.role current_user) ["super_admin"; "accountant"; "admin"] ->
  (exists x, In x (installments db) /\ Installment.clinic_id x = clinic_id) ->
  exists response t,
    outcome c db = Ok response
    /\ resp_details response = Some t
    /\ (exists total,
          find_one (of_clinic clinic_id) (clinic_credit_scores (exec c db))
          = Some (ClinicCreditScore.mk clinic_id (resp_credit_score response)
                    (resp_rating response) total (paid_on_time t) (paid_late t)
                    (overdue t))
          /\ 1 <= total <= 1000)
    /\ (forall other, other <> clinic_id ->
          find_one (of_clinic other) (clinic_credit_scores (exec c db))
          = find_one (of_clinic other) (clinic_credit_scores db))
    /\ installments (exec c db) = installments db
    /\ invoices (exec c db) = invoices db
    /\ payments (exec c db) = payments db
    /\ audit_logs (exec c db) = audit_logs db
    /\ exec c (exec c db) = exec c db
    /\ outcome c (exec c db) = Ok response.
Proof.
  intros c of_clinic Hrole (x & Hx & Hc). subst c of_clinic. unfold exec, outcome.
  rewrite (get_clinic_credit_score_run clinic_id current_user now db Hrole).
  set (p := fun y => String.eqb (Installment.clinic_id y) clinic_id).
  assert (Hne : filter p (installments db) <> []).
  { intros E. assert (Hin : In x (filter p (installments db))).
    { apply filter_In. split; [exact Hx|]. unfold p. rewrite Hc. apply String.eqb_refl. }
    rewrite E in Hin. exact Hin. }
  destruct (firstn 1000 (filter p (installments db))) as [|y l] eqn:El.
  { destruct (filter p (installments db)); [congruence|discriminate]. }
  assert (Hlen : (1 <= List.length (y :: l) <= 1000)%nat).
  { rewrite <- El. rewrite length_firstn. cbn [List.length]. split; [|lia].
    destruct (filter p (installments db)); [congruence|]. cbn [List.length]. lia. }
  set (t := fold_left (tally_step now) (y :: l) (mkTally 0 0 0 0)) in *.
  set (score := Z.max 0 _). set (record := ClinicCreditScore.mk _ _ _ _ _ _ _).
  set (q := fun z => String.eqb (ClinicCreditScore.clinic_id z) clinic_id).
  assert (Hq : q record = true) by (unfold q, record; cbn; apply String.eqb_refl).
  cbn [fst snd]. eexists _, t. split; [reflexivity|]. cbn [resp_details].
  split; [reflexivity|]. split.
  { exists (Z.of_nat (List.length (y :: l))). split; [|lia].
    cbn [clinic_credit_scores set_clinic_credit_scores resp_credit_score resp_rating].
    apply (find_upsert_one q record Hq). }
  split.
  { intros other Hne'. cbn [clinic_credit_scores set_clinic_credit_scores].
    apply (find_other_upsert_one q record).
    - unfold record. cbn. apply String.eqb_neq. congruence.
    - intros z Hz. unfold q in Hz. apply String.eqb_eq in Hz. rewrite Hz.
      apply String.eqb_neq. congruence. }
  split; [reflexivity|]. split; [reflexivity|]. split; [reflexivity|].
  split; [reflexivity|].
  rewrite (get_clinic_credit_score_run clinic_id current_user now _ Hrole).
  cbn [installments set_clinic_credit_scores clinic_credit_scores]. fold p. rewrite El.
  fold t. fold score. fold record. fold q. cbn [fst snd].
  rewrite (upsert_one_twice q record Hq). split; reflexivity.
Qed.

Lemma credit_score_is_stored_once_witness :
  let now := Datetime.mk 2024 3 31 0 (Some 0) in
  let db := Sample.history_db
              [Sample.overdue_installment (Some (Iso (Sample.jan31 2024)));
               Sample.paid_installment None] in
  let c := get_clinic_credit_score "clinic-1" Sample.accountant now in
  let of_clinic := fun k x => String.eqb (ClinicCreditScore.clinic_id x) k in
  exists response t,
    outcome c db = Ok response
    /\ resp_details response = Some t
    /\ (exists total,
          find_one (of_clinic "clinic-1") (clinic_credit_scores (exec c db))
          = Some (ClinicCreditScore.mk "clinic-1" (resp_credit_score response)
                    (resp_rating response) total (paid_on_time t) (paid_late t)
                    (overdue t))
          /\ 1 <= total <= 1000)
    /\ (forall other, other <> "clinic-1" ->
          find_one (of_clinic other) (clinic_credit_scores (exec c db))
          = find_one (of_clinic other) (clinic_credit_scores db))
    /\ installments (exec c db) = installments db
    /\ invoices (exec c db) = invoices db
    /\ payments (exec c db) = payments db
    /\ audit_logs (exec c db) = audit_logs db
    /\ exec c (exec c db) = exec c db
    /\ outcome c (exec c db) = Ok response.
Proof.
  apply (credit_score_is_stored_once "clinic-1" Sample.accountant
           (Datetime.mk 2024 3 31 0 (Some 0))
           (Sample.history_db
              [Sample.overdue_installment (Some (Iso (Sample.jan31 2024)));
               Sample.paid_installment None])).
  - simpl. right. left. reflexivity.
  - exists (Sample.paid_installment None). split; [|reflexivity].
    simpl. right. left. reflexivity.
Defined.

(** Property X24.  A clinic none of whose installments is overdue or
    paid after a reschedule scores 100 with rating A, whatever the
    number of its installments that are still unpaid. *)
Theorem credit_score_perfect_without_arrears (clinic_id : string) (current_user : User.t)
    (now : Datetime.t) (db : DB) :
  In (User.role current_user) ["super_admin"; "accountant"; "admin"] ->
  (forall x, In x (installments db) -> Installment.clinic_id x = clinic_id ->
     Installment.status x <> "overdue"
     /\ (Installment.status x = "paid" ->
         Py.truthy (Installment.rescheduled_from x) = false)) ->
  exists response,
    outcome (get_clinic_credit_score clinic_id current_user now) db = Ok response
    /\ resp_credit_score response = 100
    /\ resp_rating response = "A".
Proof.
  intros Hrole Hclean. unfold outcome.
  rewrite (get_clinic_credit_score_run clinic_id current_user now db Hrole).
  set (p := fun y => String.eqb (Installment.clinic_id y) clinic_id).
  assert (HF : Forall (fun x => Counted.is_overdue x = false /\ Counted.is_paid_late x = false)
                 (firstn 1000 (filter p (installments db)))).
  { apply Forall_forall. intros x Hx.
    assert (Hx' : In x (filter p (installments db))).
    { rewrite <- (firstn_skipn 1000). apply in_or_app. now left. }
    clear Hx. rename Hx' into Hx. apply filter_In in Hx.
    destruct Hx as [Hx Hp]. unfold p in Hp. apply String.eqb_eq in Hp.
    destruct (Hclean x Hx Hp) as [Ho Hpaid]. split.
    - unfold Counted.is_overdue. now apply String.eqb_neq.
    - unfold Counted.is_paid_late.
      destruct (String.eqb (Installment.status x) "paid") eqn:E; [|reflexivity].
      apply String.eqb_eq in E. now rewrite (Hpaid E). }
  destruct (firstn 1000 (filter p (installments db))) as [|y l].
  { eexists. split; [reflexivity|]. split; reflexivity. }
  rewrite tally_fold. cbn [paid_on_time paid_late overdue total_overdue_days snd].
  assert (H0 : Counted.count Counted.is_overdue (y :: l) = 0
               /\ Counted.count Counted.is_paid_late (y :: l) = 0
               /\ Counted.cumulative_days_overdue now (y :: l) = 0).
  { induction HF as [|x l' [Ho Hl] _ IH].
    - repeat split.
    - destruct IH as (I1 & I2 & I3). rewrite !count_cons, Ho, Hl, I1, I2.
      cbn [Counted.cumulative_days_overdue]. unfold Counted.days_overdue at 1. rewrite Ho, I3.
      repeat split. }
  destruct H0 as (-> & -> & ->).
  pose proof (Zle_0_nat (List.length (filter Counted.is_paid_on_time (y :: l)))) as Hpos.
  fold (Counted.count Counted.is_paid_on_time (y :: l)) in Hpos.
  set (k := Counted.count Counted.is_paid_on_time (y :: l)) in *.
  assert (Hs : Z.max 0 (Z.min 100 (100 - (0 + 0) * 5 - (0 + 0) / 7 - (0 + 0) * 2
                                   + Z.min ((0 + k) * 2) 20)) = 100).
  { change ((0 + 0) / 7) with 0. lia. }
  eexists. split; [reflexivity|]. cbn [resp_credit_score resp_rating].
  rewrite Hs. split; reflexivity.
Qed.

Lemma credit_score_perfect_without_arrears_witness :
  exists response,
    outcome (get_clinic_credit_score "clinic-1" Sample.accountant
               (Datetime.mk 2030 1 1 0 (Some 0))) Sample.ledger = Ok response
    /\ resp_credit_score response = 100
    /\ resp_rating response = "A".
Proof.
  apply (credit_score_perfect_without_arrears "clinic-1" Sample.accountant
           (Datetime.mk 2030 1 1 0 (Some 0)) Sample.ledger).
  - simpl. right. left. reflexivity.
  - intros x Hx _. cbn in Hx. destruct Hx as [<-|[<-|[]]]; split; discriminate.
Defined.

(** ** Approval *)

(** Property X25.  The invoice block of [approve_order] swallows the
    failure of [create_invoice_from_order]: for an order with a positive
    paid amount and a payment method it ends normally, having persisted
    an invoice for the order with no installment and no audit entry
    when the order has a serial number, and nothing at all when it has
    none. *)
Theorem approval_hides_invoice_failure (order : Order.t) (approver : User.t) (db : DB) :
  let c := auto_create_invoice order approver in
  (0 < fst (fst (initial_balances order)))%Qc ->
  Py.truthy (Order.payment_method order) = true ->
  outcome c db = Ok tt
  /\ match Order.serial_number order with
     | Some _ =>
         (exists invoice,
            invoices (exec c db) = invoices db ++ [invoice]
            /\ Invoice.order_id invoice = Order.id order)
         /\ installments (exec c db) = installments db
         /\ audit_logs (exec c db) = audit_logs db
     | None => same_collections db (exec c db)
     end.
Proof.
  intros c Hpaid Hm. subst c.
  destruct (Order.serial_number order) as [serial|] eqn:Hserial.
  - destruct (create_invoice_from_order_run order approver db serial Hserial)
      as (Hinv & _ & _ & Hup & _).
    apply ltb_lt in Hpaid.
    destruct Hup as (Hi & Ha & e & He).
    { unfold Py.gtb. now rewrite Hpaid, Hm. }
    unfold exec, outcome, auto_create_invoice, try_except, bind, ret in *.
    destruct (create_invoice_from_order order approver db) as [db' r].
    cbn [fst snd] in *. subst r. cbn [fst snd].
    split; [reflexivity|]. split; [eexists; split; [exact Hinv|reflexivity]|].
    split; assumption.
  - destruct (create_invoice_from_order_refused order approver db Hserial) as [He Hsame].
    unfold exec, outcome, auto_create_invoice, try_except, bind, ret in *.
    destruct (create_invoice_from_order order approver db) as [db' r].
    cbn [fst snd] in *. subst r. cbn [fst snd]. split; [reflexivity|exact Hsame].
Qed.

Lemma approval_hides_invoice_failure_witness :
  let c := auto_create_invoice (Sample.scenario_order (Some "cash") (Sample.jan31 2024))
             Sample.manager in
  outcome c empty_db = Ok tt
  /\ (exists invoice,
        invoices (exec c empty_db) = invoices empty_db ++ [invoice]
        /\ Invoice.order_id invoice = "order-1")
  /\ installments (exec c empty_db) = installments empty_db
  /\ audit_logs (exec c empty_db) = audit_logs empty_db.
Proof.
  apply (approval_hides_invoice_failure
           (Sample.scenario_order (Some "cash") (Sample.jan31 2024))
           Sample.manager empty_db).
  - reflexivity.
  - reflexivity.
Defined.

(** ** Orders *)

Lemma highest_serial_app (l : list (option Z)) (v : Z) :
  highest_serial (l ++ [Some v])
  = Some (match highest_serial l with Some m => Z.max m v | None => v end).
Proof.
  induction l as [|[n|] l IH]; cbn [app highest_serial].
  - reflexivity.
  - rewrite IH. destruct (highest_serial l) as [m|]; f_equal; lia.
  - exact IH.
Qed.

(** The subtotal is computed exactly when every entry is numeric. *)
Lemma sum_products_run (products : list OrderProduct.t) (acc : Qc) :
  (sum_products products acc = Raised TypeError /\ Exists not_numeric products)
  \/ ((exists subtotal, sum_products products acc = Ok subtotal)
      /\ Forall (fun p => ~ not_numeric p) products).
Proof.
  revert acc. induction products as [|p l IH]; intros acc; cbn [sum_products].
  - right. split; [eauto|constructor].
  - destruct (get_or_0 (OrderProduct.quantity p)) as [q|] eqn:Eq.
    + destruct (get_or_0 (OrderProduct.price p)) as [r|] eqn:Er.
      * destruct (IH (acc + q * r)%Qc) as [[-> HE]|[Hok HF]].
        -- left. split; [reflexivity|now right].
        -- right. split; [exact Hok|]. constructor; [|exact HF].
           unfold not_numeric. rewrite Eq, Er. intros [H|H]; discriminate.
      * left. split; [reflexivity|]. left. now right.
    + left. split; [reflexivity|]. left. now left.
Qed.

(** The checks that [create_order] makes on a demo order whose entries
    are numeric. *)
Lemma demo_checks_run (products : list OrderProduct.t) (db : DB) :
  let check := fun product =>
    match get_or_0 (OrderProduct.quantity product) with
    | Number quantity =>
        if Py.gtb quantity 1%Qc then
          raise (HTTPException 400 "Demo orders can only have 1 quantity per product")
        else ret tt
    | NotNumber => raise TypeError
    end in
  Forall (fun p => ~ not_numeric p) products ->
  (for_each products check db = (db, Ok tt)
   /\ Forall (fun p => ~ above_one p) products)
  \/ (for_each products check db
      = (db, Raised (HTTPException 400 "Demo orders can only have 1 quantity per product"))
      /\ Exists above_one products).
Proof.
  intros check HF. subst check. induction HF as [|p l Hp _ IH]; cbn [for_each].
  - left. split; [reflexivity|constructor].
  - unfold bind. cbn beta.
    destruct (get_or_0 (OrderProduct.quantity p)) as [q|] eqn:Eq.
    2:{ exfalso. apply Hp. now left. }
    destruct (Py.gtb q 1%Qc) eqn:E.
    + right. split; [reflexivity|]. left. exists q. split; [exact Eq|now apply ltb_lt].
    + change (ret tt db) with (db, Ok tt). cbv iota beta.
      destruct IH as [[-> HF']|[-> HE]].
      * left. split; [reflexivity|]. constructor; [|exact HF'].
        intros (q' & Eq' & Hq'). rewrite Eq in Eq'. injection Eq' as <-.
        apply ltb_nlt in E. exact (Qclt_not_le _ _ Hq' E).
      * right. split; [reflexivity|]. now right.
Qed.

(** Every run of [create_order]: a request refused with the database
    untouched, or an order stored under the number the allocator
    gives. *)
Lemma create_order_run (order_data : OrderCreate.t) (current_user : User.t) (db : DB) :
  let c := create_order order_data current_user in
  let products := OrderCreate.products order_data in
  let rejected :=
    Exists not_numeric products
    \/ (OrderCreate.order_type order_data = DEMO
        /\ (6 < Z.of_nat (List.length products) \/ Exists above_one products)) in
  (rejected
   /\ exists e, c db = (db, Raised e)
                /\ (Exists not_numeric products -> e = TypeError)
                /\ (~ Exists not_numeric products -> exists detail, e = HTTPException 400 detail))
  \/ (~ rejected
      /\ exists order,
           outcome c db = Ok order
           /\ Order.serial_number order = Some (next_serial db "orders" 1001)
           /\ Order.clinic_id order = OrderCreate.clinic_id order_data
           /\ Order.medical_rep_id order = User.id current_user
           /\ Order.payment_method order = OrderCreate.payment_method order_data
           /\ Order.amount_paid order = OrderCreate.amount_paid order_data
           /\ Order.first_due_date order = None
           /\ (0 <= Order.total_amount order)%Qc
           /\ (OrderCreate.order_type order_data = DEMO -> Order.total_amount order = 0%Qc)
           /\ serials (exec c db) "orders"
              = serials db "orders" ++ [Some (next_serial db "orders" 1001)]
           /\ (forall name, name <> "orders" -> serials (exec c db) name = serials db name)
           /\ invoices (exec c db) = invoices db
           /\ payments (exec c db) = payments db
           /\ installments (exec c db) = installments db
           /\ installment_schedules (exec c db) = installment_schedules db
           /\ audit_logs (exec c db) = audit_logs db).
Proof.
  intros c products rejected. subst c rejected. unfold exec, outcome.
  destruct (create_order order_data current_user db) as [db' r] eqn:E.
  unfold create_order in E. unfold bind at 1 in E.
  rewrite get_next_serial_number_run in E. fold products in E.
  unfold bind at 1 in E. unfold lift at 1 in E.
  destruct (sum_products_run products 0%Qc) as [[Hsum HE]|[[subtotal Hsum] HF]];
    rewrite Hsum in E.
  { left. split; [now left|]. injection E as <- <-. exists TypeError.
    split; [reflexivity|]. split; [reflexivity|]. intros H. contradiction. }
  assert (Hnum : ~ Exists not_numeric products).
  { intros H. apply Exists_exists in H. destruct H as (p & Hin & Hp).
    rewrite Forall_forall in HF. exact (HF p Hin Hp). }
  set (total := (_ - _)%Qc) in E. unfold bind at 1 in E.
  destruct (OrderCreate.order_type order_data) eqn:Ht.
  - right. split; [intros [H|[H _]]; [contradiction|discriminate]|].
    revert E. run_handler. intros [= <- <-]. cbn [fst snd]. eexists.
    split; [reflexivity|]. cbn [Order.serial_number Order.clinic_id Order.medical_rep_id
      Order.payment_method Order.amount_paid Order.first_due_date Order.total_amount
      serials set_serials].
    repeat (split; [reflexivity|]). split.
    { unfold Py.max. destruct (Py.gtb total 0%Qc) eqn:G; [|apply Qcle_refl].
      apply Qclt_le_weak. now apply ltb_lt. }
    split; [discriminate|]. split; [reflexivity|]. split.
    { intros name Hn. apply String.eqb_neq in Hn. now rewrite Hn. }
    repeat split.
  - destruct (Z.of_nat (List.length products) >? 6) eqn:E6.
    + left. split; [right; split; [reflexivity|left; lia]|].
      revert E. run_handler. intros [= <- <-]. eexists.
      split; [reflexivity|]. split; [intros H; contradiction|eauto].
    + unfold bind at 1 in E.
      destruct (demo_checks_run products db HF) as [[Hrun HF']|[Hrun HE]];
        cbv zeta in Hrun; rewrite Hrun in E.
      * right. split.
        { intros [H|[_ [H|H]]]; [contradiction|lia|]. apply Exists_exists in H.
          destruct H as (p & Hin & Hp). rewrite Forall_forall in HF'.
          exact (HF' p Hin Hp). }
        revert E. run_handler. intros [= <- <-]. cbn [fst snd]. eexists.
        split; [reflexivity|]. cbn [Order.serial_number Order.clinic_id
          Order.medical_rep_id Order.payment_method Order.amount_paid
          Order.first_due_date Order.total_amount serials set_serials].
        repeat (split; [reflexivity|]). split; [apply Qcle_refl|].
        split; [reflexivity|]. split; [reflexivity|]. split.
        { intros name Hn. apply String.eqb_neq in Hn. now rewrite Hn. }
        repeat split.
      * left. split; [right; split; [reflexivity|now right]|].
        injection E as <- <-. eexists.
        split; [reflexivity|]. split; [intros H; contradiction|eauto].
Qed.


(** Property X27.  Two orders created one after the other get strictly
    increasing serial numbers, and the number of an order is greater
    than every serial number already in the orders collection: the
    allocator that scans the collection does not repeat a number once
    the document that carries it is stored. *)
Theorem create_order_serials_increase (first_data second_data : OrderCreate.t)
    (first_user second_user : User.t) (db : DB) (first second : Order.t) :
  let c1 := create_order first_data first_user in
  let c2 := create_order second_data second_user in
  outcome c1 db = Ok first ->
  outcome c2 (exec c1 db) = Ok second ->
  exists a b,
    Order.serial_number first = Some a
    /\ Order.serial_number second = Some b
    /\ a < b
    /\ (forall s, In (Some s) (serials db "orders") -> s < a).
Proof.
  intros c1 c2 H1 H2. subst c1 c2.
  destruct (create_order_run first_data first_user db)
    as [(_ & e0 & Hr & _)|(_ & o1 & Hok1 & Hs1 & _ & _ & _ & _ & _ & _ & _ & Hser & _)].
  { unfold outcome in H1. rewrite Hr in H1. discriminate. }
  rewrite H1 in Hok1. injection Hok1 as <-.
  destruct (create_order_run second_data second_user
              (exec (create_order first_data first_user) db))
    as [(_ & e0 & Hr & _)|(_ & o2 & Hok2 & Hs2 & _)].
  { unfold outcome in H2. rewrite Hr in H2. discriminate. }
  rewrite H2 in Hok2. injection Hok2 as <-.
  eexists _, _. split; [exact Hs1|]. split; [exact Hs2|].
  set (v := next_serial db "orders" 1001) in *.
  assert (Hfresh : forall s, In (Some s) (serials db "orders") -> s < v).
  { subst v. unfold next_serial, serial_numbers. cbn [String.eqb Ascii.eqb Bool.eqb].
    destruct (highest_serial (serials db "orders")) as [m|] eqn:E.
    - destruct (highest_serial_max _ _ E) as [_ Hmax]. intros s Hs.
      specialize (Hmax s Hs). destruct (m =? 0) eqn:E0; [apply Z.eqb_eq in E0|]; lia.
    - intros s Hs. exfalso. exact (highest_serial_none _ E s Hs). }
  split; [|exact Hfresh].
  unfold next_serial at 1, serial_numbers. cbn [String.eqb Ascii.eqb Bool.eqb].
  rewrite Hser, highest_serial_app.
  assert (Hmax : match highest_serial (serials db "orders") with
                 | Some m => Z.max m v
                 | None => v
                 end = v).
  { destruct (highest_serial (serials db "orders")) as [m|] eqn:E; [|reflexivity].
    destruct (highest_serial_max _ _ E) as [Hin _]. specialize (Hfresh m Hin). lia. }
  rewrite Hmax. destruct (v =? 0) eqn:E0.
  - apply Z.eqb_eq in E0. lia.
  - lia.
Qed.

Lemma create_order_serials_increase_witness :
  let first := Order.mk "uuid-0" (Some 1001) "clinic-1" "rep-1" (Py.of_Z 300) "unpaid"
                 None None "monthly" 3 30 3 None in
  let second := Order.mk "uuid-1" (Some 1002) "clinic-1" "rep-1" (Py.of_Z 300) "unpaid"
                  None None "monthly" 3 30 3 None in
  exists a b,
    Order.serial_number first = Some a
    /\ Order.serial_number second = Some b
    /\ a < b
    /\ (forall s, In (Some s) (serials empty_db "orders") -> s < a).
Proof.
  apply (create_order_serials_increase
           (OrderCreate.mk "clinic-1" REGULAR
              [OrderProduct.mk (Some (Number (Py.of_Z 2))) (Some (Number (Py.of_Z 150)))]
              None None (Some "unpaid") None None
              (Some "monthly") (Some 2) (Some 30) (Some (Iso (Sample.jan31 2024)))
              (Some 3))
           (OrderCreate.mk "clinic-1" REGULAR
              [OrderProduct.mk (Some (Number (Py.of_Z 2))) (Some (Number (Py.of_Z 150)))]
              None None (Some "unpaid") None None
              (Some "monthly") (Some 2) (Some 30) (Some (Iso (Sample.jan31 2024)))
              (Some 3))
           (User.mk "rep-1" "medical_rep") (User.mk "rep-1" "medical_rep") empty_db).
  - reflexivity.
  - reflexivity.
Defined.

(** Invoice creation on an order without a first due date writes no
    schedule and no installment. *)
Lemma create_invoice_without_due_date (order : Order.t) (approver : User.t) (db : DB) :
  Order.first_due_date order = None ->
  installment_schedules (exec (create_invoice_from_order order approver) db)
  = installment_schedules db
  /\ installments (exec (create_invoice_from_order order approver) db) = installments db.
Proof.
  intros Hd. destruct (Order.serial_number order) as [serial|] eqn:Hserial.
  2:{ destruct (create_invoice_from_order_refused order approver db Hserial)
        as (_ & _ & _ & Hs & Hi & _). now split. }
  unfold exec.
  destruct (create_invoice_from_order order approver db) as [db' r] eqn:E.
  unfold create_invoice_from_order in E.
  unfold bind at 1 in E. rewrite get_next_serial_number_run, next_invoice_number in E.
  destruct (initial_balances order) as [[paid rem] st].
  unfold bind at 1 in E. unfold uuid4 at 1 in E. unfold bind at 1 in E.
  rewrite Hserial in E. unfold required_int, lift in E. unfold bind at 1 in E.
  unfold get at 1 in E. unfold bind at 1 in E. unfold modify at 1 in E.
  unfold bind at 1 in E. unfold record_upfront_payment in E.
  destruct (Py.gtb paid 0%Qc && Py.truthy (Order.payment_method order)).
  - revert E. run_handler. rewrite get_next_serial_number_run. run_handler.
    destruct (PaymentMethod_validate _) as [m|e]; cbn; intros [= <- <-]; split; reflexivity.
  - revert E. unfold generate_schedule. rewrite Hd. cbn [iso_truthy andb].
    run_handler. cbn. intros [= <- <-]. split; reflexivity.
Qed.

(** Property X28.  The order that [create_order] stores has a serial
    number, no first due date, whatever the request says, and a total
    that is not negative; so [create_invoice_from_order] on it appends
    one invoice, with paid_amount <= total_amount and remaining_amount
    >= 0, and no schedule and no installment. *)
Theorem created_order_gets_no_installments (order_data : OrderCreate.t)
    (current_user approver : User.t) (db db' : DB) (order : Order.t) :
  outcome (create_order order_data current_user) db = Ok order ->
  (exists serial, Order.serial_number order = Some serial)
  /\ Order.first_due_date order = None
  /\ (0 <= Order.total_amount order)%Qc
  /\ installment_schedules (exec (create_invoice_from_order order approver) db')
     = installment_schedules db'
  /\ installments (exec (create_invoice_from_order order approver) db') = installments db'
  /\ exists invoice,
       invoices (exec (create_invoice_from_order order approver) db')
       = invoices db' ++ [invoice]
       /\ (Invoice.paid_amount invoice <= Invoice.total_amount invoice)%Qc
       /\ (0 <= Invoice.remaining_amount invoice)%Qc.
Proof.
  intros Hok.
  destruct (create_order_run order_data current_user db)
    as [(_ & e0 & Hr & _)|(_ & o & Ho & Hserial & _ & _ & _ & _ & Hd & Ht & _)].
  { unfold outcome in Hok. rewrite Hr in Hok. discriminate. }
  rewrite Hok in Ho. injection Ho as <-.
  split; [eauto|]. split; [exact Hd|]. split; [exact Ht|].
  destruct (create_invoice_without_due_date order approver db' Hd) as [Hs Hi].
  split; [exact Hs|]. split; [exact Hi|].
  destruct (create_invoice_from_order_run order approver db' _ Hserial) as (Hinv & _).
  eexists. split; [exact Hinv|].
  cbn [Invoice.paid_amount Invoice.remaining_amount Invoice.total_amount].
  now apply initial_balances_bounds.
Qed.

Lemma created_order_gets_no_installments_witness :
  let order := Order.mk "uuid-0" (Some 1001) "clinic-1" "rep-1" (Py.of_Z 300) "unpaid"
                 None None "monthly" 3 30 3 None in
  let c := create_invoice_from_order order Sample.manager in
  (exists serial, Order.serial_number order = Some serial)
  /\ Order.first_due_date order = None
  /\ (0 <= Order.total_amount order)%Qc
  /\ installment_schedules (exec c empty_db) = installment_schedules empty_db
  /\ installments (exec c empty_db) = installments empty_db
  /\ exists invoice,
       invoices (exec c empty_db) = invoices empty_db ++ [invoice]
       /\ (Invoice.paid_amount invoice <= Invoice.total_amount invoice)%Qc
       /\ (0 <= Invoice.remaining_amount invoice)%Qc.
Proof.
  apply (created_order_gets_no_installments
           (OrderCreate.mk "clinic-1" REGULAR
              [OrderProduct.mk (Some (Number (Py.of_Z 2))) (Some (Number (Py.of_Z 150)))]
              None None (Some "unpaid") None None
              (Some "monthly") (Some 2) (Some 30) (Some (Iso (Sample.jan31 2024)))
              (Some 3))
           (User.mk "rep-1" "medical_rep") Sample.manager empty_db empty_db).
  reflexivity.
Defined.

(** ** Migration of the serial numbers *)

Lemma assign_serials_spec (l : list (option Z)) (next updated : Z) :
  let r := fst (assign_serials l next updated) in
  List.length r = List.length l
  /\ snd (assign_serials l next updated)
     = updated + Z.of_nat (List.length (filter (fun s => match s with
                                                         | None => true
                                                         | Some _ => false
                                                         end) l))
  /\ Forall (fun s => s <> None) r
  /\ (forall i n, nth_error l i = Some (Some n) -> nth_error r i = Some (Some n))
  /\ (forall i, nth_error l i = Some None ->
        exists n, nth_error r i = Some (Some n) /\ next <= n)
  /\ (forall m, In (Some m) r -> In (Some m) l \/ next <= m).
Proof.
  revert next updated. induction l as [|[n|] l IH]; intros next updated; cbn [assign_serials].
  - cbn. repeat split; try constructor; try lia;
      try (intros [|i]; discriminate); try (intros m []).
  - specialize (IH next updated).
    destruct (assign_serials l next updated) as [r u]. cbn [fst snd filter List.length] in *.
    destruct IH as (Hl & Hu & HF & Hk & Hn & Hin).
    split; [now f_equal|]. split; [exact Hu|]. split; [constructor; [discriminate|exact HF]|].
    split; [|split].
    + intros [|i] k H; cbn [nth_error] in *; [exact H|now apply Hk].
    + intros [|i] H; cbn [nth_error] in *; [discriminate|now apply Hn].
    + intros m [[= ->]|H]; [left; now left|].
      destruct (Hin m H) as [H'|H']; [left; now right|now right].
  - specialize (IH (next + 1) (updated + 1)).
    destruct (assign_serials l (next + 1) (updated + 1)) as [r u].
    cbn [fst snd filter List.length] in *.
    destruct IH as (Hl & Hu & HF & Hk & Hn & Hin).
    split; [now f_equal|]. split; [rewrite Hu; lia|].
    split; [constructor; [discriminate|exact HF]|]. split; [|split].
    + intros [|i] k H; cbn [nth_error] in *; [discriminate|now apply Hk].
    + intros [|i] H; cbn [nth_error] in *.
      * exists next. split; [reflexivity|lia].
      * destruct (Hn i H) as (k & Hk' & Hle). exists k. split; [exact Hk'|lia].
    + intros m [[= <-]|H]; [right; lia|].
      destruct (Hin m H) as [H'|H']; [left; now right|right; lia].
Qed.

Lemma assign_serials_nodup (l : list (option Z)) (next updated : Z) :
  (forall m, In (Some m) l -> m < next) ->
  NoDup (filter (fun s => match s with Some _ => true | None => false end) l) ->
  NoDup (fst (assign_serials l next updated)).
Proof.
  revert next updated. induction l as [|[n|] l IH]; intros next updated Hlt Hnd;
    cbn [assign_serials].
  - constructor.
  - pose proof (assign_serials_spec l next updated) as (_ & _ & _ & _ & _ & Hin).
    specialize (IH next updated).
    destruct (assign_serials l next updated) as [r u]. cbn [fst snd filter] in *.
    inversion Hnd as [|? ? Hnot Hnd']; subst. constructor.
    + intros H. destruct (Hin n H) as [H'|H'].
      * apply Hnot. apply filter_In. split; [exact H'|reflexivity].
      * specialize (Hlt n (or_introl eq_refl)). lia.
    + apply IH; [|exact Hnd']. intros m Hm. apply Hlt. now right.
  - pose proof (assign_serials_spec l (next + 1) (updated + 1)) as (_ & _ & _ & _ & _ & Hin).
    specialize (IH (next + 1) (updated + 1)).
    destruct (assign_serials l (next + 1) (updated + 1)) as [r u]. cbn [fst snd filter] in *.
    constructor.
    + intros H. destruct (Hin next H) as [H'|H']; [|lia].
      specialize (Hlt next (or_intror H')). lia.
    + apply IH; [|exact Hnd]. intros m Hm. specialize (Hlt m (or_intror Hm)). lia.
Qed.

Lemma assign_serials_complete (l : list (option Z)) (next updated : Z) :
  Forall (fun s => s <> None) l -> assign_serials l next updated = (l, updated).
Proof.
  induction 1 as [|[n|] l Hs _ IH]; cbn [assign_serials].
  - reflexivity.
  - now rewrite IH.
  - contradiction.
Qed.

Lemma next_after_highest (l : list (option Z)) (base : Z) :
  forall m, In (Some m) l ->
    m < match highest_serial l with Some n => n | None => base end + 1.
Proof.
  intros m Hm. destruct (highest_serial l) as [n|] eqn:E.
  - destruct (highest_serial_max _ _ E) as [_ Hmax]. specialize (Hmax m Hm). lia.
  - exfalso. exact (highest_serial_none _ E m Hm).
Qed.

(** The two collections after the migration. *)
Lemma migrate_serial_numbers_run (db : DB) :
  let next := fun name base =>
    match highest_serial (serials db name) with Some n => n | None => base end + 1 in
  let orders := assign_serials (serials db "orders") (next "orders" 1000) 0 in
  let visits := assign_serials (serials db "visits") (next "visits" 5004) 0 in
  outcome migrate_serial_numbers db = Ok (snd orders, snd visits)
  /\ serials (exec migrate_serial_numbers db) "orders" = fst orders
  /\ serials (exec migrate_serial_numbers db) "visits" = fst visits
  /\ (forall name, ~ In name ["orders"; "visits"] ->
        serials (exec migrate_serial_numbers db) name = serials db name)
  /\ invoices (exec migrate_serial_numbers db) = invoices db
  /\ payments (exec migrate_serial_numbers db) = payments db
  /\ installments (exec migrate_serial_numbers db) = installments db
  /\ installment_schedules (exec migrate_serial_numbers db) = installment_schedules db
  /\ audit_logs (exec migrate_serial_numbers db) = audit_logs db
  /\ counters (exec migrate_serial_numbers db) = counters db.
Proof.
  intros next orders visits. subst next orders visits.
  unfold exec, outcome, migrate_serial_numbers. run_handler.
  destruct (assign_serials (serials db "orders") _ 0) as [o ou].
  cbn [serials set_serials String.eqb Ascii.eqb Bool.eqb fst snd].
  destruct (assign_serials (serials db "visits") _ 0) as [v vu].
  cbn [serials set_serials String.eqb Ascii.eqb Bool.eqb fst snd].
  repeat split.
  intros name Hn. cbn [In] in Hn.
  destruct (String.eqb name "visits") eqn:E1.
  { apply String.eqb_eq in E1. subst name. exfalso. apply Hn. right. now left. }
  destruct (String.eqb name "orders") eqn:E2.
  { apply String.eqb_eq in E2. subst name. exfalso. apply Hn. now left. }
  reflexivity.
Qed.

(** Property X29.  After [migrate_serial_numbers], in orders and in
    visits, every document has a serial number; a document that had one
    keeps it; a document that had none gets one greater than every
    serial number the collection had; and when the serial numbers the
    collection had were pairwise distinct, all of them are after the
    migration. *)
Theorem migration_assigns_fresh_serials (name : string) (db : DB) :
  let old := serials db name in
  let new := serials (exec migrate_serial_numbers db) name in
  In name ["orders"; "visits"] ->
  List.length new = List.length old
  /\ Forall (fun s => s <> None) new
  /\ (forall i n, nth_error old i = Some (Some n) -> nth_error new i = Some (Some n))
  /\ (forall i, nth_error old i = Some None ->
        exists n, nth_error new i = Some (Some n)
                  /\ forall m, In (Some m) old -> m < n)
  /\ (NoDup (filter (fun s => match s with Some _ => true | None => false end) old) ->
      NoDup new).
Proof.
  intros old new Hname. subst old new.
  destruct (migrate_serial_numbers_run db) as (_ & Ho & Hv & _).
  assert (Hcase : exists base,
            serials (exec migrate_serial_numbers db) name
            = fst (assign_serials (serials db name)
                     (match highest_serial (serials db name) with
                      | Some n => n
                      | None => base
                      end + 1) 0)).
  { cbn [In] in Hname. destruct Hname as [<-|[<-|[]]]; eauto. }
  destruct Hcase as [base ->].
  pose proof (next_after_highest (serials db name) base) as Hlt.
  destruct (assign_serials_spec (serials db name)
              (match highest_serial (serials db name) with
               | Some n => n
               | None => base
               end + 1) 0) as (Hl & _ & HF & Hk & Hn & _).
  split; [exact Hl|]. split; [exact HF|]. split; [exact Hk|]. split.
  - intros i Hi. destruct (Hn i Hi) as (n & Hn' & Hle). exists n. split; [exact Hn'|].
    intros m Hm. specialize (Hlt m Hm). lia.
  - now apply assign_serials_nodup.
Qed.

Lemma migration_assigns_fresh_serials_witness :
  let db := mkDB [] [] [] [] [] [] []
              (fun name => if String.eqb name "orders" then [None; Some 1004; None]
                           else []) 0 in
  let old := serials db "orders" in
  let new := serials (exec migrate_serial_numbers db) "orders" in
  List.length new = List.length old
  /\ Forall (fun s => s <> None) new
  /\ (forall i n, nth_error old i = Some (Some n) -> nth_error new i = Some (Some n))
  /\ (forall i, nth_error old i = Some None ->
        exists n, nth_error new i = Some (Some n)
                  /\ forall m, In (Some m) old -> m < n)
  /\ (NoDup (filter (fun s => match s with Some _ => true | None => false end) old) ->
      NoDup new).
Proof.
  apply (migration_assigns_fresh_serials "orders"
           (mkDB [] [] [] [] [] [] []
              (fun name => if String.eqb name "orders" then [None; Some 1004; None]
                           else []) 0)).
  simpl. left. reflexivity.
Defined.

(** Property X30.  [migrate_serial_numbers] is idempotent: run on a
    migrated database it reports 0 orders and 0 visits updated and
    changes no serial number; the migration leaves the invoices, the
    payments, the installments and the other collections as they
    were. *)
Theorem migration_runs_once (db : DB) :
  let migrated := exec migrate_serial_numbers db in
  outcome migrate_serial_numbers migrated = Ok (0, 0)
  /\ (forall name,
        serials (exec migrate_serial_numbers migrated) name = serials migrated name)
  /\ invoices migrated = invoices db
  /\ payments migrated = payments db
  /\ installments migrated = installments db
  /\ (forall name, ~ In name ["orders"; "visits"] -> serials migrated name = serials db name).
Proof.
  intros migrated.
  destruct (migrate_serial_numbers_run db) as (_ & Ho & Hv & Hother & Hi & Hp & Hin & _).
  fold migrated in Ho, Hv, Hother, Hi, Hp, Hin.
  assert (HFo : Forall (fun s => s <> None) (serials migrated "orders")).
  { rewrite Ho. apply assign_serials_spec. }
  assert (HFv : Forall (fun s => s <> None) (serials migrated "visits")).
  { rewrite Hv. apply assign_serials_spec. }
  destruct (migrate_serial_numbers_run migrated) as (Hout & Ho' & Hv' & Hother' & _).
  rewrite (assign_serials_complete _ _ 0 HFo) in Hout, Ho'.
  rewrite (assign_serials_complete _ _ 0 HFv) in Hout, Hv'.
  cbn [fst snd] in Hout, Ho', Hv'.
  split; [exact Hout|]. split.
  - intros name. destruct (string_dec name "orders") as [->|Hno]; [exact Ho'|].
    destruct (string_dec name "visits") as [->|Hnv]; [exact Hv'|].
    apply Hother'. cbn [In]. intros [H|[H|[]]]; congruence.
  - repeat split; assumption.
Qed.
